(** * PyEdit: the line buffer, its edit operations, the viewport, the
    highlighter and the indentation cleanup of [python_editor_tui.py]

    The editor is embedded shallowly.  A Python [str] is a list of Unicode
    code points, a Python [int] is a [Z], a [list] is a Rocq list indexed
    with Python's rules (negative indices count from the end, an index out
    of range raises [IndexError]), a [dict] is a [gmap] and a [set] a
    [gset].  A function that mutates its [Buffer] argument returns the
    mutated buffer; a function that can raise returns a [result]. *)

From Stdlib Require Import ZArith Ascii String DecimalString.
From stdpp Require Import gmap list.

Local Open Scope Z_scope.

(** ** Python values and primitives *)

(** A string is a sequence of code points. *)
Abbreviation str := (list N).

(** An ASCII literal as a Python string. *)
Definition py (s : string) : str :=
  N_of_ascii <$> list_ascii_of_string s.

Definition LF : N := 10%N.
Definition TAB : N := 9%N.
Definition SPACE : N := 32%N.
Definition COLON : N := 58%N.

Inductive exn :=
  | IndexError
  | OSError
  | UnicodeEncodeError
  | TokenError
  | IndentationError
  | SyntaxError.

Inductive result (A : Type) :=
  | Ok (a : A)
  | Raise (e : exn).
Arguments Ok {A} a.
Arguments Raise {A} e.

#[global] Instance result_bind : MBind result := fun A B k r =>
  match r with
  | Ok a => k a
  | Raise e => Raise e
  end.

(** [len(l)] *)
Definition len {A} (l : list A) : Z := Z.of_nat (length l).

(** A slice bound [i] of a sequence of length [n]: a negative bound counts
    from the end, and the result is clamped to [0..n]. *)
Definition slice_bound (n i : Z) : nat :=
  Z.to_nat (if i <? 0 then Z.max 0 (i + n) else Z.min i n).

(** [l[:i]] and [l[i:]] *)
Definition slice_to {A} (l : list A) (i : Z) : list A :=
  take (slice_bound (len l) i) l.
Definition slice_from {A} (l : list A) (i : Z) : list A :=
  drop (slice_bound (len l) i) l.

(** [del l[a:b]] *)
Definition del_slice {A} (l : list A) (a b : Z) : list A :=
  let a' := slice_bound (len l) a in
  let b' := slice_bound (len l) b in
  if (a' <? b')%nat then take a' l ++ drop b' l else l.

(** The position [l[i]] designates, or [IndexError]. *)
Definition item_index (n i : Z) : result nat :=
  let j := if i <? 0 then i + n else i in
  if (0 <=? j) && (j <? n) then Ok (Z.to_nat j) else Raise IndexError.

(** [l[i]] *)
Definition getitem {A} (l : list A) (i : Z) : result A :=
  k ← item_index (len l) i;
  match l !! k with
  | Some x => Ok x
  | None => Raise IndexError
  end.

(** [l[i] = v] *)
Definition setitem {A} (l : list A) (i : Z) (v : A) : result (list A) :=
  k ← item_index (len l) i;
  Ok (<[k := v]> l).

(** [l.insert(i, v)]: never raises, the position is clamped. *)
Definition list_insert_at {A} (l : list A) (i : Z) (v : A) : list A :=
  let k := slice_bound (len l) i in
  take k l ++ v :: drop k l.

(** [l.pop(i)], keeping the list only. *)
Definition list_pop {A} (l : list A) (i : Z) : result (list A) :=
  k ← item_index (len l) i;
  Ok (delete k l).

(** [s * n] *)
Definition str_mul (s : str) (n : Z) : str :=
  concat (replicate (Z.to_nat n) s).

(** [s.lstrip(chars)] *)
Fixpoint lstrip (chars : str) (s : str) : str :=
  match s with
  | [] => []
  | c :: s' => if bool_decide (c ∈ chars) then lstrip chars s' else s
  end.

(** The characters [str.isspace] accepts, which [rstrip()] removes. *)
Definition is_space (c : N) : bool :=
  ((9 <=? c) && (c <=? 13) || (28 <=? c) && (c <=? 32)
   || (c =? 133) || (c =? 160) || (c =? 5760)
   || (8192 <=? c) && (c <=? 8202)
   || (c =? 8232) || (c =? 8233) || (c =? 8239) || (c =? 8287)
   || (c =? 12288))%N.

Fixpoint lstrip_space (s : str) : str :=
  match s with
  | [] => []
  | c :: s' => if is_space c then lstrip_space s' else s
  end.

(** [s.rstrip()] *)
Definition rstrip (s : str) : str := reverse (lstrip_space (reverse s)).

(** [s.startswith(p)] and [s.endswith(p)] *)
Fixpoint startswith (s p : str) : bool :=
  match p, s with
  | [], _ => true
  | _ :: _, [] => false
  | a :: p', b :: s' => (a =? b)%N && startswith s' p'
  end.
Definition endswith (s p : str) : bool := startswith (reverse s) (reverse p).

(** [sep.join(parts)] *)
Fixpoint join (sep : str) (parts : list str) : str :=
  match parts with
  | [] => []
  | [p] => p
  | p :: rest => p ++ sep ++ join sep rest
  end.

(** [s.find(sub, start)]: the lowest index at or after [start] where [sub]
    occurs, or [-1]. *)
Fixpoint find_at (sub s : str) (i : Z) : Z :=
  if startswith s sub then i
  else match s with
       | [] => -1
       | _ :: s' => find_at sub s' (i + 1)
       end.
Definition find (s sub : str) (start : Z) : Z :=
  let st := if start <? 0 then Z.max 0 (start + len s) else start in
  if len s <? st then -1 else find_at sub (drop (Z.to_nat st) s) st.

(** [sub in s] for strings *)
Definition contains (s sub : str) : bool := negb (find s sub 0 =? -1).

(** [s.replace(old, new)] for a pattern [old] of one character, the only
    use the editor makes of it. *)
Definition replace_char (old : N) (new : str) (s : str) : str :=
  concat ((fun c => if (c =? old)%N then new else [c]) <$> s).

(** [str(n)] for an integer *)
Definition str_of_int (n : Z) : str := py (NilZero.string_of_int (Z.to_int n)).

(** The characters [str.splitlines] breaks a line at. *)
Definition is_linebreak (c : N) : bool :=
  ((10 <=? c) && (c <=? 13) || (28 <=? c) && (c <=? 30)
   || (c =? 133) || (c =? 8232) || (c =? 8233))%N.

(** Cutting a text at the characters [brk] accepts, a carriage return and
    the line feed after it counting as one break; the piece after the last
    break is kept unless it is empty. *)
Fixpoint split_breaks (brk : N -> bool) (cur : str) (after_cr : bool)
    (s : str) : list str :=
  match s with
  | [] => match cur with [] => [] | _ => [cur] end
  | c :: rest =>
      if after_cr && (c =? 10)%N then split_breaks brk [] false rest
      else if brk c then cur :: split_breaks brk [] (c =? 13)%N rest
      else split_breaks brk (cur ++ [c]) false rest
  end.

(** [s.splitlines()] *)
Definition splitlines (s : str) : list str :=
  split_breaks is_linebreak [] false s.

(** [lst or [""]] *)
Definition or_empty_line (l : list str) : list str :=
  match l with [] => [[]] | _ => l end.

(** ** The buffer (lines 30-42) *)

Definition INDENT_WIDTH : Z := 4.

Record Buffer := mkBuffer {
  lines : list str;
  file_path : option str;
  cursor_y : Z;
  cursor_x : Z;
  preferred_x : Z;
  scroll_y : Z;
  scroll_x : Z;
  dirty : bool;
  selecting : bool;
  selection_start : option Z;
  selection_end : option Z
}.

Definition set_lines (b : Buffer) (v : list str) : Buffer :=
  mkBuffer v (file_path b) (cursor_y b) (cursor_x b) (preferred_x b)
    (scroll_y b) (scroll_x b) (dirty b) (selecting b) (selection_start b)
    (selection_end b).
Definition set_cursor_y (b : Buffer) (v : Z) : Buffer :=
  mkBuffer (lines b) (file_path b) v (cursor_x b) (preferred_x b)
    (scroll_y b) (scroll_x b) (dirty b) (selecting b) (selection_start b)
    (selection_end b).
Definition set_cursor_x (b : Buffer) (v : Z) : Buffer :=
  mkBuffer (lines b) (file_path b) (cursor_y b) v (preferred_x b)
    (scroll_y b) (scroll_x b) (dirty b) (selecting b) (selection_start b)
    (selection_end b).
Definition set_preferred_x (b : Buffer) (v : Z) : Buffer :=
  mkBuffer (lines b) (file_path b) (cursor_y b) (cursor_x b) v
    (scroll_y b) (scroll_x b) (dirty b) (selecting b) (selection_start b)
    (selection_end b).
Definition set_scroll_y (b : Buffer) (v : Z) : Buffer :=
  mkBuffer (lines b) (file_path b) (cursor_y b) (cursor_x b) (preferred_x b)
    v (scroll_x b) (dirty b) (selecting b) (selection_start b)
    (selection_end b).
Definition set_scroll_x (b : Buffer) (v : Z) : Buffer :=
  mkBuffer (lines b) (file_path b) (cursor_y b) (cursor_x b) (preferred_x b)
    (scroll_y b) v (dirty b) (selecting b) (selection_start b)
    (selection_end b).
Definition set_dirty (b : Buffer) (v : bool) : Buffer :=
  mkBuffer (lines b) (file_path b) (cursor_y b) (cursor_x b) (preferred_x b)
    (scroll_y b) (scroll_x b) v (selecting b) (selection_start b)
    (selection_end b).

(** The default buffer [Buffer()]. *)
Definition new_buffer : Buffer :=
  mkBuffer [[]] None 0 0 0 0 0 false false None None.

(** ** Selection (lines 166-209) *)

Definition clear_selection (b : Buffer) : Buffer :=
  mkBuffer (lines b) (file_path b) (cursor_y b) (cursor_x b) (preferred_x b)
    (scroll_y b) (scroll_x b) (dirty b) false None None.

Definition has_selection (b : Buffer) : bool :=
  match selection_start b, selection_end b with
  | Some _, Some _ => true
  | _, _ => false
  end.

Definition selection_range (b : Buffer) : option (Z * Z) :=
  if negb (has_selection b) then None
  else match selection_start b, selection_end b with
       | Some s, Some e => if s <=? e then Some (s, e) else Some (e, s)
       | _, _ => None
       end.

(** [delete_selection]: the buffer after the call and the value returned. *)
Definition delete_selection (b : Buffer) : Buffer * bool :=
  match selection_range b with
  | None => (b, false)
  | Some (s, e) =>
      let s := Z.max 0 (Z.min s (len (lines b) - 1)) in
      let e := Z.max 0 (Z.min e (len (lines b) - 1)) in
      if e <? s then (b, false)
      else
        let ls := del_slice (lines b) s (e + 1) in
        let ls := match ls with [] => [[]] | _ => ls end in
        let b := set_lines b ls in
        let b := set_cursor_y b (Z.min s (len (lines b) - 1)) in
        let b := set_cursor_x b 0 in
        let b := set_preferred_x b 0 in
        let b := set_dirty b true in
        (clear_selection b, true)
  end.

(** The guard the four edit operations open with. *)
Definition selection_pending (b : Buffer) : bool :=
  has_selection b && negb (selecting b).

(** ** Edit operations (lines 212-279) *)

Definition insert_char (b : Buffer) (ch : str) : result Buffer :=
  let b := if selection_pending b then fst (delete_selection b) else b in
  line ← getitem (lines b) (cursor_y b);
  ls ← setitem (lines b) (cursor_y b)
          (slice_to line (cursor_x b) ++ ch ++ slice_from line (cursor_x b));
  let b := set_lines b ls in
  let b := set_cursor_x b (cursor_x b + len ch) in
  let b := set_preferred_x b (cursor_x b) in
  Ok (set_dirty b true).

Definition newline (b : Buffer) : result Buffer :=
  let b := if selection_pending b then fst (delete_selection b) else b in
  line ← getitem (lines b) (cursor_y b);
  let before := slice_to line (cursor_x b) in
  let after := slice_from line (cursor_x b) in
  let indent := len before - len (lstrip [SPACE] before) in
  let extra := if endswith (rstrip before) [COLON] then INDENT_WIDTH else 0 in
  ls ← setitem (lines b) (cursor_y b) before;
  let ls := list_insert_at ls (cursor_y b + 1)
              (str_mul [SPACE] (indent + extra) ++ lstrip [SPACE] after) in
  let b := set_lines b ls in
  let b := set_cursor_y b (cursor_y b + 1) in
  let b := set_cursor_x b (indent + extra) in
  let b := set_preferred_x b (cursor_x b) in
  Ok (set_dirty b true).

Definition backspace (b : Buffer) : result Buffer :=
  if selection_pending b then Ok (fst (delete_selection b))
  else if 0 <? cursor_x b then
    line ← getitem (lines b) (cursor_y b);
    ls ← setitem (lines b) (cursor_y b)
            (slice_to line (cursor_x b - 1) ++ slice_from line (cursor_x b));
    let b := set_lines b ls in
    let b := set_cursor_x b (cursor_x b - 1) in
    let b := set_preferred_x b (cursor_x b) in
    Ok (set_dirty b true)
  else if cursor_y b =? 0 then Ok b
  else
    prev_line ← getitem (lines b) (cursor_y b - 1);
    curr_line ← getitem (lines b) (cursor_y b);
    let b := set_cursor_x b (len prev_line) in
    ls ← setitem (lines b) (cursor_y b - 1) (prev_line ++ curr_line);
    ls ← list_pop ls (cursor_y b);
    let b := set_lines b ls in
    let b := set_cursor_y b (cursor_y b - 1) in
    let b := set_preferred_x b (cursor_x b) in
    Ok (set_dirty b true).

Definition delete_forward (b : Buffer) : result Buffer :=
  if selection_pending b then Ok (fst (delete_selection b))
  else
    line ← getitem (lines b) (cursor_y b);
    if cursor_x b <? len line then
      ls ← setitem (lines b) (cursor_y b)
              (slice_to line (cursor_x b) ++ slice_from line (cursor_x b + 1));
      Ok (set_dirty (set_lines b ls) true)
    else if len (lines b) - 1 <=? cursor_y b then Ok b
    else
      next_line ← getitem (lines b) (cursor_y b + 1);
      ls ← setitem (lines b) (cursor_y b) (line ++ next_line);
      ls ← list_pop ls (cursor_y b + 1);
      Ok (set_dirty (set_lines b ls) true).

(** ** The data-model invariant and sequences of edits *)

(** At least one line, the cursor on a line of the buffer, and its column
    between 0 and that line's length. *)
Definition buffer_ok (b : Buffer) : bool :=
  (1 <=? len (lines b)) && (0 <=? cursor_y b) && (cursor_y b <? len (lines b))
  && match lines b !! Z.to_nat (cursor_y b) with
     | Some line => (0 <=? cursor_x b) && (cursor_x b <=? len line)
     | None => false
     end.

Inductive EditOp :=
  | Insert (ch : str)
  | Backspace
  | DeleteForward.

Definition apply_op (b : Buffer) (op : EditOp) : result Buffer :=
  match op with
  | Insert ch => insert_char b ch
  | Backspace => backspace b
  | DeleteForward => delete_forward b
  end.

Fixpoint apply_ops (b : Buffer) (ops : list EditOp) : result Buffer :=
  match ops with
  | [] => Ok b
  | op :: rest => b' ← apply_op b op; apply_ops b' rest
  end.


(** ** Files (lines 121-131)

    A path is the list of its components below the directory the editor
    runs in, and [Path.parent] drops the last one.  The file system maps a
    path to what is there: a regular file with its text, or a directory.

    [Path.mkdir(parents=True, exist_ok=True)] goes down from the top: a
    component that is a directory is kept, a missing one is created, and a
    regular file in the way raises [FileExistsError] or
    [NotADirectoryError], both of them [OSError].  [Path.write_text] opens
    the file for writing, which raises [OSError] when the path is a
    directory or its parent is none; it then encodes the text as UTF-8,
    which fails on a surrogate code point, and writes line feeds as they
    are.  [Path.read_text] raises [OSError] unless the path is a regular
    file, and gives its text back with universal newlines: a carriage
    return, alone or before a line feed, is read as a line feed.
    Permissions, quotas and devices are outside the model. *)

Inductive Node :=
  | File (text : str)
  | Dir.

Abbreviation Path := (list str).
Abbreviation FileSystem := (gmap Path Node).

Definition parent (path : Path) : Path := removelast path.


Definition is_dir (fs : FileSystem) (path : Path) : bool :=
  match fs !! path with Some Dir => true | _ => false end.

(** [mkdir] with [parents] and [exist_ok], from [base] down through the
    components [rest]. *)
Fixpoint mkdir_below (fs : FileSystem) (base : Path) (rest : list str) :
    result FileSystem :=
  match fs !! base with
  | Some (File _) => Raise OSError
  | found =>
      let fs := match found with
                | None => <[base := Dir]> fs
                | Some _ => fs
                end in
      match rest with
      | [] => Ok fs
      | name :: rest => mkdir_below fs (base ++ [name]) rest
      end
  end.

Definition mkdir_parents (fs : FileSystem) (dir : Path) : result FileSystem :=
  mkdir_below fs [] dir.

Definition is_surrogate (c : N) : bool := ((55296 <=? c) && (c <=? 57343))%N.

Definition write_text (fs : FileSystem) (path : Path) (text : str) :
    result FileSystem :=
  if is_dir fs path || negb (is_dir fs (parent path)) then Raise OSError
  else if forallb (fun c => negb (is_surrogate c)) text
  then Ok (<[path := File text]> fs)
  else Raise UnicodeEncodeError.

Fixpoint universal_newlines (after_cr : bool) (s : str) : str :=
  match s with
  | [] => []
  | c :: rest =>
      if after_cr && (c =? 10)%N then universal_newlines false rest
      else if (c =? 13)%N then LF :: universal_newlines true rest
      else c :: universal_newlines false rest
  end.

Definition read_text (fs : FileSystem) (path : Path) : result str :=
  match fs !! path with
  | Some (File text) => Ok (universal_newlines false text)
  | _ => Raise OSError
  end.

Definition load_file (fs : FileSystem) (path : Path) : result (list str) :=
  text ← read_text fs path;
  let ls := splitlines text in
  let ls := if endswith text [LF] then ls ++ [[]] else ls in
  Ok (or_empty_line ls).

Definition save_file (fs : FileSystem) (path : Path) (ls : list str) :
    result FileSystem :=
  fs ← mkdir_parents fs (parent path);
  write_text fs path (join [LF] ls).




(** ** The viewport (lines 138-155) *)

Definition keep_cursor_in_bounds (b : Buffer) : result Buffer :=
  let b := set_cursor_y b (Z.max 0 (Z.min (cursor_y b) (len (lines b) - 1))) in
  line ← getitem (lines b) (cursor_y b);
  Ok (set_cursor_x b (Z.max 0 (Z.min (cursor_x b) (len line)))).

Definition ensure_cursor_visible (b : Buffer) (body_h editor_w : Z) : Buffer :=
  let b :=
    if cursor_y b <? scroll_y b then set_scroll_y b (cursor_y b)
    else if scroll_y b + body_h <=? cursor_y b
         then set_scroll_y b (cursor_y b - body_h + 1)
         else b in
  let b :=
    if cursor_x b <? scroll_x b then set_scroll_x b (cursor_x b)
    else if scroll_x b + editor_w <=? cursor_x b
         then set_scroll_x b (cursor_x b - editor_w + 1)
         else b in
  let b := set_scroll_y b (Z.max 0 (scroll_y b)) in
  set_scroll_x b (Z.max 0 (scroll_x b)).

(** ** The editor state and searching (lines 55-73, 134-135, 532-563) *)

Record EditorState := mkEditorState {
  buffers : list Buffer;
  active : Z;
  clipboard : list str;
  last_search : str;
  status : str;
  show_help : bool
}.

Definition set_status (st : EditorState) (message : str) : EditorState :=
  mkEditorState (buffers st) (active st) (clipboard st) (last_search st)
    message (show_help st).

Definition current_buffer (st : EditorState) : result Buffer :=
  getitem (buffers st) (active st).

(** [current_buffer] hands out the buffer object held in [state.buffers],
    so what a function assigns to its fields is seen through the state: the
    mutated buffer is put back in its slot. *)
Definition store_buffer (st : EditorState) (b : Buffer) : result EditorState :=
  bs ← setitem (buffers st) (active st) b;
  Ok (mkEditorState bs (active st) (clipboard st) (last_search st)
        (status st) (show_help st)).

(** [range(a, b)] *)
Definition py_range (a b : Z) : list Z := seqZ a (b - a).

(** One search loop of [find_next]: the first line of [idxs], in order,
    where [query] is found from column [col], with the position found. *)
Fixpoint scan_lines (ls : list str) (query : str) (col : Z -> Z)
    (idxs : list Z) : result (option (Z * Z)) :=
  match idxs with
  | [] => Ok None
  | line_idx :: rest =>
      line ← getitem ls line_idx;
      let pos := find line query (col line_idx) in
      if pos =? -1 then scan_lines ls query col rest
      else Ok (Some (line_idx, pos))
  end.

Definition move_to_match (b : Buffer) (line_idx pos : Z) : Buffer :=
  let b := set_cursor_y b line_idx in
  let b := set_cursor_x b pos in
  set_preferred_x b (cursor_x b).

Definition find_next (st : EditorState) : result EditorState :=
  buf ← current_buffer st;
  let query := last_search st in
  if bool_decide (query = []) then Ok (set_status st (py "Find: no search term."))
  else
    let start_line := cursor_y buf in
    let start_col := cursor_x buf + 1 in
    hit ← scan_lines (lines buf) query
            (fun line_idx => if line_idx =? start_line then start_col else 0)
            (py_range start_line (len (lines buf)));
    match hit with
    | Some (line_idx, pos) =>
        st ← store_buffer st (move_to_match buf line_idx pos);
        Ok (set_status st (py "Found '" ++ query ++ py "' at line "
                           ++ str_of_int (line_idx + 1) ++ py "."))
    | None =>
        hit ← scan_lines (lines buf) query (fun _ => 0)
                (py_range 0 (start_line + 1));
        match hit with
        | Some (line_idx, pos) =>
            st ← store_buffer st (move_to_match buf line_idx pos);
            Ok (set_status st (py "Wrapped to '" ++ query ++ py "' at line "
                               ++ str_of_int (line_idx + 1) ++ py "."))
        | None => Ok (set_status st (py "'" ++ query ++ py "' not found."))
        end
    end.

(** ** Tokens

    [tokenize.generate_tokens] belongs to the Python standard library, not
    to the editor.  A run of the generator is the sequence of tokens it
    yields, followed either by normal exhaustion or by an exception; the
    loop bodies of the editor cannot influence it.  [IndentationError]
    includes its subclass [TabError]; [SyntaxError] stands for a syntax
    error that is not an indentation error. *)

Inductive TokenType :=
  | ENDMARKER | NAME | NUMBER | STRING | NEWLINE | INDENT | DEDENT | OP
  | ERRORTOKEN | COMMENT | NL | ENCODING | OTHER_TOKEN.

#[global] Instance TokenType_eq_dec : EqDecision TokenType.
Proof. solve_decision. Defined.

(** A token: its type, its text, and the (row, column) where it starts and
    where it ends; rows count from 1, columns from 0.  The [line]
    attribute of Python's [TokenInfo] is left out: the editor never reads
    it. *)
Record TokenInfo := mkToken {
  tok_type : TokenType;
  tok_string : str;
  tok_start : Z * Z;
  tok_end : Z * Z
}.

Record TokenStream := mkStream {
  yielded : list TokenInfo;
  raised : option exn
}.

(** [keyword.kwlist] *)
Definition kwlist : list str :=
  py <$> ["False"; "None"; "True"; "and"; "as"; "assert"; "async"; "await";
          "break"; "class"; "continue"; "def"; "del"; "elif"; "else";
          "except"; "finally"; "for"; "from"; "global"; "if"; "import";
          "in"; "is"; "lambda"; "nonlocal"; "not"; "or"; "pass"; "raise";
          "return"; "try"; "while"; "with"; "yield"]%string.

(** The styles of the highlighter; the source writes them as the strings
    [style_name] gives, and the empty string for no style. *)
Inductive Style :=
  | comment | string_style | number | decorator | keyword | defname
  | classname | builtin.

Definition style_name (s : Style) : str :=
  match s with
  | comment => py "comment"
  | string_style => py "string"
  | number => py "number"
  | decorator => py "decorator"
  | keyword => py "keyword"
  | defname => py "defname"
  | classname => py "classname"
  | builtin => py "builtin"
  end.

Record TokenSpan := mkSpan {
  start : Z;
  end_ : Z;
  style : Style
}.

(** The text both passes hand to the tokenizer. *)
Definition source_text (ls : list str) : str :=
  let text := join [LF] ls in
  if endswith text [LF] then text else text ++ [LF].

(** [spans.setdefault(line_no, []).append(TokenSpan(...))], guarded. *)
Definition add_span (spans : gmap Z (list TokenSpan))
    (line_no start_col end_col : Z) (sty : Style) : gmap Z (list TokenSpan) :=
  if end_col <=? start_col then spans
  else <[line_no := default [] (spans !! line_no)
                    ++ [mkSpan start_col end_col sty]]> spans.

(** [add_span(line_no, start_col, len(lines[line_no - 1]), style)] under
    the guard [0 <= line_no - 1 < len(lines)]. *)
Definition add_span_to_eol (ls : list str) (spans : gmap Z (list TokenSpan))
    (line_no start_col : Z) (sty : Style) : gmap Z (list TokenSpan) :=
  if 0 <=? line_no - 1 then
    match ls !! Z.to_nat (line_no - 1) with
    | Some l => add_span spans line_no start_col (len l) sty
    | None => spans
    end
  else spans.

(** The spans of one styled token (lines 665-673). *)
Definition emit_token (ls : list str) (spans : gmap Z (list TokenSpan))
    (tok : TokenInfo) (sty : Style) : gmap Z (list TokenSpan) :=
  let '(start_line, start_col) := tok_start tok in
  let '(end_line, end_col) := tok_end tok in
  if start_line =? end_line then
    add_span spans start_line start_col end_col sty
  else
    let spans := add_span_to_eol ls spans start_line start_col sty in
    let spans :=
      foldl (fun spans line_no => add_span_to_eol ls spans line_no 0 sty)
        spans (py_range (start_line + 1) end_line) in
    add_span spans end_line 0 end_col sty.

(** [spans[line_no].sort(key=lambda span: span.start)]: a stable sort. *)
Fixpoint insert_span (x : TokenSpan) (l : list TokenSpan) : list TokenSpan :=
  match l with
  | [] => [x]
  | y :: l' => if start x <=? start y then x :: l else y :: insert_span x l'
  end.
Definition sort_spans (l : list TokenSpan) : list TokenSpan :=
  foldr insert_span [] l.

(** The state the highlighting loop carries. *)
Record Classifier := mkClassifier {
  spans : gmap Z (list TokenSpan);
  pending_def : bool;
  pending_class : bool
}.

(** The state the indentation loop carries. *)
Record IndentState := mkIndentState {
  line_indents : gmap Z Z;
  skip_lines : gset Z;
  current_indent : Z;
  paren_level : Z
}.

(** Leading tabs and spaces with each tab replaced by one indent unit
    (lines 473-475, and 460-462 in the fallback). *)
Definition expand_leading_tabs (raw : str) : str :=
  let prefix_len := len raw - len (lstrip [SPACE; TAB] raw) in
  let prefix :=
    replace_char TAB (str_mul [SPACE] INDENT_WIDTH) (slice_to raw prefix_len) in
  prefix ++ slice_from raw prefix_len.

(** The body of the loop of [cleanup_indentation] (lines 469-483). *)
Definition clean_line (indents : gmap Z Z) (skip : gset Z) (idx : Z)
    (raw : str) : str :=
  if bool_decide (idx ∈ skip) then raw
  else
    let raw := expand_leading_tabs raw in
    let stripped := rstrip raw in
    match stripped with
    | [] => []
    | _ =>
        let indent_level := default 0 (indents !! idx) in
        let content := lstrip [SPACE] stripped in
        str_mul [SPACE] (indent_level * INDENT_WIDTH) ++ content
    end.

Section Tokenizer.

(** The tokenizer, and [set(dir(__builtins__))]. *)
Variable generate_tokens : str -> TokenStream.
Variable builtins : gset str.

(** The style of a token and the flags after it (lines 635-660). *)
Definition classify (pd pc : bool) (tok : TokenInfo) :
    option Style * bool * bool :=
  match tok_type tok with
  | COMMENT => (Some comment, pd, pc)
  | STRING => (Some string_style, pd, pc)
  | NUMBER => (Some number, pd, pc)
  | OP =>
      if bool_decide (tok_string tok = py "@") then (Some decorator, pd, pc)
      else (None, pd, pc)
  | NAME =>
      if bool_decide (tok_string tok ∈ kwlist) then
        if bool_decide (tok_string tok = py "def") then
          (Some keyword, true, false)
        else if bool_decide (tok_string tok = py "class") then
          (Some keyword, false, true)
        else (Some keyword, pd, pc)
      else if pd then (Some defname, false, pc)
      else if pc then (Some classname, pd, false)
      else if bool_decide (tok_string tok ∈ builtins) then
        (Some builtin, pd, pc)
      else (None, pd, pc)
  | _ => (None, pd, pc)
  end.

(** One turn of the highlighting loop. *)
Definition highlight_step (ls : list str) (st : Classifier)
    (tok : TokenInfo) : Classifier :=
  let '(sty, pd, pc) := classify (pending_def st) (pending_class st) tok in
  match sty with
  | None => mkClassifier (spans st) pd pc
  | Some sty => mkClassifier (emit_token ls (spans st) tok sty) pd pc
  end.

Definition highlight_loop (ls : list str) (toks : list TokenInfo) :
    Classifier :=
  foldl (highlight_step ls) (mkClassifier ∅ false false) toks.

Definition build_syntax_spans (ls : list str) :
    result (gmap Z (list TokenSpan)) :=
  let run := generate_tokens (source_text ls) in
  let st := highlight_loop ls (yielded run) in
  match raised run with
  | None => Ok (sort_spans <$> spans st)
  | Some TokenError | Some IndentationError => Ok ∅
  | Some e => Raise e
  end.

(** One turn of the indentation loop (lines 421-448). *)
Definition indent_step (st : IndentState) (tok : TokenInfo) : IndentState :=
  let start_line := (tok_start tok).1 in
  let end_line := (tok_end tok).1 in
  let paren :=
    if bool_decide (tok_type tok = OP) then
      if contains (py "([{") (tok_string tok) then paren_level st + 1
      else if contains (py ")]}") (tok_string tok)
           then Z.max 0 (paren_level st - 1)
           else paren_level st
    else paren_level st in
  let skip :=
    if bool_decide (tok_type tok = STRING) && negb (start_line =? end_line)
    then foldl (fun skip line_no => {[line_no]} ∪ skip) (skip_lines st)
           (py_range start_line (end_line + 1))
    else skip_lines st in
  let skip := if 0 <? paren then {[start_line]} ∪ skip else skip in
  match tok_type tok with
  | INDENT =>
      let cur := current_indent st + 1 in
      mkIndentState
        (if bool_decide (start_line ∈ skip) then line_indents st
         else <[start_line := cur]> (line_indents st))
        skip cur paren
  | DEDENT =>
      let cur := Z.max 0 (current_indent st - 1) in
      mkIndentState
        (if bool_decide (start_line ∈ skip) then line_indents st
         else <[start_line := cur]> (line_indents st))
        skip cur paren
  | NL | NEWLINE | ENCODING | ENDMARKER =>
      mkIndentState (line_indents st) skip (current_indent st) paren
  | _ =>
      mkIndentState
        (if bool_decide (start_line ∈ skip)
            || bool_decide (is_Some (line_indents st !! start_line))
         then line_indents st
         else <[start_line := current_indent st]> (line_indents st))
        skip (current_indent st) paren
  end.

Definition compute_indents (ls : list str) :
    result (option (gmap Z Z * gset Z)) :=
  let run := generate_tokens (source_text ls) in
  let st := foldl indent_step (mkIndentState ∅ ∅ 0 0) (yielded run) in
  match raised run with
  | None => Ok (Some (line_indents st, skip_lines st))
  | Some TokenError | Some IndentationError | Some SyntaxError => Ok None
  | Some e => Raise e
  end.

Definition cleanup_indentation (ls : list str) : result (list str * str) :=
  computed ← compute_indents ls;
  match computed with
  | None =>
      Ok (or_empty_line ((fun raw => rstrip (expand_leading_tabs raw)) <$> ls),
          py "Cleanup: normalized tabs + trailing whitespace (parse failed).")
  | Some (indents, skip) =>
      Ok (or_empty_line
            (imap (fun i raw => clean_line indents skip (Z.of_nat i + 1) raw)
               ls),
          py "Indentation normalized to 4 spaces.")
  end.

End Tokenizer.

(** ** What the tokenizer promises about positions

    The rows of a text are its pieces between line feeds, as
    [io.StringIO(text).readline] hands them to the tokenizer.  The tokens
    that stand for source text (comments, strings, numbers, operators and
    names) come in source order without overlapping, and each starts and
    ends inside a row of the text, before that row's line feed. *)

Definition physical_rows (text : str) : list str :=
  split_breaks (N.eqb LF) [] false text.

Definition pos_le (p q : Z * Z) : bool :=
  (p.1 <? q.1) || ((p.1 =? q.1) && (p.2 <=? q.2)).

Definition is_lexeme (t : TokenInfo) : bool :=
  match tok_type t with
  | COMMENT | STRING | NUMBER | OP | NAME => true
  | _ => false
  end.

Definition within (rows : list str) (p : Z * Z) : bool :=
  (1 <=? p.1) && (0 <=? p.2)
  && match rows !! Z.to_nat (p.1 - 1) with
     | Some row => p.2 <=? len row
     | None => false
     end.

Fixpoint well_positioned (rows : list str) (frontier : Z * Z)
    (toks : list TokenInfo) : bool :=
  match toks with
  | [] => true
  | t :: rest =>
      if is_lexeme t then
        pos_le frontier (tok_start t) && pos_le (tok_start t) (tok_end t)
        && within rows (tok_start t) && within rows (tok_end t)
        && well_positioned rows (tok_end t) rest
      else well_positioned rows frontier rest
  end.

Definition tokenizer_contract (text : str) (run : TokenStream) : bool :=
  well_positioned (physical_rows text) (1, 0) (yielded run).

(** No line feed inside a line of the buffer. *)
Definition no_line_feed (ls : list str) : bool :=
  forallb (forallb (fun c => negb (c =? LF)%N)) ls.

(** ** Recorded runs of the tokenizer

    The token streams CPython's [tokenize.generate_tokens] yields on the
    texts of the examples below, written out token by token. *)

Definition tk (ty : TokenType) (s : string) (srow scol erow ecol : Z) :
    TokenInfo :=
  mkToken ty (py s) (srow, scol) (erow, ecol).

(** On ["x = 1  # note\n"]. *)
Definition run_note : TokenStream :=
  mkStream
    [ tk NAME "x" 1 0 1 1; tk OP "=" 1 2 1 3; tk NUMBER "1" 1 4 1 5;
      tk COMMENT "# note" 1 7 1 13;
      mkToken NEWLINE [LF] (1, 13) (1, 14); tk ENDMARKER "" 2 0 2 0 ]
    None.

(** On ["x = (\n\t1)\n"]. *)
Definition run_paren_tab : TokenStream :=
  mkStream
    [ tk NAME "x" 1 0 1 1; tk OP "=" 1 2 1 3; tk OP "(" 1 4 1 5;
      mkToken NL [LF] (1, 5) (1, 6);
      tk NUMBER "1" 2 1 2 2; tk OP ")" 2 2 2 3;
      mkToken NEWLINE [LF] (2, 3) (2, 4); tk ENDMARKER "" 3 0 3 0 ]
    None.

(** On the text of [1] and [x = ] followed by an opening triple quote and
    [abc]: the string never ends. *)
Definition run_open_string : TokenStream :=
  mkStream
    [ tk NUMBER "1" 1 0 1 1; mkToken NEWLINE [LF] (1, 1) (1, 2);
      tk NAME "x" 2 0 2 1; tk OP "=" 2 2 2 3 ]
    (Some TokenError).

(** The buffers of the examples. *)
Definition lines_note : list str := [py "x = 1  # note"].
Definition lines_paren_tab : list str := [py "x = ("; TAB :: py "1)"].
Definition lines_open_string : list str :=
  [py "1"; py "x = " ++ [34; 34; 34]%N ++ py "abc"].

Definition sample_buffer : Buffer :=
  mkBuffer [py "ab"; py "c"] None 1 0 0 0 0 false false None None.

Definition indented_buffer : Buffer :=
  mkBuffer [py "    x"] None 0 5 5 0 0 false false None None.

(** ** Vocabulary for the statements about [newline] *)

(** The line under the cursor, and its two halves around the cursor. *)
Definition current_line (b : Buffer) : str :=
  default [] (lines b !! Z.to_nat (cursor_y b)).
Definition text_before (b : Buffer) : str :=
  slice_to (current_line b) (cursor_x b).
Definition text_after (b : Buffer) : str :=
  slice_from (current_line b) (cursor_x b).

(** The number of spaces a string starts with. *)
Definition leading_spaces (s : str) : Z := len s - len (lstrip [SPACE] s).

(** The indentation [newline] gives the new line. *)
Definition newline_indent (b : Buffer) : Z :=
  leading_spaces (text_before b)
  + (if endswith (rstrip (text_before b)) [COLON] then INDENT_WIDTH else 0).

(** A colon followed by nothing but white space ends the string. *)
Definition ends_with_colon (s : str) : Prop :=
  exists p ws, s = p ++ COLON :: ws /\ forallb is_space ws = true.

Definition cursor_in_indent_buffer : Buffer :=
  mkBuffer [py "    x"] None 0 2 2 0 0 false false None None.

(** A line with a form feed in it, and a line that is a lone surrogate. *)
Definition lines_form_feed : list str := [py "a" ++ [12%N] ++ py "b"].

(** The active buffer exists and satisfies the data-model invariant. *)
Definition state_ok (st : EditorState) : bool :=
  match current_buffer st with
  | Ok buf => buffer_ok buf
  | Raise _ => false
  end.

(** What [find_next] may change in a buffer: the cursor and the preferred
    column, nothing else. *)
Definition same_but_cursor (b b' : Buffer) : Prop :=
  lines b' = lines b /\ dirty b' = dirty b
  /\ selecting b' = selecting b
  /\ selection_start b' = selection_start b
  /\ selection_end b' = selection_end b
  /\ scroll_y b' = scroll_y b /\ scroll_x b' = scroll_x b
  /\ file_path b' = file_path b.

Definition search_state : EditorState :=
  mkEditorState
    [mkBuffer [py "foo bar"; py "baz foo"] None 0 0 0 0 0 true true (Some 0)
       (Some 0)]
    0 [] (py "foo") (py "Ready") true.

(** A buffer whose first entry holds a line feed, so that the text has
    three rows for two entries, and the run on that text. *)
Definition lines_embedded_lf : list str :=
  [py "x" ++ [LF] ++ py "12345"; py "1"].

Definition run_embedded_lf : TokenStream :=
  mkStream
    [ tk NAME "x" 1 0 1 1; mkToken NEWLINE [LF] (1, 1) (1, 2);
      tk NUMBER "12345" 2 0 2 5; mkToken NEWLINE [LF] (2, 5) (2, 6);
      tk NUMBER "1" 3 0 3 1; mkToken NEWLINE [LF] (3, 1) (3, 2);
      tk ENDMARKER "" 4 0 4 0 ]
    None.

(** The example of the specification, [def f():] over [  return 1], and
    the run on its text. *)
Definition lines_return : list str := [py "def f():"; py "  return 1"].

Definition run_return : TokenStream :=
  mkStream
    [ tk NAME "def" 1 0 1 3; tk NAME "f" 1 4 1 5; tk OP "(" 1 5 1 6;
      tk OP ")" 1 6 1 7; tk OP ":" 1 7 1 8;
      mkToken NEWLINE [LF] (1, 8) (1, 9);
      tk INDENT "  " 2 0 2 2; tk NAME "return" 2 2 2 8;
      tk NUMBER "1" 2 9 2 10; mkToken NEWLINE [LF] (2, 10) (2, 11);
      tk DEDENT "" 3 0 3 0; tk ENDMARKER "" 3 0 3 0 ]
    None.

(** The recorded runs as a tokenizer: each text of the examples is mapped
    to the run recorded on it.  On any other text the table has no record
    and answers with an empty run; the examples never ask for one. *)
Definition recorded_tokens (text : str) : TokenStream :=
  if bool_decide (text = source_text lines_note) then run_note
  else if bool_decide (text = source_text lines_paren_tab) then run_paren_tab
  else if bool_decide (text = source_text lines_open_string)
       then run_open_string
  else if bool_decide (text = source_text lines_embedded_lf)
       then run_embedded_lf
  else if bool_decide (text = source_text lines_return) then run_return
  else mkStream [] None.

(** ** Vocabulary for the statements about style spans *)

(** The spans of a line form a chain from column [from]: each is not
    empty and starts at or after the end of the one before. *)
Fixpoint spans_chain (from : Z) (l : list TokenSpan) : bool :=
  match l with
  | [] => true
  | s :: l' =>
      (from <=? start s) && (start s <? end_ s) && spans_chain (end_ s) l'
  end.

(** The invariant of the highlighting loop once the tokens up to position
    [frontier] are processed: the spans of every line form a chain inside
    that line of the buffer, no line after the frontier's has spans, and
    on the frontier's line they end at or before the frontier. *)
Definition spans_inv (ls : list str) (frontier : Z * Z)
    (m : gmap Z (list TokenSpan)) : Prop :=
  forall line_no l, m !! line_no = Some l ->
    spans_chain 0 l = true
    /\ line_no <= frontier.1
    /\ exists line,
         1 <= line_no /\ ls !! Z.to_nat (line_no - 1) = Some line
         /\ Forall (fun s => end_ s <= len line
                             /\ (line_no = frontier.1 -> end_ s <= frontier.2))
              l.

(** The styles of a line read off a span list, for the examples. *)
Definition span_triples (l : list TokenSpan) : list (Z * Z * Style) :=
  (fun s => (start s, end_ s, style s)) <$> l.

(** ** Proof automation *)

(** Reading a field of an updated buffer. *)
Ltac buffer_fields :=
  cbn [lines cursor_y cursor_x preferred_x scroll_y scroll_x dirty selecting
       selection_start selection_end file_path set_lines set_cursor_y
       set_cursor_x set_preferred_x set_scroll_y set_scroll_x set_dirty
       clear_selection] in *.

(** The comparisons of [ensure_cursor_visible], case by case. *)
Ltac viewport_cases :=
  unfold ensure_cursor_visible; buffer_fields;
  repeat match goal with
         | |- context [Z.ltb ?a ?b] => destruct (Z.ltb_spec a b); buffer_fields
         | |- context [Z.leb ?a ?b] => destruct (Z.leb_spec a b); buffer_fields
         end.

(** ** More of the editor *)

(** [truncate_text] (lines 111-118) *)
Definition truncate_text (value : str) (width : Z) : str :=
  if width <=? 0 then []
  else if len value <=? width then value
  else if width <=? 3 then slice_to value width
  else slice_to value (width - 3) ++ py "...".

(** [l[a:b]] *)
Definition slice {A} (l : list A) (a b : Z) : list A :=
  let a' := slice_bound (len l) a in
  let b' := slice_bound (len l) b in
  take (b' - a') (drop a' l).

(** [reset_view] and [update_selection] (lines 158-163, 186-188) *)
Definition reset_view (b : Buffer) : Buffer :=
  let b := set_cursor_y b 0 in
  let b := set_cursor_x b 0 in
  let b := set_preferred_x b 0 in
  let b := set_scroll_y b 0 in
  set_scroll_x b 0.

Definition update_selection (b : Buffer) : Buffer :=
  match selection_start b with
  | Some _ =>
      if selecting b then
        mkBuffer (lines b) (file_path b) (cursor_y b) (cursor_x b)
          (preferred_x b) (scroll_y b) (scroll_x b) (dirty b) (selecting b)
          (selection_start b) (Some (cursor_y b))
      else b
  | None => b
  end.

(** The key codes of curses the editor compares with. *)
Definition KEY_DOWN : Z := 258.
Definition KEY_UP : Z := 259.
Definition KEY_LEFT : Z := 260.
Definition KEY_RIGHT : Z := 261.
Definition KEY_HOME : Z := 262.
Definition KEY_BACKSPACE : Z := 263.
Definition KEY_DC : Z := 330.
Definition KEY_NPAGE : Z := 338.
Definition KEY_PPAGE : Z := 339.
Definition KEY_END : Z := 360.

(** [buf.cursor_x = min(len(buf.lines[buf.cursor_y]), buf.preferred_x)] *)
Definition snap_to_preferred (b : Buffer) : result Buffer :=
  line ← getitem (lines b) (cursor_y b);
  Ok (set_cursor_x b (Z.min (len line) (preferred_x b))).

(** The chain of cursor and editing keys of [handle_input] (lines
    903-944), which a key reaches when it is none of the command keys
    tested before it. *)
Definition edit_key (b : Buffer) (key body_h : Z) : result Buffer :=
  if key =? KEY_UP then
    snap_to_preferred (set_cursor_y b (Z.max 0 (cursor_y b - 1)))
  else if key =? KEY_DOWN then
    snap_to_preferred
      (set_cursor_y b (Z.min (len (lines b) - 1) (cursor_y b + 1)))
  else if key =? KEY_LEFT then
    b ← (if 0 <? cursor_x b then Ok (set_cursor_x b (cursor_x b - 1))
         else if 0 <? cursor_y b then
           let b := set_cursor_y b (cursor_y b - 1) in
           line ← getitem (lines b) (cursor_y b);
           Ok (set_cursor_x b (len line))
         else Ok b);
    Ok (set_preferred_x b (cursor_x b))
  else if key =? KEY_RIGHT then
    line ← getitem (lines b) (cursor_y b);
    let b :=
      if cursor_x b <? len line then set_cursor_x b (cursor_x b + 1)
      else if cursor_y b <? len (lines b) - 1 then
        set_cursor_x (set_cursor_y b (cursor_y b + 1)) 0
      else b in
    Ok (set_preferred_x b (cursor_x b))
  else if key =? KEY_HOME then
    let b := set_cursor_x b 0 in
    Ok (set_preferred_x b (cursor_x b))
  else if key =? KEY_END then
    line ← getitem (lines b) (cursor_y b);
    let b := set_cursor_x b (len line) in
    Ok (set_preferred_x b (cursor_x b))
  else if key =? KEY_PPAGE then
    snap_to_preferred (set_cursor_y b (Z.max 0 (cursor_y b - body_h)))
  else if key =? KEY_NPAGE then
    snap_to_preferred
      (set_cursor_y b (Z.min (len (lines b) - 1) (cursor_y b + body_h)))
  else if (key =? 10) || (key =? 13) then newline b
  else if (key =? KEY_BACKSPACE) || (key =? 127) || (key =? 8) then backspace b
  else if key =? KEY_DC then delete_forward b
  else if key =? 9 then insert_char b (str_mul [SPACE] INDENT_WIDTH)
  else if (32 <=? key) && (key <=? 126) then insert_char b [Z.to_N key]
  else Ok b.

(** The end of [handle_input] (lines 903-949): the key's effect, then the
    selection follows the cursor, the cursor is clamped and the window
    moved over it. *)
Definition handle_edit_key (b : Buffer) (key body_h editor_w : Z) :
    result Buffer :=
  b ← edit_key b key body_h;
  let b := update_selection b in
  b ← keep_cursor_in_bounds b;
  Ok (ensure_cursor_visible b body_h editor_w).

(** ** Tabs (lines 344-347, 363-367) *)

Definition set_active (st : EditorState) (v : Z) : EditorState :=
  mkEditorState (buffers st) v (clipboard st) (last_search st) (status st)
    (show_help st).

Definition new_tab_flow (st : EditorState) : EditorState :=
  let st :=
    mkEditorState (buffers st ++ [new_buffer]) (active st) (clipboard st)
      (last_search st) (status st) (show_help st) in
  let st := set_active st (len (buffers st) - 1) in
  set_status st (py "New tab " ++ str_of_int (active st + 1) ++ py ".").

(** Python's [%] takes the sign of the divisor, as [Z.modulo] does. *)
Definition switch_tab (st : EditorState) (delta : Z) : EditorState :=
  match buffers st with
  | [] => st
  | _ =>
      let st := set_active st ((active st + delta) mod len (buffers st)) in
      set_status st
        (py "Switched to tab " ++ str_of_int (active st + 1) ++ py ".")
  end.

(** ** Copying and cutting the selection (lines 498-518) *)

Definition set_clipboard (st : EditorState) (v : list str) : EditorState :=
  mkEditorState (buffers st) (active st) v (last_search st) (status st)
    (show_help st).

Definition copy_selection (st : EditorState) : result EditorState :=
  buf ← current_buffer st;
  match selection_range buf with
  | None => Ok (set_status st (py "Copy: no selection."))
  | Some (s, e) =>
      let st := set_clipboard st (slice (lines buf) s (e + 1)) in
      Ok (set_status st (py "Copied lines " ++ str_of_int (s + 1) ++ py "-"
                         ++ str_of_int (e + 1) ++ py "."))
  end.

Definition cut_selection (st : EditorState) : result EditorState :=
  buf ← current_buffer st;
  match selection_range buf with
  | None => Ok (set_status st (py "Cut: no selection."))
  | Some (s, e) =>
      let st := set_clipboard st (slice (lines buf) s (e + 1)) in
      st ← store_buffer st (fst (delete_selection buf));
      Ok (set_status st (py "Cut lines " ++ str_of_int (s + 1) ++ py "-"
                         ++ str_of_int (e + 1) ++ py "."))
  end.

(** ** The cleanup command (lines 488-495) *)

Definition cleanup_flow (generate_tokens : str -> TokenStream)
    (st : EditorState) : result EditorState :=
  buf ← current_buffer st;
  '(cleaned, message) ← cleanup_indentation generate_tokens (lines buf);
  let buf :=
    if bool_decide (cleaned = lines buf) then buf
    else set_dirty (set_lines buf cleaned) true in
  buf ← keep_cursor_in_bounds buf;
  st ← store_buffer st buf;
  Ok (set_status st message).



(** ** Drawing a highlighted line (lines 682-750)

    A curses attribute is a colour pair, bold, dim or neither.  The calls
    of [stdscr.addnstr(y, x, text, n, attr)] are recorded in order, not
    executed. *)

Record Attr := mkAttr {
  colour_pair : Z;
  bold : bool;
  dimmed : bool
}.

Definition base_attr : Attr := mkAttr 2 false false.

Definition style_attr (sty : Style) : Attr :=
  match sty with
  | comment => mkAttr 4 false true
  | string_style => mkAttr 5 false false
  | number => mkAttr 6 false false
  | keyword => mkAttr 7 true false
  | builtin => mkAttr 8 false false
  | defname | classname => mkAttr 9 true false
  | decorator => mkAttr 10 false false
  end.

Record DrawCall := mkDraw {
  draw_y : Z;
  draw_x : Z;
  draw_text : str;
  draw_n : Z;
  draw_attr : Attr
}.

(** The loop of [draw_highlighted_line]: the calls it makes from position
    [pos] on, and the position it ends at. *)
Fixpoint draw_spans (y x : Z) (line : str) (visible_start width pos : Z)
    (ss : list TokenSpan) : list DrawCall * Z :=
  let visible_end := visible_start + width in
  match ss with
  | [] => ([], pos)
  | span :: rest =>
      if end_ span <=? visible_start then
        draw_spans y x line visible_start width pos rest
      else if visible_end <=? start span then ([], pos)
      else
        let gap :=
          if pos <? start span then
            [mkDraw y (x + (pos - visible_start))
               (slice line pos (Z.min (start span) visible_end))
               (width - (pos - visible_start)) base_attr]
          else [] in
        let seg_start := Z.max (start span) visible_start in
        let seg_end := Z.min (end_ span) visible_end in
        let seg :=
          if seg_start <? seg_end then
            [mkDraw y (x + (seg_start - visible_start))
               (slice line seg_start seg_end)
               (width - (seg_start - visible_start))
               (style_attr (style span))]
          else [] in
        let '(calls, pos') :=
          draw_spans y x line visible_start width (Z.max pos seg_end) rest in
        (gap ++ seg ++ calls, pos')
  end.

Definition draw_highlighted_line (y x : Z) (line : str)
    (ss : list TokenSpan) (visible_start width : Z) : list DrawCall :=
  let visible_end := visible_start + width in
  let '(calls, pos) := draw_spans y x line visible_start width visible_start ss in
  calls
  ++ (if pos <? visible_end then
        [mkDraw y (x + (pos - visible_start)) (slice line pos visible_end)
           (width - (pos - visible_start)) base_attr]
      else []).

(** The calls lie on row [y] one after the other from column [x]: each
    starts where the text before it ended, is given the room left of [n]
    columns, and fits in it. *)
Fixpoint laid_out (y x n : Z) (calls : list DrawCall) : Prop :=
  match calls with
  | [] => True
  | c :: rest =>
      draw_y c = y /\ draw_x c = x /\ draw_n c = n
      /\ len (draw_text c) <= n
      /\ laid_out y (x + len (draw_text c)) (n - len (draw_text c)) rest
  end.

(** The text the calls put on the screen, in order. *)
Definition drawn_text (calls : list DrawCall) : str :=
  concat (draw_text <$> calls).

(** A triple-quoted string over three lines, [s = <3 quotes>a], [<TAB>b]
    and [<3 quotes>], and the run on its text. *)
Definition triple_quote : str := [34; 34; 34]%N.

Definition lines_docstring : list str :=
  [py "s = " ++ triple_quote ++ py "a"; TAB :: py "b"; triple_quote].

Definition run_docstring : TokenStream :=
  mkStream
    [ tk NAME "s" 1 0 1 1; tk OP "=" 1 2 1 3;
      mkToken STRING
        (triple_quote ++ py "a" ++ [LF; TAB] ++ py "b" ++ [LF] ++ triple_quote)
        (1, 4) (3, 3);
      mkToken NEWLINE [LF] (3, 3) (3, 4); tk ENDMARKER "" 4 0 4 0 ]
    None.

Definition docstring_tokens (text : str) : TokenStream :=
  if bool_decide (text = source_text lines_docstring) then run_docstring
  else recorded_tokens text.

(** Runs a hypothesis [H : ... = Ok b'] through the binds and tests of the
    operation on its left, leaving the cases in which it returned. *)
Ltac returned H :=
  repeat first
    [ progress cbn [mbind result_bind] in H
    | match type of H with
      | context [if ?c then _ else _] => destruct c eqn:?
      | context [mbind _ ?m] =>
          lazymatch m with
          | context [mbind _ _] => fail
          | _ => destruct m eqn:?
          end
      end ];
  try discriminate H; injection H as <-.

(** The three selection fields of a buffer. *)
Definition selection_fields (b : Buffer) : bool * option Z * option Z :=
  (selecting b, selection_start b, selection_end b).

(** Three empty tabs, the last one active. *)
Definition three_tabs : EditorState :=
  mkEditorState [new_buffer; new_buffer; new_buffer] 2 [] [] (py "Ready")
    false.
(** ** Facts about the Python primitives *)

Lemma len_nonneg {A} (l : list A) : 0 <= len l.
Proof. unfold len. lia. Qed.

Lemma len_app {A} (l k : list A) : len (l ++ k) = len l + len k.
Proof. unfold len. rewrite length_app. lia. Qed.

Lemma lookup_len {A} (l : list A) (k : nat) (x : A) :
  l !! k = Some x -> Z.of_nat k < len l.
Proof. intros H. apply lookup_lt_Some in H. unfold len. lia. Qed.

Lemma item_index_ok (n i : Z) :
  0 <= i < n -> item_index n i = Ok (Z.to_nat i).
Proof.
  intros [H0 Hn]. unfold item_index.
  destruct (Z.ltb_spec i 0); [lia|].
  destruct (Z.leb_spec 0 i); [|lia].
  destruct (Z.ltb_spec i n); [|lia]. reflexivity.
Qed.

Lemma getitem_ok {A} (l : list A) (i : Z) (x : A) :
  0 <= i -> l !! Z.to_nat i = Some x -> getitem l i = Ok x.
Proof.
  intros H0 Hx. unfold getitem.
  rewrite item_index_ok; [simpl; by rewrite Hx|].
  apply lookup_len in Hx. lia.
Qed.

Lemma setitem_ok {A} (l : list A) (i : Z) (v : A) :
  0 <= i < len l -> setitem l i v = Ok (<[Z.to_nat i := v]> l).
Proof. intros H. unfold setitem. by rewrite item_index_ok. Qed.

Lemma list_pop_ok {A} (l : list A) (i : Z) :
  0 <= i < len l -> list_pop l i = Ok (delete (Z.to_nat i) l).
Proof. intros H. unfold list_pop. by rewrite item_index_ok. Qed.

Lemma slice_bound_in (n i : Z) : 0 <= i <= n -> slice_bound n i = Z.to_nat i.
Proof.
  intros H. unfold slice_bound. destruct (Z.ltb_spec i 0); [lia|].
  f_equal. lia.
Qed.

Lemma slice_to_in {A} (l : list A) (i : Z) :
  0 <= i <= len l -> slice_to l i = take (Z.to_nat i) l.
Proof. intros H. unfold slice_to. by rewrite slice_bound_in. Qed.

Lemma slice_from_in {A} (l : list A) (i : Z) :
  0 <= i <= len l -> slice_from l i = drop (Z.to_nat i) l.
Proof. intros H. unfold slice_from. by rewrite slice_bound_in. Qed.

Lemma len_slice_to {A} (l : list A) (i : Z) :
  0 <= i <= len l -> len (slice_to l i) = i.
Proof.
  intros H. rewrite slice_to_in by done. unfold len in *.
  rewrite length_take. lia.
Qed.

Lemma len_slice_from {A} (l : list A) (i : Z) :
  0 <= i <= len l -> len (slice_from l i) = len l - i.
Proof.
  intros H. rewrite slice_from_in by done. unfold len in *.
  rewrite length_drop. lia.
Qed.

Lemma slice_to_from {A} (l : list A) (i : Z) :
  slice_to l i ++ slice_from l i = l.
Proof. apply take_drop. Qed.

(** ** The invariant, unfolded *)

Lemma buffer_ok_spec (b : Buffer) :
  buffer_ok b = true <->
  exists line, 0 <= cursor_y b
               /\ lines b !! Z.to_nat (cursor_y b) = Some line
               /\ 0 <= cursor_x b <= len line.
Proof.
  unfold buffer_ok. split.
  - intros H. destruct (lines b !! Z.to_nat (cursor_y b)) as [line|] eqn:E.
    + exists line. repeat (apply andb_prop in H as [H ?]). split_and!; try done; lia.
    + by rewrite andb_false_r in H.
  - intros (line & Hy & Hl & Hx). rewrite Hl.
    pose proof (lookup_len _ _ _ Hl).
    repeat (apply andb_true_intro; split); lia.
Qed.

(** ** Edits keep the invariant *)

Lemma buffer_ok_intro (b : Buffer) (line : str) :
  0 <= cursor_y b ->
  lines b !! Z.to_nat (cursor_y b) = Some line ->
  0 <= cursor_x b <= len line ->
  buffer_ok b = true.
Proof. intros. apply buffer_ok_spec. by exists line. Qed.

Lemma delete_selection_ok (b : Buffer) :
  buffer_ok b = true -> buffer_ok (fst (delete_selection b)) = true.
Proof.
  intros Hb. unfold delete_selection.
  destruct (selection_range b) as [[s e]|]; [|done].
  cbv zeta. case_match; [done|].
  set (ls := match del_slice _ _ _ with [] => [[]] | _ => _ end).
  assert (1 <= len ls) as Hls.
  { subst ls. destruct (del_slice _ _ _); unfold len; simpl; lia. }
  simpl.
  set (y := Z.min _ (len ls - 1)).
  assert (0 <= y < len ls) as Hy by (subst y; simpl; lia).
  destruct (lookup_lt_is_Some_2 ls (Z.to_nat y)) as [line Hline].
  { unfold len in Hy. lia. }
  apply buffer_ok_intro with line; simpl; [lia|done|].
  pose proof (len_nonneg line). lia.
Qed.

Lemma before_edit_ok (b : Buffer) :
  buffer_ok b = true ->
  buffer_ok (if selection_pending b then fst (delete_selection b) else b)
  = true.
Proof. intros Hb. destruct (selection_pending b); auto using delete_selection_ok. Qed.

Lemma insert_char_ok (b : Buffer) (ch : str) :
  buffer_ok b = true ->
  exists b', insert_char b ch = Ok b' /\ buffer_ok b' = true.
Proof.
  intros Hb%before_edit_ok. unfold insert_char.
  set (b1 := if selection_pending b then _ else _) in *. clearbody b1.
  apply buffer_ok_spec in Hb as (line & Hy & Hl & Hx).
  pose proof (lookup_len _ _ _ Hl) as Hlt.
  rewrite (getitem_ok _ (cursor_y b1) line) by done. simpl.
  rewrite setitem_ok by lia. simpl.
  eexists; split; [reflexivity|].
  eapply buffer_ok_intro; simpl; [done| |].
  - apply list_lookup_insert_eq. unfold len in Hlt. lia.
  - rewrite !len_app, len_slice_to, len_slice_from by done.
    pose proof (len_nonneg ch). lia.
Qed.

Lemma backspace_ok (b : Buffer) :
  buffer_ok b = true ->
  exists b', backspace b = Ok b' /\ buffer_ok b' = true.
Proof.
  intros Hb. unfold backspace.
  destruct (selection_pending b).
  { eexists; split; [reflexivity|]. by apply delete_selection_ok. }
  pose proof Hb as Hb'.
  apply buffer_ok_spec in Hb as (line & Hy & Hl & Hx).
  pose proof (lookup_len _ _ _ Hl) as Hlt.
  destruct (Z.ltb_spec 0 (cursor_x b)) as [Hpos|Hzero].
  - rewrite (getitem_ok _ (cursor_y b) line) by done. simpl.
    rewrite setitem_ok by lia. simpl.
    eexists; split; [reflexivity|].
    eapply buffer_ok_intro; simpl; [done| |].
    + apply list_lookup_insert_eq. unfold len in Hlt. lia.
    + rewrite len_app, len_slice_to, len_slice_from by lia. lia.
  - destruct (Z.eqb_spec (cursor_y b) 0) as [Hy0|Hy0].
    { by exists b. }
    destruct (lookup_lt_is_Some_2 (lines b) (Z.to_nat (cursor_y b - 1)))
      as [prev Hprev].
    { unfold len in Hlt. lia. }
    rewrite (getitem_ok _ (cursor_y b - 1) prev) by (done || lia). simpl.
    rewrite (getitem_ok _ (cursor_y b) line) by done. simpl.
    rewrite setitem_ok by lia. simpl.
    rewrite list_pop_ok by (unfold len in *; rewrite length_insert; lia).
    simpl. eexists; split; [reflexivity|].
    apply buffer_ok_intro with (prev ++ line); simpl; [lia| |].
    + rewrite list_lookup_delete_lt by lia.
      apply list_lookup_insert_eq. unfold len in Hlt. lia.
    + rewrite len_app. pose proof (len_nonneg prev).
      pose proof (len_nonneg line). lia.
Qed.

Lemma delete_forward_ok (b : Buffer) :
  buffer_ok b = true ->
  exists b', delete_forward b = Ok b' /\ buffer_ok b' = true.
Proof.
  intros Hb. unfold delete_forward.
  destruct (selection_pending b).
  { eexists; split; [reflexivity|]. by apply delete_selection_ok. }
  pose proof Hb as Hb'.
  apply buffer_ok_spec in Hb as (line & Hy & Hl & Hx).
  pose proof (lookup_len _ _ _ Hl) as Hlt.
  rewrite (getitem_ok _ (cursor_y b) line) by done. simpl.
  destruct (Z.ltb_spec (cursor_x b) (len line)) as [Hin|Hend].
  - rewrite setitem_ok by lia. simpl.
    eexists; split; [reflexivity|].
    eapply buffer_ok_intro; simpl; [done| |].
    + apply list_lookup_insert_eq. unfold len in Hlt. lia.
    + rewrite len_app, len_slice_to, len_slice_from by lia. lia.
  - destruct (Z.leb_spec (len (lines b) - 1) (cursor_y b)) as [Hlast|Hmore].
    { by exists b. }
    destruct (lookup_lt_is_Some_2 (lines b) (Z.to_nat (cursor_y b + 1)))
      as [next Hnext].
    { unfold len in Hmore. lia. }
    rewrite (getitem_ok _ (cursor_y b + 1) next) by (done || lia). simpl.
    rewrite setitem_ok by lia. simpl.
    rewrite list_pop_ok by (unfold len in *; rewrite length_insert; lia).
    simpl. eexists; split; [reflexivity|].
    apply buffer_ok_intro with (line ++ next); simpl; [done| |].
    + rewrite list_lookup_delete_lt by lia.
      apply list_lookup_insert_eq. unfold len in Hlt. lia.
    + rewrite len_app. pose proof (len_nonneg next). lia.
Qed.

(** C1.  From a buffer that has at least one line and an in-bounds cursor,
    every finite sequence of [insert_char], [backspace] and
    [delete_forward] runs without raising and ends in a buffer that again
    has at least one line and an in-bounds cursor. *)
Theorem edits_preserve_invariant (ops : list EditOp) (b : Buffer) :
  buffer_ok b = true ->
  exists b', apply_ops b ops = Ok b' /\ buffer_ok b' = true.
Proof.
  revert b. induction ops as [|op ops IH]; intros b Hb.
  - by exists b.
  - assert (exists b1, apply_op b op = Ok b1 /\ buffer_ok b1 = true)
      as (b1 & Hop & Hb1).
    { destruct op; simpl;
        auto using insert_char_ok, backspace_ok, delete_forward_ok. }
    simpl. rewrite Hop. simpl. by apply IH.
Qed.

(** Five edits on a two-line buffer, cursor at the start of line 2. *)
Lemma edits_preserve_invariant_witness :
  buffer_ok sample_buffer = true
  /\ exists b',
       apply_ops sample_buffer
         [Backspace; Insert (py "xy"); DeleteForward; DeleteForward; Backspace]
       = Ok b'
       /\ buffer_ok b' = true.
Proof.
  split; [reflexivity|].
  apply (edits_preserve_invariant _ sample_buffer). reflexivity.
Defined.

(** ** The viewport *)

(** C6.  With a body of height and width at least 1, the adjustment puts
    [scroll_y] at [cursor_y] when the cursor is above the window, at
    [cursor_y - height + 1] when it is at or below the window's end, and
    leaves it otherwise; [scroll_x] follows the same rule with [cursor_x]
    and the width; both offsets are then clamped to be at least 0, and
    nothing else in the buffer changes.  With height 10 and [scroll_y] 0, a
    cursor on line 25 gives [scroll_y] 16. *)
Theorem ensure_cursor_visible_rule (b : Buffer) (body_h editor_w : Z) :
  1 <= body_h -> 1 <= editor_w ->
  let b' := ensure_cursor_visible b body_h editor_w in
  (cursor_y b < scroll_y b -> scroll_y b' = Z.max 0 (cursor_y b))
  /\ (scroll_y b + body_h <= cursor_y b ->
      scroll_y b' = Z.max 0 (cursor_y b - body_h + 1))
  /\ (scroll_y b <= cursor_y b < scroll_y b + body_h ->
      scroll_y b' = Z.max 0 (scroll_y b))
  /\ (cursor_x b < scroll_x b -> scroll_x b' = Z.max 0 (cursor_x b))
  /\ (scroll_x b + editor_w <= cursor_x b ->
      scroll_x b' = Z.max 0 (cursor_x b - editor_w + 1))
  /\ (scroll_x b <= cursor_x b < scroll_x b + editor_w ->
      scroll_x b' = Z.max 0 (scroll_x b))
  /\ 0 <= scroll_y b' /\ 0 <= scroll_x b'
  /\ lines b' = lines b /\ cursor_y b' = cursor_y b /\ cursor_x b' = cursor_x b
  /\ (body_h = 10 -> scroll_y b = 0 -> cursor_y b = 25 -> scroll_y b' = 16).
Proof.
  intros Hh Hw b'. subst b'.
  split_and!; try intros; viewport_cases; try reflexivity; lia.
Qed.

(** A cursor on line 25 of a fresh buffer, in a body of 10 by 80. *)
Lemma ensure_cursor_visible_rule_witness :
  let b := set_cursor_y new_buffer 25 in
  let b' := ensure_cursor_visible b 10 80 in
  1 <= 10 /\ 1 <= 80 /\ scroll_y b' = 16 /\ scroll_x b' = 0.
Proof.
  pose proof (ensure_cursor_visible_rule (set_cursor_y new_buffer 25) 10 80)
    as H.
  simpl in H. 
  split; [lia|]. split; [lia|].
  destruct H as (_ & _ & _ & _ & _ & Hx & _ & _ & _ & _ & _ & Hy); [lia|lia|].
  split; [by apply Hy|]. apply Hx. lia.
Defined.

(** C10.  When the cursor is in bounds, the offsets are at least 0 and
    the body has height and width at least 1, the adjustment changes
    nothing of the buffer but the two offsets (the lines and the cursor in
    particular stay), and after it the cursor lies inside the window,
    [scroll_y <= cursor_y < scroll_y + height] and
    [scroll_x <= cursor_x < scroll_x + width], with both offsets at least
    0. *)
Theorem cursor_visible_after_adjust (b : Buffer) (body_h editor_w : Z) :
  buffer_ok b = true -> 0 <= scroll_y b -> 0 <= scroll_x b ->
  1 <= body_h -> 1 <= editor_w ->
  let b' := ensure_cursor_visible b body_h editor_w in
  b' = set_scroll_x (set_scroll_y b (scroll_y b')) (scroll_x b')
  /\ lines b' = lines b /\ cursor_y b' = cursor_y b /\ cursor_x b' = cursor_x b
  /\ scroll_y b' <= cursor_y b' < scroll_y b' + body_h
  /\ scroll_x b' <= cursor_x b' < scroll_x b' + editor_w
  /\ 0 <= scroll_y b' /\ 0 <= scroll_x b'.
Proof.
  intros (line & Hy & _ & Hx)%buffer_ok_spec Hsy Hsx Hh Hw b'. subst b'.
  split; [destruct b; viewport_cases; reflexivity|].
  split_and!; viewport_cases; (reflexivity || lia).
Qed.

(** A window scrolled past the cursor, one column wide: the offsets move
    from (7, 0) to (1, 1), and the cursor stays at (1, 1). *)
Lemma cursor_visible_after_adjust_witness :
  let b := set_cursor_x (set_scroll_y sample_buffer 7) 1 in
  let b' := ensure_cursor_visible b 3 1 in
  buffer_ok b = true
  /\ b' = set_scroll_x (set_scroll_y b 1) 1
  /\ cursor_y b' = 1 /\ cursor_x b' = 1
  /\ scroll_y b' <= cursor_y b' < scroll_y b' + 3
  /\ scroll_x b' <= cursor_x b' < scroll_x b' + 1.
Proof.
  split; [reflexivity|].
  destruct (cursor_visible_after_adjust
              (set_cursor_x (set_scroll_y sample_buffer 7) 1) 3 1)
    as (Hframe & _ & Hy & Hx & Hwy & Hwx & _);
    [reflexivity|simpl; lia..|].
  split; [exact Hframe|]. split; [exact Hy|]. split; [exact Hx|].
  split; [exact Hwy|exact Hwx].
Defined.

(** ** Newline *)

Lemma slice_bound_len (n : Z) : 0 <= n -> slice_bound n n = Z.to_nat n.
Proof. intros. apply slice_bound_in. lia. Qed.

Lemma current_line_lookup (b : Buffer) (line : str) :
  lines b !! Z.to_nat (cursor_y b) = Some line -> current_line b = line.
Proof. unfold current_line. by intros ->. Qed.

(** What [newline] does to a buffer with an in-bounds cursor and no
    selection to delete first. *)
Lemma newline_spec (b : Buffer) :
  buffer_ok b = true -> selection_pending b = false ->
  newline b =
  Ok (mkBuffer
        (take (Z.to_nat (cursor_y b)) (lines b)
         ++ text_before b
         :: (str_mul [SPACE] (newline_indent b) ++ lstrip [SPACE] (text_after b))
         :: drop (S (Z.to_nat (cursor_y b))) (lines b))
        (file_path b) (cursor_y b + 1) (newline_indent b) (newline_indent b)
        (scroll_y b) (scroll_x b) true (selecting b) (selection_start b)
        (selection_end b)).
Proof.
  intros (line & Hy & Hl & Hx)%buffer_ok_spec Hsel.
  unfold newline. rewrite Hsel.
  pose proof (lookup_len _ _ _ Hl) as Hlt.
  rewrite (getitem_ok _ (cursor_y b) line) by done. simpl.
  rewrite setitem_ok by lia. simpl.
  unfold newline_indent, leading_spaces, text_before, text_after.
  rewrite (current_line_lookup b line Hl).
  set (before := slice_to line (cursor_x b)).
  set (new := str_mul _ _ ++ _).
  unfold set_dirty, set_preferred_x, set_cursor_x, set_cursor_y, set_lines.
  simpl. do 2 f_equal.
  unfold list_insert_at.
  assert (length (lines b) = length (<[Z.to_nat (cursor_y b):=before]> (lines b)))
    as Hlen by (by rewrite length_insert).
  rewrite slice_bound_in by (unfold len in *; rewrite length_insert; lia).
  replace (Z.to_nat (cursor_y b + 1)) with (S (Z.to_nat (cursor_y b))) by lia.
  rewrite drop_insert_lt by lia.
  rewrite (take_S_r _ _ before)
    by (apply list_lookup_insert_eq; unfold len in *; lia).
  rewrite take_insert_ge by lia. by rewrite <- app_assoc.
Qed.

(** *** Leading spaces *)

Lemma lstrip_space_cons (c : N) (s : str) :
  lstrip [SPACE] (c :: s) = if (c =? SPACE)%N then lstrip [SPACE] s else c :: s.
Proof.
  simpl. destruct (N.eqb_spec c SPACE) as [->|Hne].
  - rewrite bool_decide_eq_true_2; [done|]. by apply list_elem_of_singleton.
  - rewrite bool_decide_eq_false_2; [done|]. by rewrite list_elem_of_singleton.
Qed.

Lemma len_cons {A} (x : A) (l : list A) : len (x :: l) = 1 + len l.
Proof. unfold len. simpl. lia. Qed.

Lemma leading_spaces_cons (c : N) (s : str) :
  leading_spaces (c :: s)
  = if (c =? SPACE)%N then 1 + leading_spaces s else 0.
Proof.
  unfold leading_spaces. rewrite lstrip_space_cons.
  destruct (c =? SPACE)%N; rewrite !len_cons; lia.
Qed.

Lemma leading_spaces_bounds (s : str) : 0 <= leading_spaces s <= len s.
Proof.
  induction s as [|c s IH]; [done|].
  rewrite leading_spaces_cons, len_cons. destruct (c =? SPACE)%N; lia.
Qed.

Lemma leading_spaces_take (n : nat) (s : str) :
  leading_spaces (take n s) = Z.min (Z.of_nat n) (leading_spaces s).
Proof.
  revert n. induction s as [|c s IH]; intros n.
  - rewrite take_nil. change (leading_spaces []) with 0. lia.
  - destruct n as [|n]; simpl take.
    + pose proof (leading_spaces_bounds (c :: s)).
      change (leading_spaces []) with 0. lia.
    + rewrite !leading_spaces_cons, IH. destruct (c =? SPACE)%N; lia.
Qed.

Lemma lstrip_spaces_app (n : nat) (s : str) :
  lstrip [SPACE] (concat (replicate n [SPACE]) ++ s) = lstrip [SPACE] s.
Proof.
  induction n as [|n IH]; [done|].
  cbn [replicate concat app]. by rewrite lstrip_space_cons.
Qed.

Lemma lstrip_idem (s : str) : lstrip [SPACE] (lstrip [SPACE] s) = lstrip [SPACE] s.
Proof.
  induction s as [|c s IH]; [done|].
  rewrite lstrip_space_cons. destruct (c =? SPACE)%N eqn:E; [done|].
  by rewrite lstrip_space_cons, E.
Qed.

Lemma len_str_mul_space (n : Z) : 0 <= n -> len (str_mul [SPACE] n) = n.
Proof.
  intros Hn. unfold str_mul, len.
  assert (forall k : nat, length (concat (replicate k [SPACE])) = k) as H.
  { induction k; simpl; congruence. }
  rewrite H. lia.
Qed.

Lemma leading_spaces_indented (n : Z) (s : str) :
  0 <= n ->
  leading_spaces (str_mul [SPACE] n ++ lstrip [SPACE] s) = n.
Proof.
  intros Hn. unfold leading_spaces.
  unfold str_mul at 2. rewrite lstrip_spaces_app, lstrip_idem.
  rewrite len_app, len_str_mul_space by done. lia.
Qed.

(** *** A trailing colon *)

Lemma startswith_single (c d : N) (r : str) :
  startswith (c :: r) [d] = (d =? c)%N.
Proof. cbn [startswith]. destruct r; apply andb_true_r. Qed.

Lemma startswith_colon_lstrip (r : str) :
  startswith (lstrip_space r) [COLON] = true <->
  exists ws p, r = ws ++ COLON :: p /\ forallb is_space ws = true.
Proof.
  induction r as [|c r IH]; simpl.
  - split; [done|]. intros (ws & p & H & _). by destruct ws.
  - destruct (is_space c) eqn:Hc.
    + rewrite IH. split.
      * intros (ws & p & -> & Hws). exists (c :: ws), p. simpl. by rewrite Hc.
      * intros (ws & p & H & Hws). destruct ws as [|w ws].
        { simplify_eq/=. }
        simplify_eq/=. apply andb_prop in Hws as [_ Hws]. by exists ws, p.
    + rewrite startswith_single. split.
      * intros H%N.eqb_eq. exists [], r. by rewrite H.
      * intros (ws & p & H & Hws). destruct ws as [|w ws]; simplify_eq/=.
        { done. }
        by rewrite Hc in Hws.
Qed.

Lemma forallb_reverse {A} (f : A -> bool) (l : list A) :
  forallb f (reverse l) = forallb f l.
Proof.
  induction l as [|x l IH]; [done|].
  rewrite reverse_cons, forallb_app, IH. simpl. destruct (f x), (forallb f l); done.
Qed.

Lemma ends_with_colon_spec (s : str) :
  endswith (rstrip s) [COLON] = true <-> ends_with_colon s.
Proof.
  unfold endswith, rstrip, ends_with_colon.
  rewrite reverse_involutive. change (reverse [COLON]) with [COLON].
  rewrite startswith_colon_lstrip. split.
  - intros (ws & p & H & Hws). exists (reverse p), (reverse ws).
    rewrite forallb_reverse. split; [|done].
    apply (f_equal reverse) in H. rewrite reverse_involutive in H.
    rewrite H, reverse_app, reverse_cons, <- app_assoc. done.
  - intros (p & ws & -> & Hws). exists (reverse ws), (reverse p).
    rewrite forallb_reverse. split; [|done].
    by rewrite reverse_app, reverse_cons, <- app_assoc.
Qed.

Lemma no_selection_not_pending (b : Buffer) :
  has_selection b = false -> selection_pending b = false.
Proof. unfold selection_pending. by intros ->. Qed.

Lemma text_before_after (b : Buffer) :
  text_before b ++ text_after b = current_line b.
Proof. apply slice_to_from. Qed.

Lemma newline_indent_nonneg (b : Buffer) : 0 <= newline_indent b.
Proof.
  unfold newline_indent, INDENT_WIDTH.
  pose proof (leading_spaces_bounds (text_before b)).
  destruct (endswith _ _); lia.
Qed.

(** C8 (amended).  On a buffer with an in-bounds cursor and no selection,
    [newline] replaces the current line by two consecutive lines: the text
    before the cursor, and a new line made of indentation followed by the
    text after the cursor without its leading spaces.  The new line's
    leading indentation is the number of leading spaces of the text before
    the cursor (the original line's indentation, cut off at the cursor
    column), plus one indent unit exactly when the text before the cursor
    ends with a colon followed only by white space.  The cursor lands on
    the new line just after that indentation. *)
Theorem newline_splits_and_indents (b : Buffer) :
  buffer_ok b = true -> has_selection b = false ->
  let new_line :=
    str_mul [SPACE] (newline_indent b) ++ lstrip [SPACE] (text_after b) in
  exists b',
    newline b = Ok b'
    /\ text_before b ++ text_after b = current_line b
    /\ lines b' = take (Z.to_nat (cursor_y b)) (lines b)
                  ++ [text_before b; new_line]
                  ++ drop (S (Z.to_nat (cursor_y b))) (lines b)
    /\ lstrip [SPACE] new_line = lstrip [SPACE] (text_after b)
    /\ leading_spaces new_line = newline_indent b
    /\ leading_spaces (text_before b)
       = Z.min (cursor_x b) (leading_spaces (current_line b))
    /\ (ends_with_colon (text_before b) ->
        newline_indent b = leading_spaces (text_before b) + INDENT_WIDTH)
    /\ (~ ends_with_colon (text_before b) ->
        newline_indent b = leading_spaces (text_before b))
    /\ cursor_y b' = cursor_y b + 1
    /\ cursor_x b' = newline_indent b.
Proof.
  intros Hok Hsel new_line. subst new_line.
  eexists. split; [by apply newline_spec, no_selection_not_pending|].
  pose proof (newline_indent_nonneg b) as Hind.
  apply buffer_ok_spec in Hok as (line & Hy & Hl & Hx).
  split_and!; try done.
  - apply text_before_after.
  - unfold str_mul. by rewrite lstrip_spaces_app, lstrip_idem.
  - by apply leading_spaces_indented.
  - unfold text_before. rewrite (current_line_lookup b line Hl).
    rewrite slice_to_in by done. rewrite leading_spaces_take. lia.
  - intros Hc%ends_with_colon_spec. unfold newline_indent. by rewrite Hc.
  - intros Hc. unfold newline_indent.
    destruct (endswith _ _) eqn:E; [|lia].
    by apply ends_with_colon_spec in E.
Qed.

(** [newline] at the end of [    x]: the new line copies the four spaces. *)
Lemma newline_splits_and_indents_witness :
  buffer_ok indented_buffer = true
  /\ has_selection indented_buffer = false
  /\ exists b',
       newline indented_buffer = Ok b'
       /\ lines b' = [py "    x"; py "    "]
       /\ cursor_y b' = 1 /\ cursor_x b' = 4.
Proof.
  split; [reflexivity|]. split; [reflexivity|].
  destruct (newline_splits_and_indents indented_buffer eq_refl eq_refl)
    as (b' & Hb' & _ & Hlines & _ & _ & _ & _ & _ & Hy & Hx).
  exists b'. split; [exact Hb'|]. split; [exact Hlines|]. split; assumption.
Defined.

(** The first failure of C8 as stated: with the cursor inside the leading
    spaces of [    x], after column 2, the new line gets the 2 spaces that
    stand before the cursor, although the original line is indented by 4
    and no colon precedes the cursor. *)
Lemma newline_indent_counterexample :
  buffer_ok cursor_in_indent_buffer = true
  /\ has_selection cursor_in_indent_buffer = false
  /\ leading_spaces (current_line cursor_in_indent_buffer) = 4
  /\ endswith (rstrip (text_before cursor_in_indent_buffer)) [COLON] = false
  /\ exists b',
       newline cursor_in_indent_buffer = Ok b'
       /\ lines b' = [py "  "; py "  x"]
       /\ leading_spaces (py "  x") = 2
       /\ cursor_y b' = 1 /\ cursor_x b' = 2.
Proof.
  split_and!; try reflexivity.
  eexists. split; [reflexivity|]. split_and!; reflexivity.
Qed.

(** ** Newline, then backspace *)

(** [backspace] at column 0 of a line that has a predecessor joins the two
    lines and puts the cursor at the join. *)
Lemma backspace_joins (b : Buffer) (l1 l2 : list str) (prev cur : str) :
  selection_pending b = false ->
  lines b = l1 ++ prev :: cur :: l2 ->
  cursor_y b = len l1 + 1 -> cursor_x b = 0 ->
  backspace b =
  Ok (mkBuffer (l1 ++ (prev ++ cur) :: l2) (file_path b) (len l1) (len prev)
        (len prev) (scroll_y b) (scroll_x b) true (selecting b)
        (selection_start b) (selection_end b)).
Proof.
  intros Hsel Hls Hy Hx. unfold backspace. rewrite Hsel, Hx, Hy, Hls.
  pose proof (len_nonneg l1) as Hl1.
  change (0 <? 0) with false. cbv iota.
  destruct (Z.eqb_spec (len l1 + 1) 0) as [|_]; [lia|].
  replace (len l1 + 1 - 1) with (len l1) by lia.
  assert (Z.to_nat (len l1) = length l1) as Hn1 by (unfold len; lia).
  assert (Z.to_nat (len l1 + 1) = length (l1 ++ [prev])) as Hn2.
  { rewrite length_app. unfold len. simpl. lia. }
  rewrite (getitem_ok _ (len l1) prev);
    [|lia|by rewrite Hn1; apply list_lookup_middle].
  cbn [mbind result_bind].
  rewrite (getitem_ok _ (len l1 + 1) cur); [|lia|].
  2:{ rewrite Hn2. change (l1 ++ prev :: cur :: l2) with (l1 ++ [prev] ++ cur :: l2).
      rewrite app_assoc. by apply list_lookup_middle. }
  cbn [mbind result_bind]. buffer_fields. rewrite Hls, Hy.
  replace (len l1 + 1 - 1) with (len l1) by lia.
  rewrite setitem_ok by (rewrite len_app, !len_cons; pose proof (len_nonneg l2); lia).
  cbn [mbind result_bind].
  rewrite Hn1, <- (Nat.add_0_r (length l1)), insert_app_r. cbn [insert list_insert].
  rewrite list_pop_ok
    by (rewrite len_app, !len_cons; pose proof (len_nonneg l2); lia).
  cbn [mbind result_bind].
  rewrite Hn2.
  change (l1 ++ (prev ++ cur) :: cur :: l2)
    with (l1 ++ [prev ++ cur] ++ cur :: l2).
  rewrite app_assoc.
  replace (length (l1 ++ [prev])) with (length (l1 ++ [prev ++ cur]))
    by (by rewrite !length_app).
  rewrite delete_middle, <- app_assoc. reflexivity.
Qed.

(** C3 (amended).  On a buffer with an in-bounds cursor and no selection,
    when [newline] inserts no indentation (the text before the cursor has
    no leading space and does not end with a colon followed only by white
    space) and the text after the cursor does not start with a space,
    [newline] followed by [backspace] gives back the original lines and
    the original cursor position. *)
Theorem newline_backspace_roundtrip (b : Buffer) :
  buffer_ok b = true -> has_selection b = false ->
  leading_spaces (text_before b) = 0 ->
  endswith (rstrip (text_before b)) [COLON] = false ->
  lstrip [SPACE] (text_after b) = text_after b ->
  exists b1 b2,
    newline b = Ok b1 /\ backspace b1 = Ok b2
    /\ lines b2 = lines b
    /\ cursor_y b2 = cursor_y b /\ cursor_x b2 = cursor_x b.
Proof.
  intros Hok Hsel Hlead Hcolon Hafter.
  pose proof (newline_spec b Hok (no_selection_not_pending b Hsel)) as Hnl.
  assert (newline_indent b = 0) as Hind.
  { unfold newline_indent. rewrite Hlead, Hcolon. done. }
  rewrite Hind, Hafter in Hnl. change (str_mul [SPACE] 0) with (@nil N) in Hnl.
  cbn [app] in Hnl.
  apply buffer_ok_spec in Hok as (line & Hy & Hl & Hx).
  pose proof (lookup_len _ _ _ Hl) as Hlt.
  assert (len (take (Z.to_nat (cursor_y b)) (lines b)) = cursor_y b) as Hl1.
  { unfold len in *. rewrite length_take. lia. }
  eexists _, _. split; [exact Hnl|].
  split.
  { eapply backspace_joins; buffer_fields.
    - unfold selection_pending, has_selection in *. buffer_fields.
      by rewrite Hsel.
    - reflexivity.
    - by rewrite Hl1.
    - reflexivity. }
  buffer_fields. rewrite text_before_after, (current_line_lookup b line Hl).
  split_and!.
  - by apply take_drop_middle.
  - done.
  - unfold text_before. rewrite (current_line_lookup b line Hl).
    by apply len_slice_to.
Qed.

(** [newline] then [backspace] between the [a] and the [b] of [ab]. *)
Lemma newline_backspace_roundtrip_witness :
  let b := set_cursor_x (set_cursor_y sample_buffer 0) 1 in
  buffer_ok b = true
  /\ exists b1 b2,
       newline b = Ok b1 /\ backspace b1 = Ok b2
       /\ lines b2 = [py "ab"; py "c"]
       /\ cursor_y b2 = 0 /\ cursor_x b2 = 1.
Proof.
  split; [reflexivity|].
  apply (newline_backspace_roundtrip
           (set_cursor_x (set_cursor_y sample_buffer 0) 1));
    reflexivity.
Defined.

(** C3 as stated fails as soon as [newline] indents: after [    x] the new
    line is four spaces and the cursor stands behind them, so [backspace]
    removes one space instead of joining the lines. *)
Lemma newline_backspace_counterexample :
  buffer_ok indented_buffer = true
  /\ has_selection indented_buffer = false
  /\ lines indented_buffer = [py "    x"]
  /\ cursor_y indented_buffer = 0 /\ cursor_x indented_buffer = 5
  /\ exists b1 b2,
       newline indented_buffer = Ok b1 /\ backspace b1 = Ok b2
       /\ lines b2 = [py "    x"; py "   "]
       /\ cursor_y b2 = 1 /\ cursor_x b2 = 3.
Proof.
  split_and!; try reflexivity.
  eexists _, _. split_and!; reflexivity.
Qed.

(** ** Cutting a text into lines *)

Section SplitBreaks.

Variable brk : N -> bool.
Hypothesis brk_LF : brk LF = true.

Lemma split_breaks_line (l cur rest : str) :
  Forall (fun c => brk c = false) l ->
  split_breaks brk cur false (l ++ rest)
  = split_breaks brk (cur ++ l) false rest.
Proof.
  intros Hl. revert cur.
  induction Hl as [|c l Hc _ IH]; intros cur.
  - by rewrite app_nil_r.
  - cbn [app split_breaks andb]. rewrite Hc, IH.
    by rewrite <- app_assoc.
Qed.

Lemma split_breaks_LF (cur rest : str) :
  split_breaks brk cur false (LF :: rest)
  = cur :: split_breaks brk [] false rest.
Proof. cbn [split_breaks andb]. by rewrite brk_LF. Qed.


(** Joining break-free lines with line feeds and cutting the text again
    gives the lines back, the first one appended to what was pending. *)
Lemma split_breaks_join (cur l : str) (ls : list str) :
  Forall (fun c => brk c = false) l ->
  split_breaks brk cur false (join [LF] (l :: ls))
  = match ls with
    | [] => match cur ++ l with [] => [] | _ => [cur ++ l] end
    | _ => (cur ++ l) :: split_breaks brk [] false (join [LF] ls)
    end.
Proof.
  intros Hl. destruct ls as [|l2 ls].
  - cbn [join]. rewrite <- (app_nil_r l) at 1.
    by rewrite split_breaks_line.
  - change (join [LF] (l :: l2 :: ls)) with (l ++ LF :: join [LF] (l2 :: ls)).
    by rewrite split_breaks_line, split_breaks_LF.
Qed.

End SplitBreaks.

(** *** The last character *)

Lemma endswith_nil (d : N) : endswith [] [d] = false.
Proof. reflexivity. Qed.





(** ** Saving and loading *)






(** ** Directories and writing *)










(** ** Saving and loading *)




(** C2.  The claim fails on the single line [a<FF>b]: [save_file] writes
    it as it is, and [load_file], which splits with [str.splitlines],
    reads the file back as the two lines [a] and [b]. *)
Lemma save_load_form_feed :
  lines_form_feed = [py "a" ++ [12%N] ++ py "b"]
  /\ exists fs',
       save_file ∅ [py "f.py"] lines_form_feed = Ok fs'
       /\ load_file fs' [py "f.py"] = Ok [py "a"; py "b"].
Proof.
  split; [reflexivity|].
  eexists. split; [reflexivity|]. vm_compute. reflexivity.
Qed.

(** ** Searching *)

Lemma item_index_inv (n i : Z) (k : nat) :
  item_index n i = Ok k -> Z.of_nat k < n.
Proof.
  unfold item_index. destruct (i <? 0); case_match; intros; simplify_eq;
    apply andb_prop in H as [?%Z.leb_le ?%Z.ltb_lt]; lia.
Qed.

Lemma getitem_inv {A} (l : list A) (i : Z) (x : A) :
  getitem l i = Ok x ->
  exists k, item_index (len l) i = Ok k /\ l !! k = Some x.
Proof.
  unfold getitem. destruct (item_index (len l) i) as [k|] eqn:E; [|done].
  cbn [mbind result_bind]. destruct (l !! k) eqn:El; [|done].
  intros [= ->]. by exists k.
Qed.

Lemma scan_lines_total (ls : list str) (query : str) (col : Z -> Z)
    (idxs : list Z) :
  Forall (fun i => 0 <= i < len ls) idxs ->
  exists hit, scan_lines ls query col idxs = Ok hit.
Proof.
  induction 1 as [|i idxs Hi _ IH]; [by eexists|].
  cbn [scan_lines]. unfold getitem. rewrite item_index_ok by done.
  cbn [mbind result_bind].
  destruct (lookup_lt_is_Some_2 ls (Z.to_nat i)) as [line ->].
  { unfold len in Hi. lia. }
  cbn [mbind result_bind].
  destruct (find line query (col i) =? -1); [exact IH|by eexists].
Qed.

Lemma py_range_bounds (a b : Z) : Forall (fun i => a <= i < b) (py_range a b).
Proof.
  apply Forall_forall. intros i Hi%elem_of_seqZ. lia.
Qed.

Lemma same_but_cursor_move (b : Buffer) (line_idx pos : Z) :
  same_but_cursor b (move_to_match b line_idx pos).
Proof. by repeat split. Qed.

Lemma same_but_cursor_refl (b : Buffer) : same_but_cursor b b.
Proof. by repeat split. Qed.

(** C9.  [find_next] returns normally whenever the active buffer satisfies
    the data-model invariant, and whenever it returns, found or not, the
    active buffer keeps its lines, its dirty flag and its selection state
    (and its scroll offsets and path): only the cursor and the preferred
    column can differ.  The other buffers, the active index, the clipboard
    and the search term stay as they were. *)
Theorem find_next_frame (st : EditorState) :
  (state_ok st = true -> exists st', find_next st = Ok st')
  /\ (forall st', find_next st = Ok st' ->
      exists k buf buf',
        item_index (len (buffers st)) (active st) = Ok k
        /\ buffers st !! k = Some buf
        /\ buffers st' = <[k := buf']> (buffers st)
        /\ same_but_cursor buf buf'
        /\ active st' = active st /\ clipboard st' = clipboard st
        /\ last_search st' = last_search st).
Proof.
  unfold state_ok, find_next.
  destruct (current_buffer st) as [buf|e] eqn:Hcur; [|by split].
  cbn [mbind result_bind].
  apply getitem_inv in Hcur as (k & Hk & Hbuf).
  assert (forall b', exists st1,
            store_buffer st b' = Ok st1
            /\ buffers st1 = <[k := b']> (buffers st)
            /\ active st1 = active st /\ clipboard st1 = clipboard st
            /\ last_search st1 = last_search st) as Hstore.
  { intros b'. unfold store_buffer, setitem. rewrite Hk.
    cbn [mbind result_bind]. by eexists. }
  case_bool_decide as Hq.
  { split; [by eexists|]. intros st' [= <-].
    exists k, buf, buf. rewrite list_insert_id by done.
    split_and!; first [done | apply same_but_cursor_refl]. }
  split.
  - intros (line & Hy & Hl & Hx)%buffer_ok_spec.
    pose proof (lookup_len _ _ _ Hl) as Hlt.
    destruct (scan_lines_total (lines buf) (last_search st)
                (fun line_idx => if line_idx =? cursor_y buf
                                 then cursor_x buf + 1 else 0)
                (py_range (cursor_y buf) (len (lines buf)))) as [hit ->].
    { eapply Forall_impl; [apply py_range_bounds|]. simpl. lia. }
    cbn [mbind result_bind]. destruct hit as [[i pos]|].
    { destruct (Hstore (move_to_match buf i pos)) as (st1 & -> & _).
      by eexists. }
    destruct (scan_lines_total (lines buf) (last_search st) (fun _ => 0)
                (py_range 0 (cursor_y buf + 1))) as [hit ->].
    { eapply Forall_impl; [apply py_range_bounds|]. simpl. lia. }
    cbn [mbind result_bind]. destruct hit as [[i pos]|]; [|by eexists].
    destruct (Hstore (move_to_match buf i pos)) as (st1 & -> & _).
    by eexists.
  - intros st'.
    destruct (scan_lines _ _ _ (py_range (cursor_y buf) _)) as [hit|];
      [|done].
    cbn [mbind result_bind]. destruct hit as [[i pos]|].
    { destruct (Hstore (move_to_match buf i pos))
        as (st1 & -> & Hbs & Ha & Hc & Hs).
      cbn [mbind result_bind]. intros [= <-].
      exists k, buf, (move_to_match buf i pos).
      split_and!; first [done | apply same_but_cursor_move]. }
    destruct (scan_lines _ _ _ (py_range 0 _)) as [hit|]; [|done].
    cbn [mbind result_bind]. destruct hit as [[i pos]|].
    { destruct (Hstore (move_to_match buf i pos))
        as (st1 & -> & Hbs & Ha & Hc & Hs).
      cbn [mbind result_bind]. intros [= <-].
      exists k, buf, (move_to_match buf i pos).
      split_and!; first [done | apply same_but_cursor_move]. }
    intros [= <-]. exists k, buf, buf. rewrite list_insert_id by done.
    split_and!; first [done | apply same_but_cursor_refl].
Qed.

(** [find_next] on two lines, from the start of the first: the match in
    the first line lies at the cursor, so the one in the second is taken. *)
Example find_next_second_line :
  state_ok search_state = true
  /\ exists st',
       find_next search_state = Ok st'
       /\ buffers st' =
          [mkBuffer [py "foo bar"; py "baz foo"] None 1 4 4 0 0 true true
             (Some 0) (Some 0)]
       /\ status st' = py "Found 'foo' at line 2.".
Proof.
  split; [reflexivity|]. eexists. split; [reflexivity|]. by split.
Qed.

(** ** Indentation cleanup *)

(** C4 (amended).  When indent computation succeeds, every line whose
    1-based number is in the computed skip set comes out of the cleanup
    exactly as it went in: its leading tabs are not replaced, and its
    content and trailing white space are kept. *)
Theorem skipped_lines_untouched (generate_tokens : str -> TokenStream)
    (ls : list str) (indents : gmap Z Z) (skip : gset Z) (idx : Z) (raw : str) :
  compute_indents generate_tokens ls = Ok (Some (indents, skip)) ->
  idx ∈ skip -> 1 <= idx -> ls !! Z.to_nat (idx - 1) = Some raw ->
  exists cleaned message,
    cleanup_indentation generate_tokens ls = Ok (cleaned, message)
    /\ cleaned !! Z.to_nat (idx - 1) = Some raw.
Proof.
  intros Hcomp Hskip Hidx Hraw. unfold cleanup_indentation.
  rewrite Hcomp. cbn [mbind result_bind].
  eexists _, _. split; [reflexivity|].
  set (cleaned := imap _ ls).
  assert (cleaned !! Z.to_nat (idx - 1) = Some raw) as Hc.
  { subst cleaned. rewrite list_lookup_imap, Hraw. cbn [fmap option_fmap option_map].
    unfold clean_line.
    replace (Z.of_nat (Z.to_nat (idx - 1)) + 1) with idx by lia.
    by rewrite bool_decide_eq_true_2. }
  destruct cleaned; [done|exact Hc].
Qed.

(** The line inside the open bracket of [x = (] is skipped and kept. *)
Lemma skipped_lines_untouched_witness :
  exists indents skip cleaned message,
    compute_indents recorded_tokens lines_paren_tab = Ok (Some (indents, skip))
    /\ 2 ∈ skip
    /\ cleanup_indentation recorded_tokens lines_paren_tab
       = Ok (cleaned, message)
    /\ cleaned !! 1%nat = Some (TAB :: py "1)").
Proof.
  assert (exists indents skip,
            compute_indents recorded_tokens lines_paren_tab
            = Ok (Some (indents, skip)) /\ 2 ∈ skip)
    as (indents & skip & Hcomp & Hskip).
  { eexists _, _. split; [reflexivity|]. by vm_compute. }
  destruct (skipped_lines_untouched recorded_tokens lines_paren_tab indents
              skip 2 (TAB :: py "1)") Hcomp Hskip)
    as (cleaned & message & Hclean & Hline); [lia|reflexivity|].
  by exists indents, skip, cleaned, message.
Defined.

(** C4 as stated fails on a skipped line that starts with a tab: the
    second line of [x = (] / [<TAB>1)] starts inside the open bracket, so
    it is in the skip set, and the cleanup returns it with its tab, not
    with the tab replaced by four spaces. *)
Lemma skipped_line_keeps_tab_counterexample :
  exists indents skip cleaned message,
    compute_indents recorded_tokens lines_paren_tab = Ok (Some (indents, skip))
    /\ bool_decide (2 ∈ skip) = true
    /\ cleanup_indentation recorded_tokens lines_paren_tab
       = Ok (cleaned, message)
    /\ lines_paren_tab !! 1%nat = Some (TAB :: py "1)")
    /\ cleaned !! 1%nat = Some (TAB :: py "1)")
    /\ expand_leading_tabs (TAB :: py "1)") = py "    1)".
Proof.
  eexists _, _, _, _. split; [reflexivity|].
  split; [by vm_compute|]. split; [reflexivity|].
  split_and!; by vm_compute.
Qed.

(** ** Highlighting: tokenization failures *)

(** C7.  When the run of the tokenizer ends in a lexical error, a
    [TokenError] (such as an unterminated multi-line string) or an
    [IndentationError] (inconsistent indentation), [build_syntax_spans]
    returns normally, and what it returns is the empty map, whatever
    spans the tokens yielded before the error had produced. *)
Theorem lexical_error_gives_empty_map (generate_tokens : str -> TokenStream)
    (builtins : gset str) (ls : list str) :
  raised (generate_tokens (source_text ls)) = Some TokenError
  \/ raised (generate_tokens (source_text ls)) = Some IndentationError ->
  build_syntax_spans generate_tokens builtins ls = Ok ∅.
Proof.
  intros Hraised. unfold build_syntax_spans.
  by destruct Hraised as [-> | ->].
Qed.

(** A number is styled on line 1 before the string of line 2 fails to
    end; the map returned is empty all the same. *)
Lemma lexical_error_gives_empty_map_witness :
  raised (recorded_tokens (source_text lines_open_string)) = Some TokenError
  /\ spans (highlight_loop ∅ lines_open_string
              (yielded (recorded_tokens (source_text lines_open_string))))
     !! 1 = Some [mkSpan 0 1 number]
  /\ build_syntax_spans recorded_tokens ∅ lines_open_string = Ok ∅.
Proof.
  split; [by vm_compute|]. split; [by vm_compute|].
  apply (lexical_error_gives_empty_map recorded_tokens ∅ lines_open_string).
  left. by vm_compute.
Defined.

(** ** Highlighting: the spans of a line *)

(** *** Rows of the tokenized text and lines of the buffer *)

Lemma no_line_feed_spec (ls : list str) :
  no_line_feed ls = true ->
  Forall (Forall (fun c => (LF =? c)%N = false)) ls.
Proof.
  unfold no_line_feed. rewrite forallb_forall, Forall_forall.
  intros H l Hl%list_elem_of_In. specialize (H l Hl).
  rewrite forallb_forall in H. apply Forall_forall.
  intros c Hc%list_elem_of_In. specialize (H c Hc).
  apply negb_true_iff in H. by rewrite N.eqb_sym.
Qed.

Lemma rows_of_joined_prefix (ls : list str) :
  Forall (Forall (fun c => (LF =? c)%N = false)) ls ->
  split_breaks (N.eqb LF) [] false (join [LF] ls) `prefix_of` ls.
Proof.
  induction 1 as [|l ls Hl Hls IH]; [done|].
  rewrite (split_breaks_join (N.eqb LF) eq_refl) by done.
  destruct ls as [|l2 ls]; cbn [app].
  - destruct l; [apply prefix_nil|done].
  - by apply prefix_cons.
Qed.

Lemma rows_of_terminated (ls : list str) :
  ls <> [] ->
  Forall (Forall (fun c => (LF =? c)%N = false)) ls ->
  split_breaks (N.eqb LF) [] false (join [LF] ls ++ [LF]) = ls.
Proof.
  intros Hne Hls. induction Hls as [|l ls Hl Hls IH]; [done|]. clear Hne.
  destruct ls as [|l2 ls].
  - cbn [join]. rewrite (split_breaks_line (N.eqb LF)) by done.
    by rewrite (split_breaks_LF (N.eqb LF) eq_refl).
  - change (join [LF] (l :: l2 :: ls) ++ [LF])
      with ((l ++ LF :: join [LF] (l2 :: ls)) ++ [LF]).
    rewrite <- app_assoc. cbn [app].
    rewrite (split_breaks_line (N.eqb LF)) by done.
    rewrite (split_breaks_LF (N.eqb LF) eq_refl). cbn [app].
    by rewrite IH.
Qed.

(** A non-empty row of the text handed to the tokenizer is the buffer
    line of the same number. *)
Lemma row_is_line (ls : list str) (k : nat) (row : str) :
  no_line_feed ls = true ->
  physical_rows (source_text ls) !! k = Some row -> row <> [] ->
  ls !! k = Some row.
Proof.
  intros Hls%no_line_feed_spec Hrow Hne. unfold physical_rows, source_text in Hrow.
  destruct ls as [|l0 ls0].
  { destruct k as [|[|k]]; simplify_eq/=. }
  set (ls := l0 :: ls0) in *.
  destruct (endswith (join [LF] ls) [LF]).
  - eapply prefix_lookup_Some; [exact Hrow|]. by apply rows_of_joined_prefix.
  - by rewrite rows_of_terminated in Hrow.
Qed.

(** *** Positions *)

Lemma pos_le_spec (p q : Z * Z) :
  pos_le p q = true <-> p.1 < q.1 \/ (p.1 = q.1 /\ p.2 <= q.2).
Proof.
  unfold pos_le. rewrite orb_true_iff, andb_true_iff.
  rewrite Z.ltb_lt, Z.eqb_eq, Z.leb_le. done.
Qed.

Lemma pos_le_trans (p q r : Z * Z) :
  pos_le p q = true -> pos_le q r = true -> pos_le p r = true.
Proof. rewrite !pos_le_spec. lia. Qed.

Lemma within_spec (rows : list str) (p : Z * Z) :
  within rows p = true ->
  1 <= p.1 /\ 0 <= p.2
  /\ exists row, rows !! Z.to_nat (p.1 - 1) = Some row /\ p.2 <= len row.
Proof.
  unfold within. intros H.
  destruct (rows !! Z.to_nat (p.1 - 1)) as [row|];
    [|by rewrite andb_false_r in H].
  repeat (apply andb_prop in H as [H ?]).
  split_and!; [lia|lia|]. exists row. split; [done|lia].
Qed.

(** *** Chains of spans *)

Lemma spans_chain_snoc (from : Z) (l : list TokenSpan) (s : TokenSpan) :
  spans_chain from l = true ->
  Forall (fun a => end_ a <= start s) l ->
  from <= start s -> start s < end_ s ->
  spans_chain from (l ++ [s]) = true.
Proof.
  intros Hchain Hends. revert from Hchain.
  induction Hends as [|a l Ha _ IH]; intros from Hchain Hfrom Hs.
  - cbn. apply andb_true_intro. split; [|done].
    apply andb_true_intro. split; lia.
  - cbn [app spans_chain] in *.
    apply andb_prop in Hchain as [Hhead Hrest]. rewrite Hhead. cbn [andb].
    apply IH; [done|lia|done].
Qed.

Lemma spans_chain_lower (from : Z) (l : list TokenSpan) :
  spans_chain from l = true ->
  Forall (fun s => from <= start s /\ start s < end_ s) l.
Proof.
  revert from. induction l as [|a l IH]; intros from Hchain; [constructor|].
  cbn [spans_chain] in Hchain.
  apply andb_prop in Hchain as [[H1%Z.leb_le H2%Z.ltb_lt]%andb_prop Hrest].
  constructor; [done|].
  eapply Forall_impl; [exact (IH _ Hrest)|]. simpl. lia.
Qed.

Lemma spans_chain_pairwise (from : Z) (l : list TokenSpan) (i j : nat)
    (a b : TokenSpan) :
  spans_chain from l = true -> (i < j)%nat ->
  l !! i = Some a -> l !! j = Some b ->
  start a < start b /\ end_ a <= start b.
Proof.
  revert from i j. induction l as [|x l IH]; intros from i j Hchain Hij Ha Hb;
    [done|].
  cbn [spans_chain] in Hchain.
  apply andb_prop in Hchain as [[H1%Z.leb_le H2%Z.ltb_lt]%andb_prop Hrest].
  destruct j as [|j]; [lia|]. destruct i as [|i]; simplify_eq/=.
  - pose proof (spans_chain_lower _ _ Hrest) as Hlow.
    rewrite Forall_forall in Hlow.
    destruct (Hlow b) as [? ?]; [by eapply list_elem_of_lookup_2|]. lia.
  - eapply (IH _ i j); [done|lia|done|done].
Qed.

Lemma sort_spans_chain (from : Z) (l : list TokenSpan) :
  spans_chain from l = true -> sort_spans l = l.
Proof.
  revert from. induction l as [|x l IH]; intros from Hchain; [done|].
  cbn [spans_chain] in Hchain.
  apply andb_prop in Hchain as [[H1%Z.leb_le H2%Z.ltb_lt]%andb_prop Hrest].
  cbn [sort_spans foldr]. fold (sort_spans l). rewrite (IH _ Hrest).
  destruct l as [|y l]; [done|].
  cbn [insert_span]. cbn [spans_chain] in Hrest.
  apply andb_prop in Hrest as [[H3%Z.leb_le _]%andb_prop _].
  destruct (Z.leb_spec (start x) (start y)); [done|lia].
Qed.

(** *** The loop invariant *)

Lemma spans_inv_mono (ls : list str) (f f' : Z * Z)
    (m : gmap Z (list TokenSpan)) :
  spans_inv ls f m -> pos_le f f' = true -> spans_inv ls f' m.
Proof.
  intros Hinv Hle%pos_le_spec line_no l Hl.
  destruct (Hinv line_no l Hl) as (Hchain & Hrow & line & H1 & Hline & Hall).
  split_and!; [done|lia|]. exists line. split_and!; [done|done|].
  eapply Forall_impl; [exact Hall|]. simpl. lia.
Qed.

Lemma add_span_inv (ls : list str) (f f' : Z * Z)
    (m : gmap Z (list TokenSpan)) (n sc ec : Z) (sty : Style) :
  spans_inv ls f m -> pos_le f (n, sc) = true -> 0 <= sc ->
  (sc < ec ->
   exists line, 1 <= n /\ ls !! Z.to_nat (n - 1) = Some line /\ ec <= len line) ->
  pos_le (n, Z.max sc ec) f' = true ->
  spans_inv ls f' (add_span m n sc ec sty).
Proof.
  intros Hinv Hf Hsc Hline Hf'. unfold add_span.
  destruct (Z.leb_spec ec sc) as [Hempty|Hspan].
  { eapply spans_inv_mono; [exact Hinv|].
    eapply pos_le_trans; [exact Hf|]. eapply pos_le_trans; [|exact Hf'].
    apply pos_le_spec. simpl. lia. }
  destruct (Hline Hspan) as (line & Hn & Hlook & Hec).
  apply pos_le_spec in Hf, Hf'. simpl in Hf, Hf'.
  intros line_no l Hl. destruct (decide (line_no = n)) as [->|Hne].
  - rewrite lookup_insert_eq in Hl. injection Hl as <-.
    split_and!; [|lia|].
    + destruct (m !! n) as [old|] eqn:Hold; simpl.
      * destruct (Hinv n old Hold) as (Hchain & Hrow & line' & _ & _ & Hall).
        apply spans_chain_snoc; simpl; [done| |lia|lia].
        eapply Forall_impl; [exact Hall|]. simpl. lia.
      * apply andb_true_intro. split; [|done].
        apply andb_true_intro. simpl. split; lia.
    + exists line. split_and!; [done|done|].
      apply Forall_app. split.
      * destruct (m !! n) as [old|] eqn:Hold; simpl; [|constructor].
        destruct (Hinv n old Hold) as (_ & Hrow & line' & _ & Hlook' & Hall).
        rewrite Hlook in Hlook'. injection Hlook' as <-.
        eapply Forall_impl; [exact Hall|]. simpl. lia.
      * apply Forall_singleton. simpl. lia.
  - rewrite lookup_insert_ne in Hl by done.
    destruct (Hinv line_no l Hl) as (Hchain & Hrow & line' & H1 & Hlook' & Hall).
    split_and!; [done|lia|]. exists line'. split_and!; [done|done|].
    eapply Forall_impl; [exact Hall|]. simpl. lia.
Qed.

Lemma add_span_to_eol_inv (ls : list str) (f : Z * Z)
    (m : gmap Z (list TokenSpan)) (n sc : Z) (sty : Style) :
  spans_inv ls f m -> pos_le f (n, sc) = true -> 0 <= sc ->
  spans_inv ls (n + 1, 0) (add_span_to_eol ls m n sc sty).
Proof.
  intros Hinv Hf Hsc. unfold add_span_to_eol.
  assert (spans_inv ls (n + 1, 0) m) as Hskip.
  { eapply spans_inv_mono; [exact Hinv|]. apply pos_le_spec in Hf.
    apply pos_le_spec. simpl in *. lia. }
  destruct (Z.leb_spec 0 (n - 1)); [|done].
  destruct (ls !! Z.to_nat (n - 1)) as [line|] eqn:Hline; [|done].
  eapply add_span_inv; [exact Hinv|exact Hf|done| |].
  - intros _. exists line. split_and!; [lia|done|lia].
  - apply pos_le_spec. simpl. lia.
Qed.

Lemma middle_lines_inv (ls : list str) (sty : Style) (count : nat) (a : Z)
    (m : gmap Z (list TokenSpan)) :
  spans_inv ls (a, 0) m ->
  spans_inv ls (a + Z.of_nat count, 0)
    (foldl (fun spans line_no => add_span_to_eol ls spans line_no 0 sty) m
       (seqZ a (Z.of_nat count))).
Proof.
  revert a m. induction count as [|count IH]; intros a m Hinv.
  - rewrite Z.add_0_r. exact Hinv.
  - rewrite seqZ_cons by lia. cbn [foldl].
    replace (Z.pred (Z.of_nat (S count))) with (Z.of_nat count) by lia.
    replace (a + Z.of_nat (S count)) with (Z.succ a + Z.of_nat count) by lia.
    apply IH. replace (Z.succ a) with (a + 1) by lia.
    eapply add_span_to_eol_inv; [exact Hinv| |done].
    apply pos_le_spec. simpl. lia.
Qed.

Lemma emit_token_inv (ls : list str) (f : Z * Z)
    (m : gmap Z (list TokenSpan)) (tok : TokenInfo) (sty : Style) :
  no_line_feed ls = true ->
  spans_inv ls f m ->
  pos_le f (tok_start tok) = true ->
  pos_le (tok_start tok) (tok_end tok) = true ->
  within (physical_rows (source_text ls)) (tok_start tok) = true ->
  within (physical_rows (source_text ls)) (tok_end tok) = true ->
  spans_inv ls (tok_end tok) (emit_token ls m tok sty).
Proof.
  intros Hls Hinv Hf Hse Hws Hwe. unfold emit_token.
  destruct (tok_start tok) as [sr sc], (tok_end tok) as [er ec].
  apply within_spec in Hws as (Hsr & Hsc & _).
  apply within_spec in Hwe as (Her & Hec & row & Hrow & Hlen).
  simpl in Hsr, Hsc, Her, Hec, Hrow, Hlen.
  assert (0 < ec ->
          exists line, 1 <= er /\ ls !! Z.to_nat (er - 1) = Some line
                       /\ ec <= len line) as Hend.
  { intros Hpos. exists row. split_and!; [done| |done].
    apply row_is_line; [done|done|]. intros ->. unfold len in Hlen.
    simpl in Hlen. lia. }
  pose proof Hse as Hse'. apply pos_le_spec in Hse'. simpl in Hse'.
  destruct (Z.eqb_spec sr er) as [->|Hrows].
  - eapply add_span_inv; [exact Hinv|exact Hf|done| |].
    + intros Hspan. apply Hend. lia.
    + apply pos_le_spec. simpl. lia.
  - pose proof (add_span_to_eol_inv ls f m sr sc sty Hinv Hf Hsc) as Hfirst.
    pose proof (middle_lines_inv ls sty (Z.to_nat (er - (sr + 1))) (sr + 1) _
                  Hfirst) as Hmid.
    rewrite Z2Nat.id in Hmid by lia.
    replace (sr + 1 + (er - (sr + 1))) with er in Hmid by lia.
    eapply add_span_inv; [exact Hmid| |done| |].
    + apply pos_le_spec. simpl. lia.
    + exact Hend.
    + apply pos_le_spec. simpl. lia.
Qed.

Lemma classify_not_lexeme (builtins : gset str) (pd pc : bool)
    (tok : TokenInfo) :
  is_lexeme tok = false -> (classify builtins pd pc tok).1.1 = None.
Proof. unfold is_lexeme, classify. by destruct (tok_type tok). Qed.

Lemma highlight_loop_inv (builtins : gset str) (ls : list str)
    (toks : list TokenInfo) (f : Z * Z) (st : Classifier) :
  no_line_feed ls = true ->
  spans_inv ls f (spans st) ->
  well_positioned (physical_rows (source_text ls)) f toks = true ->
  exists f', spans_inv ls f' (spans (foldl (highlight_step builtins ls) st toks)).
Proof.
  intros Hls. revert f st. induction toks as [|tok toks IH]; intros f st Hinv Hwp.
  { by exists f. }
  cbn [foldl well_positioned] in *.
  unfold highlight_step at 2.
  destruct (classify builtins (pending_def st) (pending_class st) tok)
    as [[sty pd] pc] eqn:Hcls.
  destruct (is_lexeme tok) eqn:Hlex.
  - repeat (apply andb_prop in Hwp as [Hwp ?]).
    destruct sty as [sty|]; cbn [spans].
    + apply (IH (tok_end tok)); [|done]. cbn [spans].
      by apply emit_token_inv with f.
    + apply (IH (tok_end tok)); [|done]. cbn [spans].
      eapply spans_inv_mono; [exact Hinv|]. by eapply pos_le_trans.
  - pose proof (classify_not_lexeme builtins (pending_def st)
                  (pending_class st) tok Hlex) as Hnone.
    rewrite Hcls in Hnone. simpl in Hnone. subst sty.
    by apply (IH f).
Qed.

Lemma spans_inv_empty (ls : list str) (f : Z * Z) : spans_inv ls f ∅.
Proof. intros line_no l Hl. by rewrite lookup_empty in Hl. Qed.

(** C5.  The entries of a buffer are lines: none holds a line feed
    ([load_file] returns none, and no key inserts one).  On such a list of
    lines, and a run of the tokenizer that keeps its promise about
    positions, [build_syntax_spans] raises only what the tokenizer raised
    beyond the two errors it catches, and in the map it returns the spans
    of any line are in strictly increasing order of start column, do not
    overlap pairwise, are not empty, and end at or before the length of
    that line of the buffer. *)
Theorem spans_sorted_disjoint_bounded (generate_tokens : str -> TokenStream)
    (builtins : gset str) (ls : list str) :
  no_line_feed ls = true ->
  tokenizer_contract (source_text ls) (generate_tokens (source_text ls)) = true ->
  match build_syntax_spans generate_tokens builtins ls with
  | Ok m =>
      forall line_no l, m !! line_no = Some l ->
        (forall i j a b, (i < j)%nat -> l !! i = Some a -> l !! j = Some b ->
                         start a < start b /\ end_ a <= start b)
        /\ exists line,
             1 <= line_no /\ ls !! Z.to_nat (line_no - 1) = Some line
             /\ forall s, s ∈ l -> 0 <= start s < end_ s /\ end_ s <= len line
  | Raise e =>
      raised (generate_tokens (source_text ls)) = Some e
      /\ e <> TokenError /\ e <> IndentationError
  end.
Proof.
  intros Hls Hcontract. unfold build_syntax_spans, tokenizer_contract in *.
  set (run := generate_tokens (source_text ls)) in *.
  destruct (highlight_loop_inv builtins ls (yielded run) (1, 0)
              (mkClassifier ∅ false false) Hls (spans_inv_empty ls (1, 0))
              Hcontract) as [f Hinv].
  fold (highlight_loop builtins ls (yielded run)) in Hinv.
  destruct (raised run) as [e|] eqn:Hraised.
  { destruct e; try done; intros line_no l Hl; by rewrite lookup_empty in Hl. }
  intros line_no l Hl. rewrite lookup_fmap in Hl.
  destruct (spans (highlight_loop builtins ls (yielded run)) !! line_no)
    as [l0|] eqn:Hl0; [|done].
  injection Hl as <-.
  destruct (Hinv line_no l0 Hl0) as (Hchain & _ & line & H1 & Hline & Hall).
  rewrite (sort_spans_chain 0 l0 Hchain). split.
  - intros i j a b. by apply spans_chain_pairwise with 0.
  - exists line. split_and!; [done|done|].
    intros s Hs. pose proof (spans_chain_lower 0 l0 Hchain) as Hlow.
    rewrite Forall_forall in Hlow, Hall.
    destruct (Hlow s Hs), (Hall s Hs). lia.
Qed.

(** The spans of [x = 1  # note]: the number, then the comment. *)
Lemma spans_sorted_disjoint_bounded_witness :
  no_line_feed lines_note = true
  /\ tokenizer_contract (source_text lines_note)
       (recorded_tokens (source_text lines_note)) = true
  /\ build_syntax_spans recorded_tokens ∅ lines_note
     = Ok {[ 1 := [mkSpan 4 5 number; mkSpan 7 13 comment] ]}
  /\ forall line_no l,
       ({[ 1 := [mkSpan 4 5 number; mkSpan 7 13 comment] ]}
          : gmap Z (list TokenSpan)) !! line_no = Some l ->
       (forall i j a b, (i < j)%nat -> l !! i = Some a -> l !! j = Some b ->
                        start a < start b /\ end_ a <= start b)
       /\ exists line,
            1 <= line_no /\ lines_note !! Z.to_nat (line_no - 1) = Some line
            /\ forall s, s ∈ l -> 0 <= start s < end_ s /\ end_ s <= len line.
Proof.
  assert (no_line_feed lines_note = true) as H1 by (by vm_compute).
  assert (tokenizer_contract (source_text lines_note)
            (recorded_tokens (source_text lines_note)) = true) as H2
    by (by vm_compute).
  assert (build_syntax_spans recorded_tokens ∅ lines_note
          = Ok {[ 1 := [mkSpan 4 5 number; mkSpan 7 13 comment] ]}) as H3
    by (by vm_compute).
  split; [exact H1|]. split; [exact H2|]. split; [exact H3|].
  pose proof (spans_sorted_disjoint_bounded recorded_tokens ∅ lines_note H1 H2)
    as H.
  rewrite H3 in H. exact H.
Defined.

(** Why the entries must be lines: the spans are keyed by the rows of the
    joined text.  Were an entry to hold a line feed, as in [x<LF>12345]
    followed by [1], the text would have more rows than the list has
    entries, and the number [12345] of row 2 would give a span ending at
    column 5 on line 2, whose entry [1] has length 1. *)
Example embedded_line_feed_shifts_rows :
  no_line_feed lines_embedded_lf = false
  /\ tokenizer_contract (source_text lines_embedded_lf)
       (recorded_tokens (source_text lines_embedded_lf)) = true
  /\ build_syntax_spans recorded_tokens ∅ lines_embedded_lf
     = Ok {[ 2 := [mkSpan 0 5 number]; 3 := [mkSpan 0 1 number] ]}
  /\ lines_embedded_lf !! 1%nat = Some (py "1").
Proof. split_and!; by vm_compute. Qed.

(** ** The examples of the specification *)

(** Cleaning [def f():] over [  return 1] gives the body four spaces. *)
Example cleanup_return :
  cleanup_indentation recorded_tokens lines_return
  = Ok ([py "def f():"; py "    return 1"],
        py "Indentation normalized to 4 spaces.").
Proof. by vm_compute. Qed.

(** Classifying [x = 1  # note] styles the number and the comment and
    leaves [x] and [=] without a span. *)
Example classify_note :
  (fun m => span_triples <$> m !! 1)
    <$> match build_syntax_spans recorded_tokens ∅ lines_note with
        | Ok m => Some m
        | Raise _ => None
        end
  = Some (Some [(4, 5, number); (7, 13, comment)]).
Proof. by vm_compute. Qed.

(** The two passes differ on a syntax error that is not an indentation
    error, should a tokenizer ever raise one (CPython's reports lexical
    errors as [TokenError] or [IndentationError]): [build_syntax_spans]
    lets it through, [compute_indents] catches it. *)
Example syntax_error_propagates :
  build_syntax_spans (fun _ => mkStream [] (Some SyntaxError)) ∅ [py "x"]
  = Raise SyntaxError
  /\ compute_indents (fun _ => mkStream [] (Some SyntaxError)) [py "x"]
     = Ok None.
Proof. by split. Qed.

(** * Further properties of the editor *)

(** ** Clamping the cursor *)

Lemma buffer_eta (b : Buffer) :
  mkBuffer (lines b) (file_path b) (cursor_y b) (cursor_x b) (preferred_x b)
    (scroll_y b) (scroll_x b) (dirty b) (selecting b) (selection_start b)
    (selection_end b) = b.
Proof. by destruct b. Qed.

Lemma buffer_ok_lines (b : Buffer) : buffer_ok b = true -> lines b <> [].
Proof.
  intros (line & _ & Hl & _)%buffer_ok_spec Hnil. by rewrite Hnil in Hl.
Qed.

Lemma len_pos {A} (l : list A) : l <> [] -> 1 <= len l.
Proof. destruct l; [done|]. rewrite len_cons. pose proof (len_nonneg l). lia. Qed.

Lemma keep_cursor_in_bounds_clamps (b : Buffer) :
  lines b <> [] ->
  exists b',
    keep_cursor_in_bounds b = Ok b' /\ buffer_ok b' = true
    /\ lines b' = lines b
    /\ cursor_y b' = Z.max 0 (Z.min (cursor_y b) (len (lines b) - 1))
    /\ scroll_y b' = scroll_y b /\ scroll_x b' = scroll_x b.
Proof.
  intros Hne%len_pos. unfold keep_cursor_in_bounds. buffer_fields.
  set (y := Z.max 0 (Z.min (cursor_y b) (len (lines b) - 1))).
  assert (0 <= y < len (lines b)) as Hy by lia.
  destruct (lookup_lt_is_Some_2 (lines b) (Z.to_nat y)) as [line Hline].
  { unfold len in Hy. lia. }
  rewrite (getitem_ok _ y line) by (done || lia). cbn [mbind result_bind].
  eexists. split; [reflexivity|]. split_and!; try done.
  apply buffer_ok_intro with line; buffer_fields; [lia|done|].
  pose proof (len_nonneg line). lia.
Qed.

Lemma getitem_nil {A} (i : Z) : getitem (@nil A) i = Raise IndexError.
Proof.
  unfold getitem, item_index. change (len (@nil A)) with 0.
  destruct (i <? 0); [rewrite Z.add_0_r|];
    (destruct (Z.leb_spec 0 i), (Z.ltb_spec i 0); try lia; reflexivity).
Qed.

(** X1.  [keep_cursor_in_bounds] raises [IndexError] on a buffer without
    lines; on any other buffer it returns a buffer with the same lines and
    a cursor that satisfies the bounds, and it changes nothing when the
    cursor already did. *)
Theorem keep_cursor_in_bounds_spec (b : Buffer) :
  (lines b = [] -> keep_cursor_in_bounds b = Raise IndexError)
  /\ (lines b <> [] ->
      exists b',
        keep_cursor_in_bounds b = Ok b' /\ buffer_ok b' = true
        /\ lines b' = lines b)
  /\ (buffer_ok b = true -> keep_cursor_in_bounds b = Ok b).
Proof.
  split_and!.
  - intros Hnil. unfold keep_cursor_in_bounds. buffer_fields.
    by rewrite Hnil, getitem_nil.
  - intros Hne.
    destruct (keep_cursor_in_bounds_clamps b Hne) as (b' & ? & ? & ? & _).
    by exists b'.
  - intros (line & Hy & Hl & Hx)%buffer_ok_spec.
    pose proof (lookup_len _ _ _ Hl) as Hlt.
    unfold keep_cursor_in_bounds. buffer_fields.
    replace (Z.max 0 (Z.min (cursor_y b) (len (lines b) - 1)))
      with (cursor_y b) by lia.
    rewrite (getitem_ok _ (cursor_y b) line) by done.
    cbn [mbind result_bind].
    replace (Z.max 0 (Z.min (cursor_x b) (len line))) with (cursor_x b) by lia.
    unfold set_cursor_x, set_cursor_y. buffer_fields. by rewrite buffer_eta.
Qed.

(** ** Deleting the selection *)

Lemma selection_range_ordered (b : Buffer) (s e : Z) :
  selection_range b = Some (s, e) -> s <= e.
Proof.
  unfold selection_range. destruct (has_selection b); [|done].
  destruct (selection_start b) as [x|]; [|done].
  destruct (selection_end b) as [y|]; [|done]. cbn [negb].
  destruct (Z.leb_spec x y); intros [= <- <-]; lia.
Qed.

Lemma has_selection_range (b : Buffer) :
  has_selection b = true -> exists s e, selection_range b = Some (s, e).
Proof.
  unfold selection_range. intros Hsel. rewrite Hsel.
  unfold has_selection in Hsel.
  destruct (selection_start b) as [x|]; [|done].
  destruct (selection_end b) as [y|]; [|done]. cbn [negb].
  destruct (x <=? y); by eexists _, _.
Qed.

Lemma del_slice_in {A} (l : list A) (a b : Z) :
  0 <= a -> a < b -> b <= len l ->
  del_slice l a b = take (Z.to_nat a) l ++ drop (Z.to_nat b) l.
Proof.
  intros Ha Hab Hb. unfold del_slice.
  rewrite !slice_bound_in by lia.
  destruct (Nat.ltb_spec (Z.to_nat a) (Z.to_nat b)); [done|lia].
Qed.

(** X2.  Without a selection [delete_selection] returns [False] and leaves
    the buffer alone.  With one it returns [True], whatever the cursor and
    however stale the selection: the buffer then has at least one line and
    an in-bounds cursor at column 0, no selection, and is dirty; when the
    selected range lies inside the buffer, exactly its lines are removed
    (a buffer emptied this way is left with one empty line). *)
Theorem delete_selection_spec (b : Buffer) :
  (has_selection b = false -> delete_selection b = (b, false))
  /\ (has_selection b = true ->
      exists b',
        delete_selection b = (b', true) /\ buffer_ok b' = true
        /\ has_selection b' = false /\ selecting b' = false
        /\ dirty b' = true /\ cursor_x b' = 0
        /\ forall s e,
             selection_range b = Some (s, e) -> 0 <= s -> e < len (lines b) ->
             lines b'
             = or_empty_line (take (Z.to_nat s) (lines b)
                              ++ drop (Z.to_nat (e + 1)) (lines b))
             /\ cursor_y b' = Z.min s (len (lines b') - 1)).
Proof.
  split.
  - intros Hsel. unfold delete_selection, selection_range. by rewrite Hsel.
  - intros Hsel. destruct (has_selection_range b Hsel) as (s & e & Hrange).
    pose proof (selection_range_ordered b s e Hrange) as Hse.
    pose proof (delete_selection_ok b) as Hok.
    unfold delete_selection in *. rewrite Hrange in *. cbv zeta in *.
    destruct (Z.ltb_spec (Z.max 0 (Z.min e (len (lines b) - 1)))
                (Z.max 0 (Z.min s (len (lines b) - 1)))) as [Hlt|Hge];
      [lia|].
    eexists. split; [reflexivity|].
    split_and!; try reflexivity.
    + set (ls := match del_slice _ _ _ with [] => [[]] | _ => _ end).
      assert (1 <= len ls) as Hls.
      { subst ls. destruct (del_slice _ _ _); unfold len; simpl; lia. }
      buffer_fields.
      set (y := Z.min _ (len ls - 1)).
      assert (0 <= y < len ls) as Hy by (subst y; lia).
      destruct (lookup_lt_is_Some_2 ls (Z.to_nat y)) as [line Hline].
      { unfold len in Hy. lia. }
      apply buffer_ok_intro with line; buffer_fields; [lia|done|].
      pose proof (len_nonneg line). lia.
    + intros s' e' [= <- <-] Hs He. buffer_fields.
      replace (Z.max 0 (Z.min s (len (lines b) - 1))) with s by lia.
      replace (Z.max 0 (Z.min e (len (lines b) - 1))) with e by lia.
      rewrite del_slice_in by lia. split; [|reflexivity].
      unfold or_empty_line. by destruct (_ ++ _).
Qed.

(** A stale selection past the end of a three-line buffer: the last line
    goes, and the buffer stays well formed. *)
Example delete_stale_selection :
  delete_selection
    (mkBuffer [py "a"; py "b"; py "c"] None 0 1 1 0 0 false false (Some 7)
       (Some 5))
  = (mkBuffer [py "a"; py "b"] None 1 0 0 0 0 true false None None, true).
Proof. reflexivity. Qed.

(** ** The editing keys *)

Lemma delete_selection_clears (b : Buffer) :
  has_selection b = true ->
  selection_pending (fst (delete_selection b)) = false.
Proof.
  intros Hsel. destruct (has_selection_range b Hsel) as (s & e & Hrange).
  pose proof (selection_range_ordered b s e Hrange) as Hse.
  unfold delete_selection. rewrite Hrange. cbv zeta.
  destruct (Z.ltb_spec (Z.max 0 (Z.min e (len (lines b) - 1)))
              (Z.max 0 (Z.min s (len (lines b) - 1)))); [lia|].
  reflexivity.
Qed.

Lemma before_edit_not_pending (b : Buffer) :
  selection_pending
    (if selection_pending b then fst (delete_selection b) else b) = false.
Proof.
  destruct (selection_pending b) eqn:Hp; [|done].
  apply delete_selection_clears. unfold selection_pending in Hp.
  by apply andb_prop in Hp as [? _].
Qed.

Lemma newline_after_selection (b : Buffer) :
  newline b
  = newline (if selection_pending b then fst (delete_selection b) else b).
Proof.
  unfold newline at 2. by rewrite before_edit_not_pending.
Qed.

Lemma newline_ok (b : Buffer) :
  buffer_ok b = true ->
  exists b', newline b = Ok b' /\ buffer_ok b' = true.
Proof.
  intros Hb%before_edit_ok. rewrite newline_after_selection.
  pose proof (before_edit_not_pending b) as Hsel.
  set (b0 := if selection_pending b then _ else _) in *. clearbody b0.
  rewrite (newline_spec b0 Hb Hsel). eexists. split; [reflexivity|].
  pose proof (newline_indent_nonneg b0) as Hind.
  apply buffer_ok_spec in Hb as (line & Hy & Hl & Hx).
  pose proof (lookup_len _ _ _ Hl) as Hlt.
  eapply buffer_ok_intro; buffer_fields; [lia| |].
  - replace (Z.to_nat (cursor_y b0 + 1))
      with (length (take (Z.to_nat (cursor_y b0)) (lines b0) ++ [text_before b0])).
    2:{ rewrite length_app, length_take. unfold len in Hlt. simpl. lia. }
    set (new := str_mul _ _ ++ _). set (l1 := take _ _). set (l2 := drop _ _).
    change (l1 ++ text_before b0 :: new :: l2)
      with (l1 ++ [text_before b0] ++ new :: l2).
    rewrite app_assoc. apply list_lookup_middle. reflexivity.
  - rewrite len_app, len_str_mul_space by done.
    pose proof (len_nonneg (lstrip [SPACE] (text_after b0))). lia.
Qed.

Lemma snap_to_preferred_ok (b : Buffer) :
  0 <= cursor_y b < len (lines b) ->
  exists b', snap_to_preferred b = Ok b' /\ lines b' = lines b.
Proof.
  intros Hy. unfold snap_to_preferred.
  destruct (lookup_lt_is_Some_2 (lines b) (Z.to_nat (cursor_y b)))
    as [line Hline].
  { unfold len in Hy. lia. }
  rewrite (getitem_ok _ (cursor_y b) line) by (done || lia).
  by eexists.
Qed.

(** Every key leaves a buffer that has lines; the cursor may be out of
    bounds until it is clamped. *)
Lemma edit_key_ok (b : Buffer) (key body_h : Z) :
  buffer_ok b = true -> 1 <= body_h ->
  exists b', edit_key b key body_h = Ok b' /\ lines b' <> [].
Proof.
  intros Hok Hh. pose proof (buffer_ok_lines b Hok) as Hne.
  pose proof Hok as (line & Hy & Hl & Hx)%buffer_ok_spec.
  pose proof (lookup_len _ _ _ Hl) as Hlt.
  assert (forall v, 0 <= v < len (lines b) ->
            exists b', snap_to_preferred (set_cursor_y b v) = Ok b'
                       /\ lines b' <> []) as Hsnap.
  { intros v Hv.
    destruct (snap_to_preferred_ok (set_cursor_y b v)) as (b' & -> & Hls);
      [by buffer_fields|].
    exists b'. split; [done|]. by rewrite Hls. }
  assert (forall r : result Buffer,
            (exists b', r = Ok b' /\ buffer_ok b' = true) ->
            exists b', r = Ok b' /\ lines b' <> []) as Hedit.
  { intros r (b' & -> & Hb'). exists b'. split; [done|].
    by apply buffer_ok_lines. }
  unfold edit_key.
  destruct (key =? KEY_UP); [apply Hsnap; lia|].
  destruct (key =? KEY_DOWN); [apply Hsnap; lia|].
  destruct (key =? KEY_LEFT).
  { destruct (Z.ltb_spec 0 (cursor_x b)); [by eexists|].
    destruct (Z.ltb_spec 0 (cursor_y b)); [|by eexists].
    buffer_fields.
    destruct (lookup_lt_is_Some_2 (lines b) (Z.to_nat (cursor_y b - 1)))
      as [prev Hprev].
    { unfold len in Hlt. lia. }
    rewrite (getitem_ok _ (cursor_y b - 1) prev) by (done || lia).
    by eexists. }
  destruct (key =? KEY_RIGHT).
  { rewrite (getitem_ok _ (cursor_y b) line) by done.
    cbn [mbind result_bind]. eexists. split; [reflexivity|].
    buffer_fields. by repeat case_match. }
  destruct (key =? KEY_HOME); [by eexists|].
  destruct (key =? KEY_END).
  { rewrite (getitem_ok _ (cursor_y b) line) by done. by eexists. }
  destruct (key =? KEY_PPAGE); [apply Hsnap; lia|].
  destruct (key =? KEY_NPAGE); [apply Hsnap; lia|].
  destruct ((key =? 10) || (key =? 13)); [by apply Hedit, newline_ok|].
  destruct ((key =? KEY_BACKSPACE) || (key =? 127) || (key =? 8));
    [by apply Hedit, backspace_ok|].
  destruct (key =? KEY_DC); [by apply Hedit, delete_forward_ok|].
  destruct (key =? 9); [by apply Hedit, insert_char_ok|].
  destruct ((32 <=? key) && (key <=? 126)); [by apply Hedit, insert_char_ok|].
  by exists b.
Qed.

Lemma update_selection_frame (b : Buffer) :
  lines (update_selection b) = lines b
  /\ cursor_y (update_selection b) = cursor_y b
  /\ cursor_x (update_selection b) = cursor_x b.
Proof.
  unfold update_selection.
  destruct (selection_start b); [|done]. by destruct (selecting b).
Qed.

Lemma ensure_cursor_visible_frame (b : Buffer) (body_h editor_w : Z) :
  lines (ensure_cursor_visible b body_h editor_w) = lines b
  /\ cursor_y (ensure_cursor_visible b body_h editor_w) = cursor_y b
  /\ cursor_x (ensure_cursor_visible b body_h editor_w) = cursor_x b.
Proof. split_and!; viewport_cases; reflexivity. Qed.

(** X3.  From a buffer with at least one line and an in-bounds cursor,
    and a body of height and width at least 1, the end of [handle_input]
    handles every key without raising, and leaves a buffer that again has
    at least one line and an in-bounds cursor, with the cursor inside the
    window. *)
Theorem handle_edit_key_keeps_invariant (b : Buffer) (key body_h editor_w : Z) :
  buffer_ok b = true -> 1 <= body_h -> 1 <= editor_w ->
  exists b',
    handle_edit_key b key body_h editor_w = Ok b'
    /\ buffer_ok b' = true
    /\ scroll_y b' <= cursor_y b' < scroll_y b' + body_h
    /\ scroll_x b' <= cursor_x b' < scroll_x b' + editor_w.
Proof.
  intros Hok Hh Hw. unfold handle_edit_key.
  destruct (edit_key_ok b key body_h Hok Hh) as (b1 & -> & Hb1).
  cbn [mbind result_bind].
  destruct (update_selection_frame b1) as (Hls & _).
  destruct (keep_cursor_in_bounds_clamps (update_selection b1))
    as (b2 & -> & Hb2 & _); [by rewrite Hls|].
  cbn [mbind result_bind]. eexists. split; [reflexivity|].
  destruct (ensure_cursor_visible_frame b2 body_h editor_w) as (Hl & Hy & Hx).
  apply buffer_ok_spec in Hb2 as (line & Hy2 & Hl2 & Hx2).
  split.
  - apply buffer_ok_intro with line; by rewrite ?Hl, ?Hy, ?Hx.
  - split; viewport_cases; lia.
Qed.

(** The key [Down] on the first line of [ab] / [c], preferred column 2. *)
Lemma handle_edit_key_keeps_invariant_witness :
  let b := set_preferred_x (set_cursor_x (set_cursor_y sample_buffer 0) 2) 2 in
  buffer_ok b = true
  /\ exists b',
       handle_edit_key b KEY_DOWN 1 1 = Ok b'
       /\ buffer_ok b' = true
       /\ scroll_y b' <= cursor_y b' < scroll_y b' + 1
       /\ scroll_x b' <= cursor_x b' < scroll_x b' + 1.
Proof.
  split; [reflexivity|].
  apply (handle_edit_key_keeps_invariant
           (set_preferred_x (set_cursor_x (set_cursor_y sample_buffer 0) 2) 2)
           KEY_DOWN 1 1); [reflexivity|lia|lia].
Defined.

(** ** Typing and erasing *)

Lemma slice_to_app_len {A} (l k : list A) : slice_to (l ++ k) (len l) = l.
Proof.
  rewrite slice_to_in by (rewrite len_app; pose proof (len_nonneg l);
                          pose proof (len_nonneg k); lia).
  unfold len. rewrite Nat2Z.id. by rewrite take_app_length.
Qed.

Lemma slice_from_app_len {A} (l k : list A) : slice_from (l ++ k) (len l) = k.
Proof.
  rewrite slice_from_in by (rewrite len_app; pose proof (len_nonneg l);
                            pose proof (len_nonneg k); lia).
  unfold len. rewrite Nat2Z.id. by rewrite drop_app_length.
Qed.

Lemma len_text_before (b : Buffer) :
  buffer_ok b = true -> len (text_before b) = cursor_x b.
Proof.
  intros (line & Hy & Hl & Hx)%buffer_ok_spec. unfold text_before.
  rewrite (current_line_lookup b line Hl). by apply len_slice_to.
Qed.

(** What [insert_char] does when there is no selection to delete first. *)
Lemma insert_char_spec (b : Buffer) (ch : str) :
  buffer_ok b = true -> selection_pending b = false ->
  insert_char b ch =
  Ok (mkBuffer
        (<[Z.to_nat (cursor_y b) := text_before b ++ ch ++ text_after b]>
           (lines b))
        (file_path b) (cursor_y b) (cursor_x b + len ch) (cursor_x b + len ch)
        (scroll_y b) (scroll_x b) true (selecting b) (selection_start b)
        (selection_end b)).
Proof.
  intros (line & Hy & Hl & Hx)%buffer_ok_spec Hsel.
  unfold insert_char. rewrite Hsel.
  pose proof (lookup_len _ _ _ Hl) as Hlt.
  rewrite (getitem_ok _ (cursor_y b) line) by done. cbn [mbind result_bind].
  rewrite setitem_ok by lia. cbn [mbind result_bind].
  unfold text_before, text_after. by rewrite (current_line_lookup b line Hl).
Qed.

(** What [backspace] does inside a line. *)
Lemma backspace_char_spec (b : Buffer) :
  buffer_ok b = true -> selection_pending b = false -> 0 < cursor_x b ->
  backspace b =
  Ok (mkBuffer
        (<[Z.to_nat (cursor_y b) :=
             slice_to (current_line b) (cursor_x b - 1) ++ text_after b]>
           (lines b))
        (file_path b) (cursor_y b) (cursor_x b - 1) (cursor_x b - 1)
        (scroll_y b) (scroll_x b) true (selecting b) (selection_start b)
        (selection_end b)).
Proof.
  intros (line & Hy & Hl & Hx)%buffer_ok_spec Hsel Hpos.
  unfold backspace. rewrite Hsel.
  pose proof (lookup_len _ _ _ Hl) as Hlt.
  destruct (Z.ltb_spec 0 (cursor_x b)); [|lia].
  rewrite (getitem_ok _ (cursor_y b) line) by done. cbn [mbind result_bind].
  rewrite setitem_ok by lia. cbn [mbind result_bind].
  unfold text_after. by rewrite (current_line_lookup b line Hl).
Qed.

Lemma insert_char_after_selection (b : Buffer) (ch : str) :
  insert_char b ch
  = insert_char (if selection_pending b then fst (delete_selection b) else b)
      ch.
Proof.
  unfold insert_char at 2. by rewrite before_edit_not_pending.
Qed.

(** The buffer [insert_char] leaves, seen from the next edit. *)
Lemma after_insert (b : Buffer) (ch : str) :
  buffer_ok b = true -> selection_pending b = false ->
  exists b1,
    insert_char b ch = Ok b1 /\ buffer_ok b1 = true
    /\ selection_pending b1 = false
    /\ lines b1 = <[Z.to_nat (cursor_y b) :=
                      text_before b ++ ch ++ text_after b]> (lines b)
    /\ cursor_y b1 = cursor_y b /\ cursor_x b1 = cursor_x b + len ch
    /\ current_line b1 = text_before b ++ ch ++ text_after b
    /\ text_before b1 = text_before b ++ ch
    /\ text_after b1 = text_after b
    /\ file_path b1 = file_path b /\ scroll_y b1 = scroll_y b
    /\ scroll_x b1 = scroll_x b /\ selecting b1 = selecting b
    /\ selection_start b1 = selection_start b
    /\ selection_end b1 = selection_end b.
Proof.
  intros Hok Hsel. rewrite (insert_char_spec b ch Hok Hsel).
  destruct (insert_char_ok b ch Hok) as (b1 & Hb1 & Hok1).
  rewrite (insert_char_spec b ch Hok Hsel) in Hb1. injection Hb1 as <-.
  eexists. split; [reflexivity|]. split; [exact Hok1|].
  pose proof (len_text_before b Hok) as Hlen.
  apply buffer_ok_spec in Hok as (line & Hy & Hl & Hx).
  pose proof (lookup_len _ _ _ Hl) as Hlt.
  assert (current_line
            (mkBuffer
               (<[Z.to_nat (cursor_y b) := text_before b ++ ch ++ text_after b]>
                  (lines b))
               (file_path b) (cursor_y b) (cursor_x b + len ch)
               (cursor_x b + len ch) (scroll_y b) (scroll_x b) true
               (selecting b) (selection_start b) (selection_end b))
          = text_before b ++ ch ++ text_after b) as Hcur.
  { unfold current_line. buffer_fields.
    rewrite list_lookup_insert_eq by (unfold len in Hlt; lia). done. }
  split_and!; try done.
  - unfold text_before at 1. rewrite Hcur. buffer_fields.
    rewrite app_assoc. replace (cursor_x b + len ch)
      with (len (text_before b ++ ch)) by (rewrite len_app; lia).
    apply slice_to_app_len.
  - unfold text_after at 1. rewrite Hcur. buffer_fields.
    rewrite app_assoc. replace (cursor_x b + len ch)
      with (len (text_before b ++ ch)) by (rewrite len_app; lia).
    apply slice_from_app_len.
Qed.

(** X4.  On a buffer with an in-bounds cursor and no selection waiting to
    be deleted, typing a character and pressing backspace gives back the
    original lines and the original cursor position. *)
Theorem insert_backspace_roundtrip (b : Buffer) (c : N) :
  buffer_ok b = true -> selection_pending b = false ->
  exists b1 b2,
    insert_char b [c] = Ok b1 /\ backspace b1 = Ok b2
    /\ lines b2 = lines b
    /\ cursor_y b2 = cursor_y b /\ cursor_x b2 = cursor_x b.
Proof.
  intros Hok Hsel.
  destruct (after_insert b [c] Hok Hsel)
    as (b1 & Hins & Hok1 & Hsel1 & Hls & Hy1 & Hx1 & Hcur & _ & Hafter & _).
  exists b1. eexists. split; [exact Hins|].
  pose proof (len_text_before b Hok) as Hlen.
  pose proof (len_nonneg (text_before b)).
  change (len [c]) with 1 in Hx1.
  split; [apply backspace_char_spec; [done|done|lia]|].
  buffer_fields. rewrite Hy1, Hx1, Hls, Hcur, Hafter.
  replace (cursor_x b + 1 - 1) with (len (text_before b)) by lia.
  rewrite slice_to_app_len, list_insert_insert_eq, text_before_after.
  split_and!; [|done|lia].
  apply list_insert_id. unfold current_line.
  apply buffer_ok_spec in Hok as (line & _ & -> & _). done.
Qed.

(** Typing [x] and erasing it again in the middle of [ab]. *)
Lemma insert_backspace_roundtrip_witness :
  let b := set_cursor_x (set_cursor_y sample_buffer 0) 1 in
  buffer_ok b = true /\ selection_pending b = false
  /\ exists b1 b2,
       insert_char b [120%N] = Ok b1 /\ backspace b1 = Ok b2
       /\ lines b2 = [py "ab"; py "c"]
       /\ cursor_y b2 = 0 /\ cursor_x b2 = 1.
Proof.
  split; [reflexivity|]. split; [reflexivity|].
  apply (insert_backspace_roundtrip
           (set_cursor_x (set_cursor_y sample_buffer 0) 1) 120%N);
    reflexivity.
Defined.

(** X5.  On a buffer with an in-bounds cursor, inserting one text and then
    another leaves exactly the buffer that inserting their concatenation
    leaves, including when the first insertion deletes a selection. *)
Theorem insert_char_concat (b : Buffer) (s1 s2 : str) :
  buffer_ok b = true ->
  (b1 ← insert_char b s1; insert_char b1 s2) = insert_char b (s1 ++ s2).
Proof.
  intros Hb%before_edit_ok.
  rewrite (insert_char_after_selection b s1),
    (insert_char_after_selection b (s1 ++ s2)).
  pose proof (before_edit_not_pending b) as Hsel.
  set (b0 := if selection_pending b then _ else _) in *. clearbody b0.
  destruct (after_insert b0 s1 Hb Hsel)
    as (b1 & -> & Hok1 & Hsel1 & Hls & Hy1 & Hx1 & _ & Hbefore & Hafter
        & Hp & Hsy & Hsx & Hsg & Hss & Hse).
  cbn [mbind result_bind].
  rewrite (insert_char_spec b1 s2 Hok1 Hsel1),
    (insert_char_spec b0 (s1 ++ s2) Hb Hsel).
  rewrite Hls, Hy1, Hx1, Hbefore, Hafter, Hp, Hsy, Hsx, Hsg, Hss, Hse.
  rewrite list_insert_insert_eq, len_app, <- !app_assoc.
  do 2 f_equal; lia.
Qed.

(** Typing [x] then [yz] at the start of line 2 of [ab] / [c]. *)
Lemma insert_char_concat_witness :
  buffer_ok sample_buffer = true
  /\ (b1 ← insert_char sample_buffer (py "x"); insert_char b1 (py "yz"))
     = insert_char sample_buffer (py "xyz").
Proof.
  split; [reflexivity|].
  apply (insert_char_concat sample_buffer (py "x") (py "yz")). reflexivity.
Defined.

(** ** What [load_file] returns *)

Lemma split_breaks_free (brk : N -> bool) (s cur : str) (after_cr : bool) :
  Forall (fun c => brk c = false) cur ->
  Forall (Forall (fun c => brk c = false)) (split_breaks brk cur after_cr s).
Proof.
  revert cur after_cr. induction s as [|c s IH]; intros cur after_cr Hcur.
  - cbn [split_breaks]. destruct cur; [constructor|].
    constructor; [done|constructor].
  - cbn [split_breaks]. destruct (after_cr && (c =? 10)%N); [by apply IH|].
    destruct (brk c) eqn:Hc.
    + constructor; [done|]. by apply IH.
    + apply IH. apply Forall_app. split; [done|]. constructor; [done|constructor].
Qed.

Lemma split_breaks_chars (P : N -> Prop) (brk : N -> bool) (s cur : str)
    (after_cr : bool) :
  Forall P cur -> Forall P s ->
  Forall (Forall P) (split_breaks brk cur after_cr s).
Proof.
  revert cur after_cr. induction s as [|c s IH]; intros cur after_cr Hcur Hs.
  - cbn [split_breaks]. destruct cur; [constructor|].
    constructor; [done|constructor].
  - apply Forall_cons in Hs as [Hc Hs]. cbn [split_breaks].
    destruct (after_cr && (c =? 10)%N); [by apply IH|].
    destruct (brk c).
    + constructor; [done|]. by apply IH.
    + apply IH; [|done]. apply Forall_app. split; [done|].
      constructor; [done|constructor].
Qed.


(** The lines [load_file] makes of a text, and what holds of them. *)
Lemma loaded_lines (P : N -> Prop) (text : str) :
  let ls := or_empty_line
              (if endswith text [LF] then splitlines text ++ [[]]
               else splitlines text) in
  ls <> []
  /\ Forall (Forall (fun c => is_linebreak c = false)) ls
  /\ (Forall P text -> Forall (Forall P) ls).
Proof.
  set (raw := if endswith text [LF] then _ else _).
  assert (Forall (Forall (fun c => is_linebreak c = false)) raw) as Hfree.
  { subst raw. destruct (endswith text [LF]);
      [apply Forall_app; split; [|by repeat constructor]|];
      by apply split_breaks_free. }
  assert (Forall P text -> Forall (Forall P) raw) as Hchars.
  { intros Ht. subst raw. destruct (endswith text [LF]);
      [apply Forall_app; split; [|by repeat constructor]|];
      by apply split_breaks_chars. }
  clearbody raw. cbv zeta. destruct raw as [|l raw]; cbn [or_empty_line].
  - split_and!; [done|by repeat constructor|by repeat constructor].
  - by split_and!.
Qed.

(** X6.  Whatever text a file holds, [load_file] returns at least one
    line, and no line it returns contains a character at which
    [str.splitlines] breaks lines; a path that is no regular file (nothing
    there, or a directory) raises [OSError]. *)
Theorem load_file_lines (fs : FileSystem) (path : Path) :
  match fs !! path with
  | Some (File _) =>
      exists ls,
        load_file fs path = Ok ls /\ ls <> []
        /\ Forall (Forall (fun c => is_linebreak c = false)) ls
  | _ => load_file fs path = Raise OSError
  end.
Proof.
  unfold load_file, read_text. destruct (fs !! path) as [[text|]|]; [|done..].
  cbn [mbind result_bind]. eexists. split; [reflexivity|].
  destruct (loaded_lines (fun _ => True) (universal_newlines false text))
    as (Hne & Hfree & _).
  by split.
Qed.







(** ** More on the indentation cleanup *)

Lemma or_empty_line_length (l : list str) :
  length (or_empty_line l) = Nat.max 1 (length l).
Proof. destruct l; simpl; lia. Qed.

(** X8.  The cleanup never adds or removes a line: in the normal mode and
    in the fallback alike, the list it returns is as long as the buffer
    (one empty line for a buffer without lines).  It raises only what the
    tokenizer raised beyond the three errors [compute_indents] catches. *)
Theorem cleanup_keeps_line_count (generate_tokens : str -> TokenStream)
    (ls : list str) :
  match cleanup_indentation generate_tokens ls with
  | Ok (cleaned, _) => length cleaned = Nat.max 1 (length ls)
  | Raise e =>
      raised (generate_tokens (source_text ls)) = Some e
      /\ e <> TokenError /\ e <> IndentationError /\ e <> SyntaxError
  end.
Proof.
  unfold cleanup_indentation, compute_indents.
  destruct (raised (generate_tokens (source_text ls))) as [e|];
    cbn [mbind result_bind].
  - destruct e; cbn [mbind result_bind];
      rewrite ?or_empty_line_length, ?length_fmap; done.
  - by rewrite or_empty_line_length, length_imap.
Qed.

(** *** Indent levels *)

Lemma indent_step_nonneg (st : IndentState) (tok : TokenInfo) :
  0 <= current_indent st ->
  map_Forall (fun _ v => 0 <= v) (line_indents st) ->
  0 <= current_indent (indent_step st tok)
  /\ map_Forall (fun _ v => 0 <= v) (line_indents (indent_step st tok)).
Proof.
  intros Hcur Hmap. unfold indent_step.
  destruct (tok_type tok); cbn [current_indent line_indents];
    (split; [lia|]);
    repeat case_match; try done;
    apply map_Forall_insert_2; (done || lia).
Qed.

Lemma indent_loop_nonneg (toks : list TokenInfo) (st : IndentState) :
  0 <= current_indent st ->
  map_Forall (fun _ v => 0 <= v) (line_indents st) ->
  map_Forall (fun _ v => 0 <= v) (line_indents (foldl indent_step st toks)).
Proof.
  revert st. induction toks as [|tok toks IH]; intros st Hcur Hmap; [done|].
  cbn [foldl]. destruct (indent_step_nonneg st tok Hcur Hmap).
  by apply IH.
Qed.

Lemma compute_indents_nonneg (generate_tokens : str -> TokenStream)
    (ls : list str) (indents : gmap Z Z) (skip : gset Z) :
  compute_indents generate_tokens ls = Ok (Some (indents, skip)) ->
  map_Forall (fun _ v => 0 <= v) indents.
Proof.
  unfold compute_indents.
  destruct (raised _) as [e|]; [by destruct e|]. intros [= <- _].
  apply indent_loop_nonneg; [done|]. apply map_Forall_empty.
Qed.

(** X9.  When indent computation succeeds, a line outside the skip set
    comes out of the cleanup empty if it holds only white space, and
    otherwise as its content (tabs of the leading white space expanded,
    trailing white space and leading spaces removed) behind an indentation
    of [INDENT_WIDTH] spaces per level, the level being the one computed
    for the line, or 0, and never negative. *)
Theorem cleanup_rewrites_line (generate_tokens : str -> TokenStream)
    (ls : list str) (indents : gmap Z Z) (skip : gset Z) (idx : Z) (raw : str) :
  compute_indents generate_tokens ls = Ok (Some (indents, skip)) ->
  idx ∉ skip -> 1 <= idx -> ls !! Z.to_nat (idx - 1) = Some raw ->
  let stripped := rstrip (expand_leading_tabs raw) in
  let level := default 0 (indents !! idx) in
  exists cleaned message out,
    cleanup_indentation generate_tokens ls = Ok (cleaned, message)
    /\ cleaned !! Z.to_nat (idx - 1) = Some out
    /\ 0 <= level
    /\ (stripped = [] -> out = [])
    /\ (stripped <> [] ->
        out = str_mul [SPACE] (level * INDENT_WIDTH) ++ lstrip [SPACE] stripped
        /\ leading_spaces out = level * INDENT_WIDTH).
Proof.
  intros Hcomp Hskip Hidx Hraw stripped level.
  assert (0 <= level) as Hlevel.
  { subst level. pose proof (compute_indents_nonneg _ _ _ _ Hcomp) as Hpos.
    destruct (indents !! idx) as [v|] eqn:Hv; [|done].
    exact (Hpos idx v Hv). }
  unfold cleanup_indentation. rewrite Hcomp. cbn [mbind result_bind].
  set (cleaned := imap _ ls).
  assert (cleaned !! Z.to_nat (idx - 1)
          = Some (clean_line indents skip idx raw)) as Hc.
  { subst cleaned. rewrite list_lookup_imap, Hraw. cbn.
    by replace (Z.of_nat (Z.to_nat (idx - 1)) + 1) with idx by lia. }
  exists (or_empty_line cleaned), (py "Indentation normalized to 4 spaces."),
    (clean_line indents skip idx raw).
  split; [reflexivity|]. split; [by destruct cleaned|]. split; [done|].
  unfold clean_line. rewrite bool_decide_eq_false_2 by done.
  fold stripped. fold level. split.
  - by intros ->.
  - intros Hne. destruct stripped as [|c s] eqn:Hs; [done|]. split; [done|].
    apply leading_spaces_indented. unfold INDENT_WIDTH. lia.
Qed.

(** The body of [def f():], typed with two spaces, gets four. *)
Lemma cleanup_rewrites_line_witness :
  exists indents skip cleaned message,
    compute_indents recorded_tokens lines_return = Ok (Some (indents, skip))
    /\ (2 ∉ skip)
    /\ cleanup_indentation recorded_tokens lines_return = Ok (cleaned, message)
    /\ cleaned !! 1%nat = Some (py "    return 1").
Proof.
  assert (exists indents skip,
            compute_indents recorded_tokens lines_return
            = Ok (Some (indents, skip))
            /\ (2 ∉ skip) /\ indents !! 2 = Some 1)
    as (indents & skip & Hcomp & Hskip & Hlevel).
  { eexists _, _. split; [reflexivity|]. split; by vm_compute. }
  destruct (cleanup_rewrites_line recorded_tokens lines_return indents skip 2
              (py "  return 1") Hcomp Hskip)
    as (cleaned & message & out & Hclean & Hline & _ & _ & Hout);
    [lia|reflexivity|].
  exists indents, skip, cleaned, message.
  split; [done|]. split; [done|]. split; [done|].
  change (Z.to_nat (2 - 1)) with 1%nat in Hline.
  rewrite Hline. f_equal. destruct Hout as [-> _]; [by vm_compute|].
  rewrite Hlevel. by vm_compute.
Defined.

(** ** The cleanup command *)

Lemma store_then_current (st : EditorState) (buf b' : Buffer) :
  current_buffer st = Ok buf ->
  exists st1,
    store_buffer st b' = Ok st1 /\ current_buffer st1 = Ok b'
    /\ status st1 = status st /\ clipboard st1 = clipboard st
    /\ active st1 = active st /\ last_search st1 = last_search st
    /\ length (buffers st1) = length (buffers st).
Proof.
  intros (k & Hk & Hbuf)%getitem_inv.
  unfold store_buffer, setitem. rewrite Hk. cbn [mbind result_bind].
  eexists. split; [reflexivity|]. unfold current_buffer, getitem.
  cbn [buffers active status clipboard last_search].
  assert (len (<[k:=b']> (buffers st)) = len (buffers st)) as ->
    by (unfold len; by rewrite length_insert).
  rewrite Hk. cbn [mbind result_bind].
  rewrite list_lookup_insert_eq by (by eapply lookup_lt_Some).
  by rewrite length_insert.
Qed.

Lemma cleanup_nonempty (generate_tokens : str -> TokenStream)
    (ls cleaned : list str) (message : str) :
  cleanup_indentation generate_tokens ls = Ok (cleaned, message) ->
  cleaned <> [].
Proof.
  unfold cleanup_indentation.
  destruct (compute_indents generate_tokens ls) as [[[indents skip]|]|];
    cbn [mbind result_bind]; [| |done];
    intros [= <- _]; unfold or_empty_line; by case_match.
Qed.

(** X10.  Whenever the cleanup itself returns, [cleanup_flow] returns too,
    and leaves the active buffer with the cleaned lines, a cursor clamped
    into them, the dirty flag raised exactly when the lines changed, and
    the cleanup's message as status. *)
Theorem cleanup_flow_keeps_invariant (generate_tokens : str -> TokenStream)
    (st : EditorState) (buf : Buffer) (cleaned : list str) (message : str) :
  current_buffer st = Ok buf ->
  cleanup_indentation generate_tokens (lines buf) = Ok (cleaned, message) ->
  exists st' buf',
    cleanup_flow generate_tokens st = Ok st'
    /\ current_buffer st' = Ok buf'
    /\ buffer_ok buf' = true
    /\ lines buf' = cleaned
    /\ dirty buf'
       = (if bool_decide (cleaned = lines buf) then dirty buf else true)
    /\ status st' = message.
Proof.
  intros Hcur Hclean. unfold cleanup_flow. rewrite Hcur.
  cbn [mbind result_bind]. rewrite Hclean. cbn [mbind result_bind].
  pose proof (cleanup_nonempty _ _ _ _ Hclean) as Hne.
  set (buf1 := if bool_decide (cleaned = lines buf) then buf else _).
  assert (lines buf1 = cleaned) as Hls.
  { subst buf1. by case_bool_decide. }
  assert (dirty buf1
          = (if bool_decide (cleaned = lines buf) then dirty buf else true))
    as Hd.
  { subst buf1. by case_bool_decide. }
  clearbody buf1.
  unfold keep_cursor_in_bounds at 1.
  destruct (keep_cursor_in_bounds_clamps buf1) as (buf2 & Hk & Hok & Hl2 & _);
    [by rewrite Hls|].
  assert (dirty buf2 = dirty buf1) as Hd2.
  { unfold keep_cursor_in_bounds in Hk.
    destruct (getitem _ _); [|done]. by injection Hk as <-. }
  fold (keep_cursor_in_bounds buf1). rewrite Hk. cbn [mbind result_bind].
  destruct (store_then_current st buf buf2 Hcur) as (st1 & -> & Hcur1 & _).
  cbn [mbind result_bind].
  eexists _, buf2. split; [reflexivity|].
  split_and!; try done; congruence.
Qed.

(** Cleaning [def f():] over [  return 1] with the cursor at the end of
    the second line. *)
Lemma cleanup_flow_keeps_invariant_witness :
  let buf := mkBuffer lines_return None 1 10 10 0 0 false false None None in
  let st := mkEditorState [buf] 0 [] [] (py "Ready") true in
  exists st' buf',
    cleanup_flow recorded_tokens st = Ok st'
    /\ current_buffer st' = Ok buf'
    /\ buffer_ok buf' = true
    /\ lines buf' = [py "def f():"; py "    return 1"]
    /\ dirty buf' = true
    /\ status st' = py "Indentation normalized to 4 spaces.".
Proof.
  apply (cleanup_flow_keeps_invariant recorded_tokens
           (mkEditorState
              [mkBuffer lines_return None 1 10 10 0 0 false false None None]
              0 [] [] (py "Ready") true)
           (mkBuffer lines_return None 1 10 10 0 0 false false None None)
           [py "def f():"; py "    return 1"]
           (py "Indentation normalized to 4 spaces."));
    by vm_compute.
Defined.

(** ** Where [find_next] puts the cursor *)

Lemma find_at_spec (sub s : str) (i p : Z) :
  find_at sub s i = p -> 0 <= i -> p <> -1 ->
  i <= p <= i + len s
  /\ startswith (drop (Z.to_nat (p - i)) s) sub = true.
Proof.
  revert i. induction s as [|c s IH]; intros i Hfind Hi Hp.
  - cbn [find_at] in Hfind. destruct (startswith [] sub) eqn:Hs; [|lia].
    subst p. rewrite Z.sub_diag. unfold len. simpl. split; [lia|done].
  - cbn [find_at] in Hfind. destruct (startswith (c :: s) sub) eqn:Hs.
    + subst p. rewrite Z.sub_diag. pose proof (len_nonneg (c :: s)).
      split; [lia|done].
    + destruct (IH (i + 1) Hfind) as [Hrange Hstart]; [lia|done|].
      rewrite len_cons. split; [lia|].
      replace (Z.to_nat (p - i)) with (S (Z.to_nat (p - (i + 1)))) by lia.
      exact Hstart.
Qed.

Lemma find_spec (s sub : str) (col p : Z) :
  find s sub col = p -> 0 <= col -> p <> -1 ->
  0 <= p <= len s /\ startswith (slice_from s p) sub = true.
Proof.
  unfold find. intros Hfind Hcol Hp.
  destruct (Z.ltb_spec col 0); [lia|].
  destruct (Z.ltb_spec (len s) col); [lia|].
  apply find_at_spec in Hfind as [Hrange Hstart]; [|done|done].
  assert (len (drop (Z.to_nat col) s) = len s - col) as Hlen.
  { unfold len in *. rewrite length_drop. lia. }
  rewrite Hlen in Hrange. split; [lia|].
  rewrite slice_from_in by lia. rewrite drop_drop in Hstart.
  by replace (Z.to_nat col + Z.to_nat (p - col))%nat with (Z.to_nat p)
    in Hstart by lia.
Qed.

Lemma scan_lines_hit (ls : list str) (query : str) (col : Z -> Z)
    (idxs : list Z) (line_idx pos : Z) :
  scan_lines ls query col idxs = Ok (Some (line_idx, pos)) ->
  Forall (fun i => 0 <= i /\ 0 <= col i) idxs ->
  exists line,
    0 <= line_idx /\ ls !! Z.to_nat line_idx = Some line
    /\ 0 <= pos <= len line
    /\ startswith (slice_from line pos) query = true.
Proof.
  intros Hscan Hidxs. induction Hidxs as [|i idxs [Hi Hcol] _ IH]; [done|].
  cbn [scan_lines] in Hscan.
  destruct (getitem ls i) as [line|] eqn:Hget; [|done].
  cbn [mbind result_bind] in Hscan.
  destruct (Z.eqb_spec (find line query (col i)) (-1)) as [|Hfound];
    [by apply IH|].
  injection Hscan as <- <-.
  apply getitem_inv in Hget as (k & Hk & Hline).
  unfold item_index in Hk. destruct (Z.ltb_spec i 0); [lia|].
  destruct ((0 <=? i) && (i <? len ls)); [|done]. injection Hk as <-.
  destruct (find_spec line query (col i) _ eq_refl Hcol Hfound).
  by exists line.
Qed.

(** X11.  On a state whose active buffer has an in-bounds cursor,
    [find_next] returns a state whose active buffer again has an in-bounds
    cursor; and either that buffer is the one it started from, or the
    search term stands in the buffer at the new cursor position, which is
    also the new preferred column. *)
Theorem find_next_lands_on_match (st : EditorState) (buf : Buffer) :
  current_buffer st = Ok buf -> buffer_ok buf = true ->
  exists st' buf',
    find_next st = Ok st' /\ current_buffer st' = Ok buf'
    /\ buffer_ok buf' = true
    /\ (buf' = buf
        \/ (startswith (text_after buf') (last_search st) = true
            /\ preferred_x buf' = cursor_x buf')).
Proof.
  intros Hcur Hok. unfold find_next. rewrite Hcur. cbn [mbind result_bind].
  case_bool_decide as Hq.
  { exists (set_status st (py "Find: no search term.")), buf.
    split_and!; try done. by left. }
  pose proof Hok as (line & Hy & Hl & Hx)%buffer_ok_spec.
  pose proof (lookup_len _ _ _ Hl) as Hlt.
  assert (forall line_idx pos cur_line st1 msg,
            0 <= line_idx -> lines buf !! Z.to_nat line_idx = Some cur_line ->
            0 <= pos <= len cur_line ->
            startswith (slice_from cur_line pos) (last_search st) = true ->
            store_buffer st (move_to_match buf line_idx pos) = Ok st1 ->
            current_buffer st1 = Ok (move_to_match buf line_idx pos) ->
            exists st' buf',
              Ok (set_status st1 msg) = Ok st'
              /\ current_buffer st' = Ok buf' /\ buffer_ok buf' = true
              /\ (buf' = buf
                  \/ (startswith (text_after buf') (last_search st) = true
                      /\ preferred_x buf' = cursor_x buf'))) as Hmove.
  { intros line_idx pos cur_line st1 msg Hidx Hline Hpos Hstart _ Hcur1.
    exists (set_status st1 msg), (move_to_match buf line_idx pos).
    split_and!; [done|done| |].
    - by apply buffer_ok_intro with cur_line.
    - right. split; [|done]. unfold text_after, current_line.
      buffer_fields. unfold move_to_match. buffer_fields. by rewrite Hline. }
  set (col1 := fun line_idx => if line_idx =? cursor_y buf
                               then cursor_x buf + 1 else 0).
  destruct (scan_lines_total (lines buf) (last_search st) col1
              (py_range (cursor_y buf) (len (lines buf)))) as [hit Hscan].
  { eapply Forall_impl; [apply py_range_bounds|]. simpl. lia. }
  rewrite Hscan. cbn [mbind result_bind]. destruct hit as [[i pos]|].
  { destruct (scan_lines_hit _ _ _ _ _ _ Hscan)
      as (cur_line & Hi & Hline & Hpos & Hstart).
    { eapply Forall_impl; [apply py_range_bounds|]. intros j Hj.
      subst col1. cbv beta in *. destruct (j =? cursor_y buf); lia. }
    destruct (store_then_current st buf (move_to_match buf i pos) Hcur)
      as (st1 & Hst & Hcur1 & _).
    rewrite Hst. cbn [mbind result_bind]. by eapply Hmove. }
  destruct (scan_lines_total (lines buf) (last_search st) (fun _ => 0)
              (py_range 0 (cursor_y buf + 1))) as [hit Hscan2].
  { eapply Forall_impl; [apply py_range_bounds|]. simpl. lia. }
  rewrite Hscan2. cbn [mbind result_bind]. destruct hit as [[i pos]|].
  { destruct (scan_lines_hit _ _ _ _ _ _ Hscan2)
      as (cur_line & Hi & Hline & Hpos & Hstart).
    { eapply Forall_impl; [apply py_range_bounds|]. simpl. lia. }
    destruct (store_then_current st buf (move_to_match buf i pos) Hcur)
      as (st1 & Hst & Hcur1 & _).
    rewrite Hst. cbn [mbind result_bind]. by eapply Hmove. }
  eexists _, buf. split_and!; try done. by left.
Qed.

(** Searching [foo] from the start of [foo bar] / [baz foo]. *)
Lemma find_next_lands_on_match_witness :
  exists st' buf',
    find_next search_state = Ok st' /\ current_buffer st' = Ok buf'
    /\ buffer_ok buf' = true
    /\ cursor_y buf' = 1 /\ cursor_x buf' = 4
    /\ startswith (text_after buf') (py "foo") = true.
Proof.
  destruct (find_next_lands_on_match search_state
              (mkBuffer [py "foo bar"; py "baz foo"] None 0 0 0 0 0 true true
                 (Some 0) (Some 0)) eq_refl eq_refl)
    as (st' & buf' & Hfind & Hcur & Hok & _).
  exists st', buf'. split; [exact Hfind|]. split; [exact Hcur|].
  split; [exact Hok|].
  assert (find_next search_state
          = Ok (mkEditorState
                  [mkBuffer [py "foo bar"; py "baz foo"] None 1 4 4 0 0 true
                     true (Some 0) (Some 0)]
                  0 [] (py "foo") (py "Found 'foo' at line 2.") true)) as Hrun
    by (by vm_compute).
  rewrite Hrun in Hfind. injection Hfind as <-.
  vm_compute in Hcur. injection Hcur as <-. by vm_compute.
Defined.

(** ** More on the viewport *)

(** X12.  [ensure_cursor_visible] leaves the buffer as it is when the
    cursor already lies inside the window and the offsets are not
    negative, and with a body of height and width at least 1 a second
    adjustment changes nothing the first one left. *)
Theorem ensure_cursor_visible_stable (b : Buffer) (body_h editor_w : Z) :
  (0 <= scroll_y b <= cursor_y b -> cursor_y b < scroll_y b + body_h ->
   0 <= scroll_x b <= cursor_x b -> cursor_x b < scroll_x b + editor_w ->
   ensure_cursor_visible b body_h editor_w = b)
  /\ (1 <= body_h -> 1 <= editor_w ->
      ensure_cursor_visible (ensure_cursor_visible b body_h editor_w)
        body_h editor_w
      = ensure_cursor_visible b body_h editor_w).
Proof.
  destruct b as [ls fp cy cx px sy sx d sg ss se]. split.
  - buffer_fields. intros Hy1 Hy2 Hx1 Hx2.
    viewport_cases; unfold set_scroll_x, set_scroll_y; buffer_fields;
      f_equal; lia.
  - intros Hh Hw.
    unfold ensure_cursor_visible at 2.
    unfold set_scroll_x, set_scroll_y. buffer_fields.
    repeat match goal with
           | |- context [Z.ltb ?a ?b] => destruct (Z.ltb_spec a b); buffer_fields
           | |- context [Z.leb ?a ?b] => destruct (Z.leb_spec a b); buffer_fields
           end;
      unfold ensure_cursor_visible, set_scroll_x, set_scroll_y; buffer_fields;
      repeat match goal with
             | |- context [Z.ltb ?a ?b] => destruct (Z.ltb_spec a b); buffer_fields
             | |- context [Z.leb ?a ?b] => destruct (Z.leb_spec a b); buffer_fields
             end;
      f_equal; lia.
Qed.

(** ** Truncating a label *)

(** X13.  [truncate_text] returns the value itself when it fits in the
    width, the first [width] characters of the value when the width is at
    most 3 (nothing for a width of 0 or less), and otherwise the first
    [width - 3] characters followed by three dots.  Its length is always
    [min(len(value), max(0, width))], so it is never wider than the
    room. *)
Theorem truncate_text_fits (value : str) (width : Z) :
  len (truncate_text value width) = Z.min (len value) (Z.max 0 width)
  /\ (len value <= width -> truncate_text value width = value)
  /\ (width < len value -> width <= 3 ->
      truncate_text value width = take (Z.to_nat width) value)
  /\ (3 < width < len value ->
      truncate_text value width
      = take (Z.to_nat (width - 3)) value ++ py "..."
      /\ endswith (truncate_text value width) (py "...") = true).
Proof.
  pose proof (len_nonneg value) as Hv. unfold truncate_text.
  destruct (Z.leb_spec width 0) as [Hw|Hw].
  { split_and!; [change (len (@nil N)) with 0; lia| | |lia].
    - intros Hfit. destruct value; [done|]. rewrite len_cons in Hfit.
      pose proof (len_nonneg value). lia.
    - intros _ _. by replace (Z.to_nat width) with 0%nat by lia. }
  destruct (Z.leb_spec (len value) width) as [Hfit|Hcut].
  { split_and!; [lia|done|lia|lia]. }
  destruct (Z.leb_spec width 3) as [Hsmall|Hbig].
  - split_and!; [rewrite len_slice_to by lia; lia|lia| |lia].
    intros _ _. apply slice_to_in. lia.
  - split_and!; [|lia|lia|].
    + rewrite len_app, len_slice_to by lia. change (len (py "...")) with 3. lia.
    + intros _. split; [by rewrite slice_to_in by lia|].
      unfold endswith. rewrite reverse_app.
      replace (reverse (py "...")) with [46; 46; 46]%N by (by vm_compute).
      cbn [app startswith]. rewrite !N.eqb_refl. cbn [andb].
      by destruct (reverse _).
Qed.

(** ** Tabs *)

(** X14.  [switch_tab] does nothing to a state without buffers; otherwise
    it keeps the buffers and moves the active index by [delta] modulo the
    number of buffers, which is a valid index: from a valid index, one step
    forward goes to the next tab and from the last tab to the first, one
    step back goes to the previous tab and from the first tab to the last,
    and switching back by the opposite amount returns to the tab one
    started from.  [new_tab_flow] keeps the existing buffers, appends a
    fresh one and makes it active. *)
Theorem tab_index_stays_valid (st : EditorState) (delta : Z) :
  (buffers st = [] -> switch_tab st delta = st)
  /\ (buffers st <> [] ->
      buffers (switch_tab st delta) = buffers st
      /\ active (switch_tab st delta)
         = (active st + delta) mod len (buffers st)
      /\ 0 <= active (switch_tab st delta) < len (buffers st)
      /\ (0 <= active st < len (buffers st) ->
          active (switch_tab (switch_tab st delta) (- delta)) = active st
          /\ active (switch_tab st 1)
             = (if active st =? len (buffers st) - 1 then 0
                else active st + 1)
          /\ active (switch_tab st (-1))
             = (if active st =? 0 then len (buffers st) - 1
                else active st - 1)))
  /\ (buffers (new_tab_flow st) = buffers st ++ [new_buffer]
      /\ active (new_tab_flow st) = len (buffers st)
      /\ current_buffer (new_tab_flow st) = Ok new_buffer).
Proof.
  split_and!.
  - unfold switch_tab. by intros ->.
  - intros Hne. pose proof (len_pos _ Hne) as Hlen.
    assert (forall s d, buffers s <> [] ->
              buffers (switch_tab s d) = buffers s
              /\ active (switch_tab s d) = (active s + d) mod len (buffers s))
      as Hsw.
    { intros [bs a cb ls sts sh] d Hs. unfold switch_tab. cbn in *.
      destruct bs; [done|]. by split. }
    destruct (Hsw st delta Hne) as [Hbs Hact].
    split; [done|]. split; [done|].
    split; [rewrite Hact; apply Z.mod_pos_bound; lia|].
    intros Hin. split_and!.
    + destruct (Hsw (switch_tab st delta) (- delta)) as [_ ->];
        [by rewrite Hbs|].
      rewrite Hbs, Hact, Zplus_mod_idemp_l.
      replace (active st + delta + - delta) with (active st) by lia.
      apply Z.mod_small. lia.
    + destruct (Hsw st 1 Hne) as [_ ->].
      destruct (Z.eqb_spec (active st) (len (buffers st) - 1)) as [->|Hlast].
      * replace (len (buffers st) - 1 + 1) with (len (buffers st)) by lia.
        apply Z_mod_same_full.
      * apply Z.mod_small. lia.
    + destruct (Hsw st (-1) Hne) as [_ ->].
      destruct (Z.eqb_spec (active st) 0) as [->|Hfirst].
      * symmetry. apply (Z.mod_unique_pos _ _ (-1)); lia.
      * apply Z.mod_small. lia.
  - done.
  - unfold new_tab_flow. cbn [active set_status set_active buffers].
    rewrite len_app. change (len [new_buffer]) with 1. lia.
  - unfold new_tab_flow, current_buffer.
    cbn [active set_status set_active buffers].
    pose proof (len_nonneg (buffers st)).
    apply getitem_ok.
    + rewrite len_app. change (len [new_buffer]) with 1. lia.
    + rewrite len_app. change (len [new_buffer]) with 1.
      replace (Z.to_nat (len (buffers st) + 1 - 1)) with (length (buffers st))
        by (unfold len; lia).
      by apply list_lookup_middle.
Qed.

(** ** Cutting the selection *)

Lemma slice_in {A} (l : list A) (a b : Z) :
  0 <= a <= b -> b <= len l ->
  slice l a b = take (Z.to_nat (b - a)) (drop (Z.to_nat a) l).
Proof.
  intros Hab Hb. unfold slice. rewrite !slice_bound_in by lia.
  f_equal. lia.
Qed.

Lemma take_slice_drop {A} (l : list A) (a b : Z) :
  0 <= a <= b -> b <= len l ->
  take (Z.to_nat a) l ++ slice l a b ++ drop (Z.to_nat b) l = l.
Proof.
  intros Hab Hb. rewrite slice_in by done.
  replace (drop (Z.to_nat b) l)
    with (drop (Z.to_nat (b - a)) (drop (Z.to_nat a) l)).
  2:{ rewrite drop_drop. f_equal. lia. }
  by rewrite take_drop, take_drop.
Qed.

Lemma delete_selection_in_range (b : Buffer) (s e : Z) :
  selection_range b = Some (s, e) -> 0 <= s -> e < len (lines b) ->
  lines (fst (delete_selection b))
  = or_empty_line (take (Z.to_nat s) (lines b)
                   ++ drop (Z.to_nat (e + 1)) (lines b))
  /\ buffer_ok (fst (delete_selection b)) = true.
Proof.
  intros Hrange Hs He.
  pose proof (selection_range_ordered b s e Hrange) as Hse.
  unfold delete_selection. rewrite Hrange. cbv zeta.
  replace (Z.max 0 (Z.min s (len (lines b) - 1))) with s by lia.
  replace (Z.max 0 (Z.min e (len (lines b) - 1))) with e by lia.
  destruct (Z.ltb_spec e s); [lia|]. rewrite del_slice_in by lia.
  set (rest := take _ _ ++ drop _ _).
  change (match rest with [] => [[]] | _ :: _ => rest end)
    with (or_empty_line rest).
  buffer_fields. split; [done|].
  assert (1 <= len (or_empty_line rest)) as Hls.
  { unfold len. rewrite or_empty_line_length. lia. }
  set (y := Z.min s (len (or_empty_line rest) - 1)).
  assert (0 <= y < len (or_empty_line rest)) as Hy by (subst y; lia).
  destruct (lookup_lt_is_Some_2 (or_empty_line rest) (Z.to_nat y))
    as [line Hline].
  { unfold len in Hy. lia. }
  apply buffer_ok_intro with line; cbn [fst]; buffer_fields; [lia|done|].
  pose proof (len_nonneg line). lia.
Qed.

(** X15.  When the selected range lies inside the buffer, [cut_selection]
    puts exactly the selected lines on the clipboard and removes exactly
    them from the buffer, so that the lines before the range, the
    clipboard and the lines after the range make up the original buffer;
    the buffer is left with an in-bounds cursor.  [copy_selection] puts
    the same lines on the clipboard and changes no buffer. *)
Theorem cut_moves_lines_to_clipboard (st : EditorState) (buf : Buffer)
    (s e : Z) :
  current_buffer st = Ok buf -> selection_range buf = Some (s, e) ->
  0 <= s -> e < len (lines buf) ->
  exists st' buf' st'',
    cut_selection st = Ok st' /\ current_buffer st' = Ok buf'
    /\ take (Z.to_nat s) (lines buf) ++ clipboard st'
       ++ drop (Z.to_nat (e + 1)) (lines buf) = lines buf
    /\ lines buf' = or_empty_line (take (Z.to_nat s) (lines buf)
                                   ++ drop (Z.to_nat (e + 1)) (lines buf))
    /\ buffer_ok buf' = true
    /\ copy_selection st = Ok st''
    /\ clipboard st'' = clipboard st' /\ buffers st'' = buffers st.
Proof.
  intros Hcur Hrange Hs He.
  pose proof (selection_range_ordered buf s e Hrange) as Hse.
  destruct (delete_selection_in_range buf s e Hrange Hs He) as [Hls Hok].
  unfold cut_selection, copy_selection. rewrite Hcur.
  cbn [mbind result_bind]. rewrite Hrange.
  set (st0 := set_clipboard st (slice (lines buf) s (e + 1))).
  destruct (store_then_current st0 buf (fst (delete_selection buf)))
    as (st1 & -> & Hcur1 & _ & Hclip & _); [exact Hcur|].
  cbn [mbind result_bind]. eexists _, _, _.
  split; [reflexivity|]. split; [exact Hcur1|].
  cbn [clipboard set_status]. rewrite Hclip.
  split_and!; try done.
  apply take_slice_drop; lia.
Qed.

(** Cutting the first two of three lines. *)
Lemma cut_moves_lines_to_clipboard_witness :
  let buf := mkBuffer [py "a"; py "b"; py "c"] None 1 0 0 0 0 false false
               (Some 1) (Some 0) in
  let st := mkEditorState [buf] 0 [] [] (py "Ready") true in
  exists st' buf',
    cut_selection st = Ok st' /\ current_buffer st' = Ok buf'
    /\ clipboard st' = [py "a"; py "b"]
    /\ lines buf' = [py "c"]
    /\ buffer_ok buf' = true.
Proof.
  cbv zeta.
  destruct (cut_moves_lines_to_clipboard
              (mkEditorState
                 [mkBuffer [py "a"; py "b"; py "c"] None 1 0 0 0 0 false false
                    (Some 1) (Some 0)] 0 [] [] (py "Ready") true)
              (mkBuffer [py "a"; py "b"; py "c"] None 1 0 0 0 0 false false
                 (Some 1) (Some 0)) 0 1 eq_refl eq_refl)
    as (st' & buf' & _ & Hcut & Hcur & _ & Hls & Hok & _); [lia|by vm_compute|].
  exists st', buf'. split; [exact Hcut|]. split; [exact Hcur|].
  split; [|split; [exact Hls|exact Hok]].
  vm_compute in Hcut. by injection Hcut as <-.
Defined.

(** ** Drawing a highlighted line *)

Lemma slice_bound_nonneg (n i : Z) :
  0 <= i -> 0 <= n -> slice_bound n i = Z.to_nat (Z.min i n).
Proof. intros Hi Hn. unfold slice_bound. by destruct (Z.ltb_spec i 0); [lia|]. Qed.

Lemma slice_app {A} (l : list A) (a b c : Z) :
  0 <= a <= b -> b <= c -> slice l a b ++ slice l b c = slice l a c.
Proof.
  intros Hab Hbc. pose proof (len_nonneg l) as Hl. unfold slice.
  rewrite !slice_bound_nonneg by lia.
  set (a' := Z.to_nat (Z.min a (len l))).
  set (b' := Z.to_nat (Z.min b (len l))).
  set (c' := Z.to_nat (Z.min c (len l))).
  assert (a' <= b' <= c')%nat as Hord by (subst a' b' c'; lia).
  replace (drop b' l) with (drop (b' - a') (drop a' l))
    by (rewrite drop_drop; f_equal; lia).
  rewrite take_take_drop. f_equal. lia.
Qed.

Lemma slice_same {A} (l : list A) (a : Z) : slice l a a = [].
Proof. unfold slice. by rewrite Nat.sub_diag. Qed.

Lemma len_slice_le {A} (l : list A) (a b : Z) :
  0 <= a <= b -> len (slice l a b) <= b - a.
Proof.
  intros Hab. pose proof (len_nonneg l) as Hl. unfold slice.
  rewrite !slice_bound_nonneg by lia. unfold len in *.
  rewrite length_take, length_drop. lia.
Qed.

Lemma len_slice {A} (l : list A) (a b : Z) :
  0 <= a <= b -> b <= len l -> len (slice l a b) = b - a.
Proof.
  intros Hab Hb. unfold slice.
  rewrite !slice_bound_nonneg by lia. unfold len in *.
  rewrite length_take, length_drop. lia.
Qed.

Lemma drawn_text_cons (c : DrawCall) (cs : list DrawCall) :
  drawn_text (c :: cs) = draw_text c ++ drawn_text cs.
Proof. reflexivity. Qed.

Lemma drawn_text_app (c1 c2 : list DrawCall) :
  drawn_text (c1 ++ c2) = drawn_text c1 ++ drawn_text c2.
Proof. unfold drawn_text. by rewrite fmap_app, concat_app. Qed.

Lemma laid_out_app (y x n : Z) (c1 c2 : list DrawCall) :
  laid_out y x n c1 ->
  laid_out y (x + len (drawn_text c1)) (n - len (drawn_text c1)) c2 ->
  laid_out y x n (c1 ++ c2).
Proof.
  revert x n. induction c1 as [|c c1 IH]; intros x n H1 H2.
  - change (len (drawn_text [])) with 0 in H2.
    by rewrite Z.add_0_r, Z.sub_0_r in H2.
  - destruct H1 as (Hy & Hx & Hn & Hfit & Hrest).
    cbn [app laid_out]. split_and!; try done. apply IH; [done|].
    change (drawn_text (c :: c1)) with (draw_text c ++ drawn_text c1) in H2.
    rewrite len_app in H2.
    replace (x + len (draw_text c) + len (drawn_text c1))
      with (x + (len (draw_text c) + len (drawn_text c1))) by lia.
    replace (n - len (draw_text c) - len (drawn_text c1))
      with (n - (len (draw_text c) + len (drawn_text c1))) by lia.
    exact H2.
Qed.

(** The loop, from a position that is the end of the spans seen so far
    brought into the window. *)
Lemma draw_spans_spec (y x : Z) (line : str) (vs width : Z)
    (ss : list TokenSpan) (from pos : Z) (calls : list DrawCall) (pos' : Z) :
  0 <= vs -> 0 <= width -> 0 <= from ->
  spans_chain from ss = true ->
  Forall (fun s => end_ s <= len line) ss ->
  pos = Z.max vs (Z.min from (vs + width)) ->
  draw_spans y x line vs width pos ss = (calls, pos') ->
  pos <= pos' <= vs + width
  /\ drawn_text calls = slice line pos pos'
  /\ len (drawn_text calls) = pos' - pos
  /\ laid_out y (x + (pos - vs)) (width - (pos - vs)) calls.
Proof.
  intros Hvs Hw. revert from pos calls pos'.
  induction ss as [|span rest IH];
    intros from pos calls pos' Hfrom Hchain Hends Hpos Hdraw.
  { cbn [draw_spans] in Hdraw. injection Hdraw as <- <-.
    rewrite slice_same. change (drawn_text []) with (@nil N).
    change (len (@nil N)) with 0. split_and!; [lia|lia|done|lia|done]. }
  cbn [spans_chain] in Hchain.
  apply andb_prop in Hchain as [[H1%Z.leb_le H2%Z.ltb_lt]%andb_prop Hrest].
  apply Forall_cons in Hends as [Hend Hends].
  cbn [draw_spans] in Hdraw.
  destruct (Z.leb_spec (end_ span) vs) as [Hleft|Hin].
  { apply (IH (end_ span)); [lia|done|done|lia|done]. }
  destruct (Z.leb_spec (vs + width) (start span)) as [Hright|Hvis].
  { injection Hdraw as <- <-.
    rewrite slice_same. change (drawn_text []) with (@nil N).
    change (len (@nil N)) with 0. split_and!; [lia|lia|done|lia|done]. }
  set (seg_start := Z.max (start span) vs) in *.
  set (seg_end := Z.min (end_ span) (vs + width)) in *.
  destruct (draw_spans y x line vs width (Z.max pos seg_end) rest)
    as [calls1 pos1] eqn:Hrec.
  injection Hdraw as <- <-.
  destruct (IH (end_ span) (Z.max pos seg_end) calls1 pos1)
    as (Hrange & Htext & Hlen & Hlaid);
    [lia|done|done|subst seg_end; lia|done|].
  destruct (Z.ltb_spec pos (start span)) as [Hgap|Hnogap].
  - assert (seg_start = start span) as Hss by (subst seg_start; lia).
    destruct (Z.ltb_spec seg_start seg_end) as [_|Hempty];
      [|subst seg_end; lia].
    replace (Z.min (start span) (vs + width)) with seg_start by lia.
    replace (Z.max pos seg_end) with seg_end in * by (subst seg_end; lia).
    assert (seg_end <= len line) as Hse by (subst seg_end; lia).
    cbn [app]. rewrite !drawn_text_cons. cbn [draw_text].
    rewrite !len_app, Hlen, Htext.
    rewrite (len_slice line pos seg_start) by lia.
    rewrite (len_slice line seg_start seg_end) by lia.
    split_and!; [lia|lia| |lia|].
    + rewrite (slice_app line seg_start seg_end pos1) by lia.
      by rewrite (slice_app line pos seg_start pos1) by lia.
    + cbn [laid_out draw_y draw_x draw_n draw_text].
      rewrite (len_slice line pos seg_start) by lia.
      rewrite (len_slice line seg_start seg_end) by lia.
      split_and!; try done; try lia.
      replace (x + (pos - vs) + (seg_start - pos) + (seg_end - seg_start))
        with (x + (seg_end - vs)) by lia.
      replace (width - (pos - vs) - (seg_start - pos) - (seg_end - seg_start))
        with (width - (seg_end - vs)) by lia.
      exact Hlaid.
  - assert (seg_start = pos) as Hss by (subst seg_start; lia).
    rewrite Hss in *. cbn [app].
    destruct (Z.ltb_spec pos seg_end) as [Hseg|Hempty].
    + replace (Z.max pos seg_end) with seg_end in * by lia.
      assert (seg_end <= len line) as Hse by (subst seg_end; lia).
      cbn [app]. rewrite !drawn_text_cons. cbn [draw_text].
      rewrite !len_app, Hlen, Htext.
      rewrite (len_slice line pos seg_end) by lia.
      split_and!; [lia|lia| |lia|].
      * by rewrite (slice_app line pos seg_end pos1) by lia.
      * cbn [laid_out draw_y draw_x draw_n draw_text].
        rewrite (len_slice line pos seg_end) by lia.
        split_and!; try done; try lia.
        replace (x + (pos - vs) + (seg_end - pos)) with (x + (seg_end - vs))
          by lia.
        replace (width - (pos - vs) - (seg_end - pos))
          with (width - (seg_end - vs)) by lia.
        exact Hlaid.
    + replace (Z.max pos seg_end) with pos in * by lia. cbn [app].
      split_and!; first [done|lia].
Qed.

(** X16.  For spans that form a chain inside the line (as
    [build_syntax_spans] makes them), a window starting at a column that
    is not negative and a width that is not negative,
    [draw_highlighted_line] draws exactly the visible slice
    [line[visible_start : visible_start + width]], piece by piece from
    left to right: every call starts in the column where the text before
    it ended, and its text fits in the room it is given. *)
Theorem draw_highlighted_line_tiles (y x : Z) (line : str)
    (ss : list TokenSpan) (visible_start width : Z) :
  spans_chain 0 ss = true ->
  Forall (fun s => end_ s <= len line) ss ->
  0 <= visible_start -> 0 <= width ->
  drawn_text (draw_highlighted_line y x line ss visible_start width)
  = slice line visible_start (visible_start + width)
  /\ laid_out y x width
       (draw_highlighted_line y x line ss visible_start width).
Proof.
  intros Hchain Hends Hvs Hw. unfold draw_highlighted_line.
  destruct (draw_spans y x line visible_start width visible_start ss)
    as [calls pos] eqn:Hdraw.
  destruct (draw_spans_spec y x line visible_start width ss 0 visible_start
              calls pos Hvs Hw ltac:(lia) Hchain Hends ltac:(lia) Hdraw)
    as (Hrange & Htext & Hlen & Hlaid).
  rewrite Z.sub_diag, Z.add_0_r, Z.sub_0_r in Hlaid.
  destruct (Z.ltb_spec pos (visible_start + width)) as [Htail|Hfull].
  - split.
    + rewrite drawn_text_app, Htext, drawn_text_cons. cbn [draw_text].
      change (drawn_text []) with (@nil N). rewrite app_nil_r.
      apply slice_app; lia.
    + apply laid_out_app; [done|]. rewrite Hlen.
      cbn [laid_out draw_y draw_x draw_n draw_text].
      pose proof (len_slice_le line pos (visible_start + width)).
      split_and!; try done; lia.
  - rewrite app_nil_r. split; [|done].
    rewrite Htext. f_equal. lia.
Qed.

(** The window of 6 columns from column 3 over [x = 1  # note]: a blank,
    the number, two blanks, and the start of the comment. *)
Lemma draw_highlighted_line_tiles_witness :
  let line := py "x = 1  # note" in
  let ss := [mkSpan 4 5 number; mkSpan 7 13 comment] in
  draw_highlighted_line 0 6 line ss 3 6
  = [mkDraw 0 6 (py " ") 6 base_attr;
     mkDraw 0 7 (py "1") 5 (style_attr number);
     mkDraw 0 8 (py "  ") 4 base_attr;
     mkDraw 0 10 (py "# ") 2 (style_attr comment)]
  /\ drawn_text (draw_highlighted_line 0 6 line ss 3 6) = py " 1  # "
  /\ laid_out 0 6 6 (draw_highlighted_line 0 6 line ss 3 6).
Proof.
  cbv zeta. split; [by vm_compute|].
  destruct (draw_highlighted_line_tiles 0 6 (py "x = 1  # note")
              [mkSpan 4 5 number; mkSpan 7 13 comment] 3 6)
    as [Htext Hlaid]; [by vm_compute| |lia|lia|].
  { repeat constructor; by vm_compute. }
  split; [|exact Hlaid]. rewrite Htext. by vm_compute.
Defined.

(** ** Lines of a multi-line string *)

Lemma skip_lines_step (st : IndentState) (tok : TokenInfo) :
  exists base : gset Z,
    skip_lines st ⊆ base
    /\ (tok_type tok = STRING ->
        (tok_start tok).1 <> (tok_end tok).1 ->
        forall k, (tok_start tok).1 <= k <= (tok_end tok).1 -> k ∈ base)
    /\ base ⊆ skip_lines (indent_step st tok).
Proof.
  set (grow := fun (skip : gset Z) (line_no : Z) => {[line_no]} ∪ skip).
  assert (forall l (s0 : gset Z) k,
            k ∈ foldl grow s0 l <-> k ∈ s0 \/ k ∈ l) as Hfold.
  { induction l as [|n l IH]; intros s0 k; cbn [foldl].
    - rewrite elem_of_nil. tauto.
    - rewrite IH. subst grow. cbv beta.
      rewrite elem_of_union, elem_of_singleton, elem_of_cons. tauto. }
  exists (if bool_decide (tok_type tok = STRING)
             && negb ((tok_start tok).1 =? (tok_end tok).1)
          then foldl grow (skip_lines st)
                 (py_range (tok_start tok).1 ((tok_end tok).1 + 1))
          else skip_lines st).
  split_and!.
  - case_match; [|done]. intros k Hk. apply Hfold. by left.
  - intros Hty Hne k Hk. rewrite bool_decide_eq_true_2 by done.
    destruct (Z.eqb_spec (tok_start tok).1 (tok_end tok).1); [done|].
    cbn [negb andb]. apply Hfold. right. apply elem_of_seqZ. lia.
  - unfold indent_step. fold grow.
    set (base := if _ && _ then _ else skip_lines st).
    set (sk := if 0 <? _ then _ else base).
    assert (base ⊆ sk)
      by (subst sk; destruct (0 <? _); [apply union_subseteq_r|done]).
    by destruct (tok_type tok).
Qed.

Lemma skip_lines_grow (toks : list TokenInfo) (st : IndentState) :
  skip_lines st ⊆ skip_lines (foldl indent_step st toks).
Proof.
  revert st. induction toks as [|tok toks IH]; intros st; [done|].
  cbn [foldl]. etrans; [|apply IH].
  destruct (skip_lines_step st tok) as (base & H1 & _ & H2). by etrans.
Qed.

(** X17.  When indent computation succeeds, every line that a STRING
    token spanning several rows covers, from its first row to its last,
    is in the skip set, and the cleanup returns each of these lines
    exactly as it was. *)
Theorem multiline_string_untouched (generate_tokens : str -> TokenStream)
    (ls : list str) (indents : gmap Z Z) (skip : gset Z) (tok : TokenInfo)
    (k : Z) :
  compute_indents generate_tokens ls = Ok (Some (indents, skip)) ->
  tok ∈ yielded (generate_tokens (source_text ls)) ->
  tok_type tok = STRING -> (tok_start tok).1 <> (tok_end tok).1 ->
  (tok_start tok).1 <= k <= (tok_end tok).1 ->
  k ∈ skip
  /\ forall raw,
       1 <= k -> ls !! Z.to_nat (k - 1) = Some raw ->
       exists cleaned message,
         cleanup_indentation generate_tokens ls = Ok (cleaned, message)
         /\ cleaned !! Z.to_nat (k - 1) = Some raw.
Proof.
  intros Hcomp Htok Hty Hrows Hk.
  assert (k ∈ skip) as Hskip.
  { unfold compute_indents in Hcomp.
    destruct (raised _) as [e|]; [by destruct e|]. injection Hcomp as _ <-.
    apply list_elem_of_split in Htok as (pre & post & ->).
    rewrite foldl_app. cbn [foldl].
    apply (skip_lines_grow post).
    destruct (skip_lines_step
                (foldl indent_step (mkIndentState ∅ ∅ 0 0) pre) tok)
      as (base & _ & Hin & Hsub).
    apply Hsub. by apply Hin. }
  split; [exact Hskip|]. intros raw Hk1 Hraw.
  unfold cleanup_indentation. rewrite Hcomp. cbn [mbind result_bind].
  eexists _, _. split; [reflexivity|].
  set (cleaned := imap _ ls).
  assert (cleaned !! Z.to_nat (k - 1) = Some raw) as Hc.
  { subst cleaned. rewrite list_lookup_imap, Hraw. cbn. unfold clean_line.
    replace (Z.of_nat (Z.to_nat (k - 1)) + 1) with k by lia.
    by rewrite bool_decide_eq_true_2. }
  destruct cleaned; [done|exact Hc].
Qed.

(** The tab-indented second line of a three-line string is kept. *)
Lemma multiline_string_untouched_witness :
  exists cleaned message,
    cleanup_indentation docstring_tokens lines_docstring = Ok (cleaned, message)
    /\ cleaned !! 1%nat = Some (TAB :: py "b").
Proof.
  assert (exists indents skip,
            compute_indents docstring_tokens lines_docstring
            = Ok (Some (indents, skip)))
    as (indents & skip & Hcomp) by (by eexists _, _).
  destruct (multiline_string_untouched docstring_tokens lines_docstring
              indents skip
              (mkToken STRING
                 (triple_quote ++ py "a" ++ [LF; TAB] ++ py "b" ++ [LF]
                  ++ triple_quote) (1, 4) (3, 3)) 2 Hcomp)
    as [_ Hkeep].
  - assert (yielded (docstring_tokens (source_text lines_docstring))
            = yielded run_docstring) as -> by (by vm_compute).
    cbn [yielded run_docstring]. do 2 apply list_elem_of_further.
    apply list_elem_of_here.
  - reflexivity.
  - cbn. lia.
  - cbn. lia.
  - apply (Hkeep (TAB :: py "b")); [lia|reflexivity].
Defined.

(** ** Right, then Backspace, against Delete *)

Lemma edit_key_right (b : Buffer) (body_h : Z) :
  edit_key b KEY_RIGHT body_h
  = (line ← getitem (lines b) (cursor_y b);
     let b :=
       if cursor_x b <? len line then set_cursor_x b (cursor_x b + 1)
       else if cursor_y b <? len (lines b) - 1 then
         set_cursor_x (set_cursor_y b (cursor_y b + 1)) 0
       else b in
     Ok (set_preferred_x b (cursor_x b))).
Proof. reflexivity. Qed.

Lemma split_two_lines (ls : list str) (y : Z) (line next : str) :
  0 <= y -> ls !! Z.to_nat y = Some line ->
  ls !! Z.to_nat (y + 1) = Some next ->
  exists l1 l2, ls = l1 ++ line :: next :: l2 /\ len l1 = y.
Proof.
  intros Hy Hl Hn.
  exists (take (Z.to_nat y) ls), (drop (S (S (Z.to_nat y))) ls). split.
  - rewrite <- (take_drop_middle ls (Z.to_nat y) line Hl) at 1. do 2 f_equal.
    apply drop_S. by replace (S (Z.to_nat y)) with (Z.to_nat (y + 1)) by lia.
  - apply lookup_len in Hl. unfold len in *. rewrite length_take. lia.
Qed.

(** What [delete_forward] does at the end of a line that has a successor. *)
Lemma delete_forward_joins (b : Buffer) (l1 l2 : list str) (cur next : str) :
  selection_pending b = false ->
  lines b = l1 ++ cur :: next :: l2 ->
  cursor_y b = len l1 -> cursor_x b = len cur ->
  delete_forward b
  = Ok (set_dirty (set_lines b (l1 ++ (cur ++ next) :: l2)) true).
Proof.
  intros Hsel Hls Hy Hx. unfold delete_forward. rewrite Hsel, Hx, Hy, Hls.
  pose proof (len_nonneg l1) as Hl1. pose proof (len_nonneg l2) as Hl2.
  assert (Z.to_nat (len l1) = length l1) as Hn1 by (unfold len; lia).
  assert (Z.to_nat (len l1 + 1) = length (l1 ++ [cur])) as Hn2.
  { rewrite length_app. unfold len. simpl. lia. }
  rewrite (getitem_ok _ (len l1) cur);
    [|lia|by rewrite Hn1; apply list_lookup_middle].
  cbn [mbind result_bind]. rewrite Z.ltb_irrefl.
  destruct (Z.leb_spec (len (l1 ++ cur :: next :: l2) - 1) (len l1)) as [H|_].
  { rewrite len_app, !len_cons in H. lia. }
  rewrite (getitem_ok _ (len l1 + 1) next); [|lia|].
  2:{ rewrite Hn2.
      change (l1 ++ cur :: next :: l2) with (l1 ++ [cur] ++ next :: l2).
      rewrite app_assoc. by apply list_lookup_middle. }
  cbn [mbind result_bind].
  rewrite setitem_ok by (rewrite len_app, !len_cons; lia).
  cbn [mbind result_bind].
  rewrite Hn1, <- (Nat.add_0_r (length l1)), insert_app_r.
  cbn [insert list_insert].
  rewrite list_pop_ok by (rewrite len_app, !len_cons; lia).
  cbn [mbind result_bind]. rewrite Hn2.
  change (l1 ++ (cur ++ next) :: next :: l2)
    with (l1 ++ [cur ++ next] ++ next :: l2).
  rewrite app_assoc.
  replace (length (l1 ++ [cur])) with (length (l1 ++ [cur ++ next]))
    by (by rewrite !length_app).
  by rewrite delete_middle, <- app_assoc.
Qed.

(** X18.  On a buffer with an in-bounds cursor and no selection waiting to
    be deleted, whose cursor is not at the very end of the text, the Right
    key followed by the Backspace key leaves the same lines and the same
    cursor position as the Delete key alone: both remove the character
    under the cursor, or join the line with the next one at a line end. *)
Theorem right_backspace_is_delete (b : Buffer) (body_h : Z) :
  buffer_ok b = true -> selection_pending b = false ->
  cursor_x b < len (current_line b) \/ cursor_y b < len (lines b) - 1 ->
  exists b1 b2 b3,
    edit_key b KEY_RIGHT body_h = Ok b1
    /\ edit_key b1 KEY_BACKSPACE body_h = Ok b2
    /\ edit_key b KEY_DC body_h = Ok b3
    /\ lines b2 = lines b3
    /\ (cursor_y b2, cursor_x b2) = (cursor_y b3, cursor_x b3)
    /\ (cursor_y b3, cursor_x b3) = (cursor_y b, cursor_x b).
Proof.
  intros Hok Hsel Hcase.
  pose proof Hok as (line & Hy & Hl & Hx)%buffer_ok_spec.
  pose proof (lookup_len _ _ _ Hl) as Hlt.
  rewrite (current_line_lookup b line Hl) in Hcase.
  change (edit_key b KEY_DC body_h) with (delete_forward b).
  rewrite edit_key_right, (getitem_ok _ (cursor_y b) line) by done.
  cbn [mbind result_bind]. cbv zeta.
  destruct (Z.ltb_spec (cursor_x b) (len line)) as [Hin|Hend].
  - set (b1 := set_preferred_x _ _).
    assert (buffer_ok b1 = true) as Hok1.
    { apply buffer_ok_intro with line; subst b1; buffer_fields; [done..|lia]. }
    exists b1. eexists _, _. split; [reflexivity|].
    change (edit_key b1 KEY_BACKSPACE body_h) with (backspace b1).
    rewrite (backspace_char_spec b1 Hok1 Hsel)
      by (subst b1; buffer_fields; lia).
    split; [reflexivity|].
    unfold delete_forward. rewrite Hsel.
    rewrite (getitem_ok _ (cursor_y b) line) by done.
    cbn [mbind result_bind].
    destruct (Z.ltb_spec (cursor_x b) (len line)); [|lia].
    rewrite setitem_ok by lia. cbn [mbind result_bind].
    split; [reflexivity|].
    unfold text_after. rewrite (current_line_lookup b1 line Hl).
    subst b1. buffer_fields.
    replace (cursor_x b + 1 - 1) with (cursor_x b) by lia.
    split_and!; [done|f_equal; lia|done].
  - destruct Hcase as [?|Hnext]; [lia|].
    destruct (Z.ltb_spec (cursor_y b) (len (lines b) - 1)); [|lia].
    assert (cursor_x b = len line) as Hx' by lia.
    destruct (lookup_lt_is_Some_2 (lines b) (Z.to_nat (cursor_y b + 1)))
      as [next Hn].
    { unfold len in Hnext. lia. }
    destruct (split_two_lines _ _ _ _ Hy Hl Hn) as (l1 & l2 & Hls & Hl1).
    set (b1 := set_preferred_x _ _).
    exists b1. eexists _, _. split; [reflexivity|].
    change (edit_key b1 KEY_BACKSPACE body_h) with (backspace b1).
    rewrite (backspace_joins b1 l1 l2 line next Hsel Hls)
      by (subst b1; buffer_fields; (lia || done)).
    split; [reflexivity|].
    rewrite (delete_forward_joins b l1 l2 line next Hsel Hls) by lia.
    split; [reflexivity|]. buffer_fields.
    split_and!; [done|f_equal; lia|done].
Qed.

(** On [ab], [c] with the cursor at the end of the first line, both ways
    give the single line [abc]. *)
Lemma right_backspace_is_delete_witness :
  exists b1 b2 b3,
    edit_key (set_cursor_x (set_cursor_y sample_buffer 0) 2) KEY_RIGHT 10
    = Ok b1
    /\ edit_key b1 KEY_BACKSPACE 10 = Ok b2
    /\ edit_key (set_cursor_x (set_cursor_y sample_buffer 0) 2) KEY_DC 10
       = Ok b3
    /\ lines b2 = [py "abc"] /\ lines b3 = [py "abc"].
Proof.
  destruct (right_backspace_is_delete
              (set_cursor_x (set_cursor_y sample_buffer 0) 2) 10)
    as (b1 & b2 & b3 & H1 & H2 & H3 & Hlines & _).
  - reflexivity.
  - reflexivity.
  - right. vm_compute. reflexivity.
  - exists b1, b2, b3. split_and!; try done.
    + rewrite Hlines. by injection H3 as <-.
    + by injection H3 as <-.
Defined.

(** ** The selection while it is being made *)

Lemma edits_keep_selection (b b' : Buffer) (ch : str) :
  selection_pending b = false ->
  insert_char b ch = Ok b' \/ newline b = Ok b' \/ backspace b = Ok b'
  \/ delete_forward b = Ok b' ->
  selection_fields b' = selection_fields b.
Proof.
  intros Hsel [H|[H|[H|H]]];
    unfold insert_char, newline, backspace, delete_forward in H;
    rewrite Hsel in H; cbv zeta in H; returned H; reflexivity.
Qed.

Lemma selecting_not_pending (b : Buffer) :
  selecting b = true -> selection_pending b = false.
Proof. intros H. unfold selection_pending. rewrite H. apply andb_false_r. Qed.

(** While a selection is being made, a key changes neither its flag nor
    its start, and leaves the cursor on a line of the buffer. *)
Lemma edit_key_selecting (b b1 : Buffer) (key body_h : Z) :
  buffer_ok b = true -> 1 <= body_h -> selecting b = true ->
  edit_key b key body_h = Ok b1 ->
  selecting b1 = true /\ selection_start b1 = selection_start b
  /\ 0 <= cursor_y b1 < len (lines b1).
Proof.
  intros Hok Hh Hon Hkey.
  pose proof (selecting_not_pending b Hon) as Hsel.
  pose proof Hok as (line & Hy & Hl & Hx)%buffer_ok_spec.
  pose proof (lookup_len _ _ _ Hl) as Hlt.
  assert (forall v, 0 <= v < len (lines b) ->
            snap_to_preferred (set_cursor_y b v) = Ok b1 ->
            selecting b1 = true /\ selection_start b1 = selection_start b
            /\ 0 <= cursor_y b1 < len (lines b1)) as Hsnap.
  { intros v Hv H. unfold snap_to_preferred in H. returned H.
    by buffer_fields. }
  assert (forall r : result Buffer,
            (exists b', r = Ok b' /\ buffer_ok b' = true) ->
            (r = Ok b1 -> selection_fields b1 = selection_fields b) ->
            r = Ok b1 ->
            selecting b1 = true /\ selection_start b1 = selection_start b
            /\ 0 <= cursor_y b1 < len (lines b1)) as Hedit.
  { intros r (b' & -> & Hb') Hf [= ->].
    specialize (Hf eq_refl). injection Hf as -> -> _.
    apply buffer_ok_spec in Hb' as (l' & ? & Hl' & _).
    apply lookup_len in Hl'. split_and!; (done || lia). }
  unfold edit_key in Hkey.
  destruct (key =? KEY_UP); [apply Hsnap in Hkey; [done|lia]|].
  destruct (key =? KEY_DOWN); [apply Hsnap in Hkey; [done|lia]|].
  destruct (key =? KEY_LEFT).
  { returned Hkey; buffer_fields; split_and!; (done || (rewrite ?Z.ltb_lt, ?Z.ltb_ge in *; lia)). }
  destruct (key =? KEY_RIGHT).
  { returned Hkey; buffer_fields; split_and!; (done || (rewrite ?Z.ltb_lt, ?Z.ltb_ge in *; lia)). }
  destruct (key =? KEY_HOME).
  { returned Hkey; buffer_fields; split_and!; (done || (rewrite ?Z.ltb_lt, ?Z.ltb_ge in *; lia)). }
  destruct (key =? KEY_END).
  { returned Hkey; buffer_fields; split_and!; (done || (rewrite ?Z.ltb_lt, ?Z.ltb_ge in *; lia)). }
  destruct (key =? KEY_PPAGE); [apply Hsnap in Hkey; [done|lia]|].
  destruct (key =? KEY_NPAGE); [apply Hsnap in Hkey; [done|lia]|].
  destruct ((key =? 10) || (key =? 13)).
  { apply (Hedit (newline b)); [by apply newline_ok| |done].
    intros H. apply (edits_keep_selection b b1 []); auto. }
  destruct ((key =? KEY_BACKSPACE) || (key =? 127) || (key =? 8)).
  { apply (Hedit (backspace b)); [by apply backspace_ok| |done].
    intros H. apply (edits_keep_selection b b1 []); auto. }
  destruct (key =? KEY_DC).
  { apply (Hedit (delete_forward b)); [by apply delete_forward_ok| |done].
    intros H. apply (edits_keep_selection b b1 []); auto. }
  destruct (key =? 9).
  { apply (Hedit (insert_char b (str_mul [SPACE] INDENT_WIDTH)));
      [by apply insert_char_ok| |done].
    intros H. eapply edits_keep_selection; eauto. }
  destruct ((32 <=? key) && (key <=? 126)).
  { apply (Hedit (insert_char b [Z.to_N key]));
      [by apply insert_char_ok| |done].
    intros H. eapply edits_keep_selection; eauto. }
  injection Hkey as <-. split_and!; (done || lia).
Qed.

(** X19.  While a selection is being made (the flag is set and a start
    line is recorded), every key handled by the end of [handle_input]
    keeps the flag and the start line and leaves the selection's end on
    the line of the cursor. *)
Theorem selection_end_follows_cursor (b : Buffer) (key body_h editor_w s : Z) :
  buffer_ok b = true -> 1 <= body_h ->
  selecting b = true -> selection_start b = Some s ->
  exists b',
    handle_edit_key b key body_h editor_w = Ok b'
    /\ selecting b' = true /\ selection_start b' = Some s
    /\ selection_end b' = Some (cursor_y b').
Proof.
  intros Hok Hh Hon Hstart. unfold handle_edit_key.
  destruct (edit_key_ok b key body_h Hok Hh) as (b1 & Hkey & Hb1).
  rewrite Hkey. cbn [mbind result_bind].
  destruct (edit_key_selecting b b1 key body_h Hok Hh Hon Hkey)
    as (Hon1 & Hstart1 & Hy1).
  rewrite Hstart in Hstart1.
  assert (update_selection b1
          = mkBuffer (lines b1) (file_path b1) (cursor_y b1) (cursor_x b1)
              (preferred_x b1) (scroll_y b1) (scroll_x b1) (dirty b1) true
              (Some s) (Some (cursor_y b1))) as ->.
  { unfold update_selection. by rewrite Hstart1, Hon1. }
  unfold keep_cursor_in_bounds. buffer_fields.
  replace (Z.max 0 (Z.min (cursor_y b1) (len (lines b1) - 1)))
    with (cursor_y b1) by lia.
  destruct (lookup_lt_is_Some_2 (lines b1) (Z.to_nat (cursor_y b1)))
    as [line Hline].
  { unfold len in Hy1. lia. }
  rewrite (getitem_ok _ (cursor_y b1) line) by (done || lia).
  cbn [mbind result_bind]. eexists. split; [reflexivity|].
  split_and!; viewport_cases; reflexivity.
Qed.

(** Selecting from the second line of [ab], [c], the key Up moves the
    selection's end to the first line. *)
Lemma selection_end_follows_cursor_witness :
  exists b',
    handle_edit_key
      (mkBuffer [py "ab"; py "c"] None 1 0 0 0 0 false true (Some 1) (Some 1))
      KEY_UP 10 80 = Ok b'
    /\ selection_start b' = Some 1 /\ selection_end b' = Some 0.
Proof.
  destruct (selection_end_follows_cursor
              (mkBuffer [py "ab"; py "c"] None 1 0 0 0 0 false true (Some 1)
                 (Some 1)) KEY_UP 10 80 1)
    as (b' & Hrun & _ & Hstart & Hend); [reflexivity|lia|reflexivity..|].
  exists b'. split; [exact Hrun|]. split; [exact Hstart|].
  rewrite Hend. by injection Hrun as <-.
Defined.

(** ** The conditional parts above, at concrete inputs *)

(** A buffer without lines raises; [ab], [c] with the cursor at (1, 0) is
    returned as it is. *)
Lemma keep_cursor_in_bounds_spec_witness :
  keep_cursor_in_bounds (set_lines sample_buffer []) = Raise IndexError
  /\ keep_cursor_in_bounds sample_buffer = Ok sample_buffer.
Proof.
  split.
  - destruct (keep_cursor_in_bounds_spec (set_lines sample_buffer []))
      as (Hnil & _). by apply Hnil.
  - destruct (keep_cursor_in_bounds_spec sample_buffer) as (_ & _ & Hok).
    by apply Hok.
Defined.

(** Deleting the selected first line of [ab], [c] leaves [c]. *)
Lemma delete_selection_spec_witness :
  exists b',
    delete_selection
      (mkBuffer [py "ab"; py "c"] None 1 0 0 0 0 false false (Some 0) (Some 0))
    = (b', true)
    /\ lines b' = [py "c"] /\ cursor_y b' = 0.
Proof.
  destruct (delete_selection_spec
              (mkBuffer [py "ab"; py "c"] None 1 0 0 0 0 false false (Some 0)
                 (Some 0))) as [_ Hsel].
  destruct (Hsel eq_refl) as (b' & Hdel & _ & _ & _ & _ & _ & Hrange).
  exists b'. split; [exact Hdel|].
  destruct (Hrange 0 0) as [Hlines Hy]; [reflexivity|lia|by vm_compute|].
  rewrite Hy, Hlines. by vm_compute.
Defined.

(** A cursor at (1, 0) in a window of 10 rows and 80 columns at the
    origin. *)
Lemma ensure_cursor_visible_stable_witness :
  ensure_cursor_visible sample_buffer 10 80 = sample_buffer.
Proof.
  destruct (ensure_cursor_visible_stable sample_buffer 10 80) as [Hin _].
  apply Hin; cbn; lia.
Defined.

(** Eight characters in a room of five, and in a room of two. *)
Lemma truncate_text_fits_witness :
  truncate_text (py "abcdefgh") 5 = py "ab..."
  /\ truncate_text (py "abcdefgh") 2 = py "ab".
Proof.
  destruct (truncate_text_fits (py "abcdefgh") 5) as (_ & _ & _ & Hdots).
  destruct (truncate_text_fits (py "abcdefgh") 2) as (_ & _ & Hsmall & _).
  split.
  - destruct Hdots as [-> _]; by vm_compute.
  - rewrite Hsmall; by vm_compute.
Defined.

(** Three tabs, the last one active: forward to the first, back to the
    second. *)
Lemma tab_index_stays_valid_witness :
  active (switch_tab three_tabs 1) = 0
  /\ active (switch_tab three_tabs (-1)) = 1
  /\ active (switch_tab (switch_tab three_tabs 1) (- (1))) = 2.
Proof.
  destruct (tab_index_stays_valid three_tabs 1) as (_ & Hsome & _).
  destruct Hsome as (_ & _ & _ & Hvalid); [done|].
  destruct Hvalid as (Hback & Hnext & Hprev); [by vm_compute|].
  split_and!; [by rewrite Hnext|by rewrite Hprev|by rewrite Hback].
Defined.
